(** * Gameweek lifecycle and scoring engine of the fantasy-soccer application

    A shallow embedding of the PL/pgSQL procedures of
    [supabase/migrations] ([calculate_fantasy_team_points],
    [finalize_gameweek], [update_gameweek_status], [transfers_allowed]) and of
    the TypeScript functions that sit next to them
    ([calculateTeamPointsManual] of [GameweekManager.tsx],
    [calculatePlayerPoints] of [LiveMatchSimulation.tsx], [makeTransfer] of
    the [useTransfers] hook), followed by the properties of the
    specification that concern them.

    Conventions of the embedding:
    - a [uuid] key is the 128-bit number it denotes, so [ORDER BY] on a key
      column is the order of [N];
    - [INTEGER] columns and JavaScript numbers holding counts are [Z];
      timestamps are [Z] (microseconds since the epoch); prices are [Z]
      (counted in the smallest unit of the [numeric] column);
    - a nullable column is an [option]; SQL conditions are evaluated in
      three-valued logic and a row is kept only when the condition is TRUE;
    - tables with a primary or unique key that the code reads by key are
      [gmap]s on that key; tables that the code scans are lists in scan
      order; [ORDER BY] is a stable sort of the scan (PostgreSQL leaves the
      order of ties open). *)

From Stdlib Require Import ZArith NArith List Bool Lia.
From stdpp Require Import base option list gmap.

Local Open Scope Z_scope.

(** ** SQL three-valued logic *)

Module Sql.

Definition and3 (a b : option bool) : option bool :=
  match a, b with
  | Some false, _ => Some false
  | _, Some false => Some false
  | Some true, Some true => Some true
  | _, _ => None
  end.

Definition or3 (a b : option bool) : option bool :=
  match a, b with
  | Some true, _ => Some true
  | _, Some true => Some true
  | Some false, Some false => Some false
  | _, _ => None
  end.

(** A comparison with a NULL operand is NULL. *)
Definition cmp3 {A : Type} (f : A -> A -> bool) (a b : option A) : option bool :=
  match a, b with
  | Some x, Some y => Some (f x y)
  | _, _ => None
  end.

(** [WHERE c], [IF c THEN]: only TRUE passes. *)
Definition is_true (a : option bool) : bool :=
  match a with
  | Some true => true
  | _ => false
  end.

Definition is_not_null {A : Type} (a : option A) : bool :=
  match a with
  | Some _ => true
  | None => false
  end.

(** [COALESCE(a, d)] *)
Definition coalesce {A : Type} (a : option A) (d : A) : A :=
  match a with
  | Some x => x
  | None => d
  end.

(** [ORDER BY k DESC NULLS LAST]: does [a] sort strictly before [b]? *)
Definition desc_nulls_last (a b : option Z) : bool :=
  match a, b with
  | Some x, Some y => y <? x
  | Some _, None => true
  | None, _ => false
  end.

(** Stable insertion sort; [before x y] says that [x] sorts strictly
    before [y]. *)
Fixpoint insert_by {A : Type} (before : A -> A -> bool) (x : A) (l : list A) : list A :=
  match l with
  | [] => [x]
  | y :: l' => if before y x then y :: insert_by before x l' else x :: y :: l'
  end.

Fixpoint order_by {A : Type} (before : A -> A -> bool) (l : list A) : list A :=
  match l with
  | [] => []
  | x :: l' => insert_by before x (order_by before l')
  end.

End Sql.

(** ** Schema ([src/types/database.ts] and the migrations) *)

Abbreviation uuid := N (only parsing).

Inductive player_position := GK | DEF | MID | FWD.

Inductive match_status := scheduled | live | completed | postponed.

Inductive gameweek_status := upcoming | active | locked | finalized.

Definition position_eqb (a b : player_position) : bool :=
  match a, b with
  | GK, GK | DEF, DEF | MID, MID | FWD, FWD => true
  | _, _ => false
  end.

Definition match_status_eqb (a b : match_status) : bool :=
  match a, b with
  | scheduled, scheduled | live, live | completed, completed
  | postponed, postponed => true
  | _, _ => false
  end.

Record player := {
  position_of : player_position;
  price : Z
}.

Record roster := {
  roster_id : uuid;
  fantasy_team_id : option uuid;
  player_id : option uuid;
  is_starter : option bool;
  is_captain : option bool;
  is_vice_captain : option bool;
  purchase_price : Z
}.

(** The two columns of [gameweek_scores] that the team calculators read;
    the table is unique on (player_id, gameweek). *)
Record gameweek_score := {
  total_points : option Z;
  minutes_played : option Z
}.

Record real_match := {
  match_gameweek : Z;
  match_status_of : match_status
}.

Record gameweek := {
  gameweek_number : Z;
  status : gameweek_status;
  is_current : option bool;
  is_next : option bool;
  deadline_time : option Z;
  start_time : option Z;
  end_time : option Z
}.

Record fantasy_team := {
  team_id : uuid;
  league_id : option uuid;
  team_total_points : Z;
  gameweek_points : Z;
  rank : Z;
  budget_remaining : Z;
  transfers_made_this_gw : Z;
  transfers_banked : Z;
  current_gameweek : Z
}.

(** A row of [fantasy_team_gameweek_points], unique on
    (fantasy_team_id, gameweek). *)
Record gameweek_points_row := {
  points : Z;
  rank_in_league : option Z
}.

Inductive transaction_type := draft | transfer_in | transfer_out | captain_change.

Record transaction := {
  tx_fantasy_team_id : uuid;
  tx_player_id : uuid;
  tx_type : transaction_type;
  tx_gameweek : Z;
  tx_price : Z;
  tx_transfer_cost : Z
}.

Record database := {
  real_matches : list real_match;
  gameweeks : list gameweek;
  fantasy_teams : list fantasy_team;
  rosters : list roster;
  players : gmap N player;
  gameweek_scores : gmap (N * Z) gameweek_score;
  fantasy_team_gameweek_points : gmap (N * Z) gameweek_points_row;
  transactions : list transaction
}.

(** ** Team Points Calculator *)

Module TeamPoints.

Import Sql.

(** [r.fantasy_team_id = p_fantasy_team_id] *)
Definition of_team (t : uuid) (r : roster) : bool :=
  is_true (cmp3 N.eqb (fantasy_team_id r) (Some t)).

(** [LEFT JOIN gameweek_scores gs ON r.player_id = gs.player_id AND
    gs.gameweek = p_gameweek] *)
Definition score_of (db : database) (gw : Z) (pid : option uuid) : option gameweek_score :=
  match pid with
  | Some p => gameweek_scores db !! (p, gw)
  | None => None
  end.

(** [gs.total_points] of the left join: NULL when no row matched. *)
Definition gs_total_points (gs : option gameweek_score) : option Z :=
  match gs with
  | Some s => total_points s
  | None => None
  end.

Definition gs_minutes_played (gs : option gameweek_score) : option Z :=
  match gs with
  | Some s => minutes_played s
  | None => None
  end.

(** A row of [rosters r JOIN players p LEFT JOIN gameweek_scores gs]. *)
Record joined := {
  j_roster : roster;
  j_player : player;
  j_score : option gameweek_score
}.

Definition join_row (db : database) (gw : Z) (r : roster) : list joined :=
  match player_id r with
  | Some pid =>
      match players db !! pid with
      | Some p => [ {| j_roster := r; j_player := p;
                       j_score := gameweek_scores db !! (pid, gw) |} ]
      | None => []
      end
  | None => []
  end.

(** [FROM rosters r JOIN players p ON ... LEFT JOIN gameweek_scores gs ON ...
    WHERE r.fantasy_team_id = p_fantasy_team_id] *)
Definition team_rows (db : database) (t : uuid) (gw : Z) : list joined :=
  flat_map (join_row db gw) (List.filter (of_team t) (rosters db)).

(** The record the main loop iterates over. *)
Record player_record := {
  pr_player_id : option uuid;
  pr_is_starter : option bool;
  pr_is_captain : option bool;
  pr_is_vice_captain : option bool;
  pr_position : player_position;
  pr_player_points : Z;
  pr_minutes_played : Z
}.

Definition select_player_record (j : joined) : player_record :=
  {| pr_player_id := player_id (j_roster j);
     pr_is_starter := is_starter (j_roster j);
     pr_is_captain := is_captain (j_roster j);
     pr_is_vice_captain := is_vice_captain (j_roster j);
     pr_position := position_of (j_player j);
     pr_player_points := coalesce (gs_total_points (j_score j)) 0;
     pr_minutes_played := coalesce (gs_minutes_played (j_score j)) 0 |}.

(** [ORDER BY b DESC] on a nullable boolean: NULL, then true, then false. *)
Definition bool_desc_key (b : option bool) : Z :=
  match b with
  | None => 2
  | Some true => 1
  | Some false => 0
  end.

(** [ORDER BY r.is_starter DESC, gs.total_points DESC NULLS LAST] *)
Definition loop_order (a b : joined) : bool :=
  let ka := bool_desc_key (is_starter (j_roster a)) in
  let kb := bool_desc_key (is_starter (j_roster b)) in
  (kb <? ka) ||
  ((ka =? kb) &&
   desc_nulls_last (gs_total_points (j_score a)) (gs_total_points (j_score b))).

Definition loop_rows (db : database) (t : uuid) (gw : Z) : list player_record :=
  map select_player_record (order_by loop_order (team_rows db t gw)).

Record substitute_record := {
  sub_player_id : option uuid;
  sub_points : Z;
  sub_minutes : Z
}.

Definition select_substitute (j : joined) : substitute_record :=
  {| sub_player_id := player_id (j_roster j);
     sub_points := coalesce (gs_total_points (j_score j)) 0;
     sub_minutes := coalesce (gs_minutes_played (j_score j)) 0 |}.

(** [r2.is_starter = false AND p2.position = player_record.position AND
    COALESCE(gs2.minutes_played, 0) > 0] *)
Definition substitute_where (pos : player_position) (j : joined) : bool :=
  is_true (and3 (cmp3 Bool.eqb (is_starter (j_roster j)) (Some false))
          (and3 (Some (position_eqb (position_of (j_player j)) pos))
                (Some (0 <? coalesce (gs_minutes_played (j_score j)) 0)))).

Definition substitute_order (a b : joined) : bool :=
  desc_nulls_last (gs_total_points (j_score a)) (gs_total_points (j_score b)).

(** [SELECT ... INTO substitute_record ... ORDER BY gs2.total_points DESC
    NULLS LAST LIMIT 1]; [None] is the all-NULL record of an empty
    result. *)
Definition find_substitute (db : database) (t : uuid) (gw : Z) (pos : player_position)
  : option substitute_record :=
  head (map select_substitute
          (order_by substitute_order
             (List.filter (substitute_where pos) (team_rows db t gw)))).

(** The loop variables [total_points] and [captain_points]. *)
Record acc := {
  acc_total : Z;
  acc_captain : Z
}.

(** One iteration of the loop over the roster. *)
Definition loop_body (db : database) (t : uuid) (gw : Z) (a : acc) (pr : player_record) : acc :=
  if is_true (pr_is_starter pr) then
    if pr_minutes_played pr =? 0 then
      match find_substitute db t gw (pr_position pr) with
      | Some sub =>
          if is_not_null (sub_player_id sub) then
            {| acc_total := acc_total a + sub_points sub;
               acc_captain := if is_true (pr_is_captain pr)
                              then sub_points sub else acc_captain a |}
          else a
      | None => a
      end
    else
      {| acc_total := acc_total a + pr_player_points pr;
         acc_captain := if is_true (pr_is_captain pr)
                        then pr_player_points pr else acc_captain a |}
  else a.

(** [SELECT player_id INTO vice_captain_id FROM rosters WHERE
    fantasy_team_id = p_fantasy_team_id AND is_vice_captain = true] *)
Definition select_vice_captain_id (db : database) (t : uuid) : option uuid :=
  match List.filter (fun r => of_team t r && is_true (is_vice_captain r)) (rosters db) with
  | r :: _ => player_id r
  | [] => None
  end.

(** [SELECT COALESCE(gs.total_points, 0) INTO captain_points FROM
    gameweek_scores gs WHERE gs.player_id = vice_captain_id AND
    gs.gameweek = p_gameweek]: NULL when there is no such row. *)
Definition vice_captain_points (db : database) (gw : Z) (vc : uuid) : option Z :=
  match gameweek_scores db !! (vc, gw) with
  | Some gs => Some (coalesce (total_points gs) 0)
  | None => None
  end.

(** The captain multiplier after the loop. *)
Definition captain_bonus (db : database) (t : uuid) (gw : Z) (captain_points : Z) : Z :=
  if 0 <? captain_points then captain_points
  else
    match select_vice_captain_id db t with
    | Some vc =>
        let captain_points := vice_captain_points db gw vc in
        if is_true (cmp3 Z.ltb (Some 0) captain_points)
        then coalesce captain_points 0
        else 0
    | None => 0
    end.

Definition run_loop (db : database) (t : uuid) (gw : Z) : acc :=
  fold_left (loop_body db t gw) (loop_rows db t gw)
    {| acc_total := 0; acc_captain := 0 |}.

(** [calculate_fantasy_team_points(p_fantasy_team_id, p_gameweek)] *)
Definition calculate_fantasy_team_points (db : database) (t : uuid) (gw : Z) : Z :=
  let a := run_loop db t gw in
  acc_total a + captain_bonus db t gw (acc_captain a).

(** *** The client-side fallback, [calculateTeamPointsManual] *)

(** A row of [from('rosters').select('*, players:player_id (position)')]:
    the embedded player is absent when the key does not resolve. *)
Record roster_with_player := {
  rw_roster : roster;
  rw_players : option player
}.

Definition embed_player (db : database) (r : roster) : roster_with_player :=
  {| rw_roster := r;
     rw_players := match player_id r with
                   | Some pid => players db !! pid
                   | None => None
                   end |}.

Definition select_roster (db : database) (t : uuid) : list roster_with_player :=
  map (embed_player db) (List.filter (of_team t) (rosters db)).

(** [r.players?.position] *)
Definition rw_position (r : roster_with_player) : option player_position :=
  match rw_players r with
  | Some p => Some (position_of p)
  | None => None
  end.

Definition option_position_eqb (a b : option player_position) : bool :=
  match a, b with
  | Some x, Some y => position_eqb x y
  | None, None => true
  | _, _ => false
  end.

(** [!r.is_starter]: null is falsy. *)
Definition not_starter (r : roster_with_player) : bool :=
  negb (is_true (is_starter (rw_roster r))).

(** [scores?.total_points || 0], [scores?.minutes_played || 0] *)
Definition or_zero (v : option Z) : Z := coalesce v 0.

(** [roster.find(r => !r.is_starter && r.players?.position ===
    rosterPlayer.players?.position)] *)
Definition find_bench (roster : list roster_with_player) (rosterPlayer : roster_with_player)
  : option roster_with_player :=
  List.find (fun r => not_starter r &&
                      option_position_eqb (rw_position r) (rw_position rosterPlayer))
            roster.

Definition manual_body (db : database) (gw : Z) (roster : list roster_with_player)
    (a : acc) (rosterPlayer : roster_with_player) : acc :=
  if not_starter rosterPlayer then a
  else
    let scores := score_of db gw (player_id (rw_roster rosterPlayer)) in
    let playerPoints := or_zero (gs_total_points scores) in
    let minutesPlayed := or_zero (gs_minutes_played scores) in
    if minutesPlayed =? 0 then
      match find_bench roster rosterPlayer with
      | Some substitute =>
          let subScores := score_of db gw (player_id (rw_roster substitute)) in
          let subPoints := or_zero (gs_total_points subScores) in
          let subMinutes := or_zero (gs_minutes_played subScores) in
          if 0 <? subMinutes then
            {| acc_total := acc_total a + subPoints;
               acc_captain := if is_true (is_captain (rw_roster rosterPlayer))
                              then subPoints else acc_captain a |}
          else a
      | None => a
      end
    else
      {| acc_total := acc_total a + playerPoints;
         acc_captain := if is_true (is_captain (rw_roster rosterPlayer))
                        then playerPoints else acc_captain a |}.

Definition calculateTeamPointsManual (db : database) (fantasyTeamId : uuid) (gameweek : Z) : Z :=
  let roster := select_roster db fantasyTeamId in
  let a := fold_left (manual_body db gameweek roster) roster
             {| acc_total := 0; acc_captain := 0 |} in
  acc_total a + acc_captain a.

End TeamPoints.

(** ** Scoring Engine ([calculatePlayerPoints] of [LiveMatchSimulation.tsx]) *)

Module Scoring.

Record PlayerStats := {
  minutes_played : Z;
  goals : Z;
  assists : Z;
  clean_sheet : bool;
  yellow_cards : Z;
  red_cards : Z;
  saves : Z;
  penalty_saves : Z;
  penalty_misses : Z;
  own_goals : Z;
  goals_conceded : Z;
  bonus_points : Z;
  total_points : Z;
  is_playing : bool
}.

Record Player := {
  player_id : uuid;
  position : player_position
}.

(** The body of [calculatePlayerPoints] up to, and without, the final
    [Math.max(0, points)]; [Math.floor(a / b)] on integers is [Z.div]. *)
Definition points_before_clamp (stats : PlayerStats) (player : Player) : Z :=
  let points := 0 in
  (* Minutes played points *)
  let points :=
    if (0 <? minutes_played stats) && (minutes_played stats <? 60) then points + 1
    else if 60 <=? minutes_played stats then points + 2
    else points in
  (* Goals points based on position *)
  let points :=
    if 0 <? goals stats then
      match position player with
      | GK => points + goals stats * 10
      | DEF => points + goals stats * 6
      | MID => points + goals stats * 5
      | FWD => points + goals stats * 4
      end
    else points in
  (* Assists *)
  let points := points + assists stats * 3 in
  (* Clean sheet points *)
  let points :=
    if clean_sheet stats then
      if position_eqb (position player) GK || position_eqb (position player) DEF
      then points + 4
      else if position_eqb (position player) MID then points + 1
      else points
    else points in
  (* Goalkeeper specific points *)
  let points :=
    if position_eqb (position player) GK then
      let points := points + saves stats / 3 in
      let points := points + penalty_saves stats * 5 in
      points - goals_conceded stats / 2
    else points in
  (* Defender specific points *)
  let points :=
    if position_eqb (position player) DEF
    then points - goals_conceded stats / 2
    else points in
  (* Penalty misses *)
  let points := points - penalty_misses stats * 2 in
  (* Cards *)
  let points := points - yellow_cards stats * 1 in
  let points := points - red_cards stats * 3 in
  (* Own goals *)
  let points := points - own_goals stats * 2 in
  (* Bonus points *)
  points + bonus_points stats.

Definition calculatePlayerPoints (playerStats : gmap N PlayerStats)
    (homePlayers awayPlayers : list Player) (playerId : uuid) : Z :=
  match playerStats !! playerId with
  | None => 0
  | Some stats =>
      match List.find (fun p => N.eqb (player_id p) playerId) (homePlayers ++ awayPlayers) with
      | None => 0
      | Some player => Z.max 0 (points_before_clamp stats player)
      end
  end.

Definition with_clean_sheet (b : bool) (s : PlayerStats) : PlayerStats :=
  {| minutes_played := minutes_played s; goals := goals s; assists := assists s;
     clean_sheet := b; yellow_cards := yellow_cards s; red_cards := red_cards s;
     saves := saves s; penalty_saves := penalty_saves s;
     penalty_misses := penalty_misses s; own_goals := own_goals s;
     goals_conceded := goals_conceded s; bonus_points := bonus_points s;
     total_points := total_points s; is_playing := is_playing s |}.

(** The clean-sheet award of the scoring table. *)
Definition clean_sheet_award (pos : player_position) : Z :=
  match pos with
  | GK | DEF => 4
  | MID => 1
  | FWD => 0
  end.

(** What the clean-sheet rule contributes to a player's sum: the sum with
    the player's stats minus the sum with the flag cleared. *)
Definition clean_sheet_points (stats : PlayerStats) (player : Player) : Z :=
  points_before_clamp stats player
  - points_before_clamp (with_clean_sheet false stats) player.

End Scoring.

(** ** Gameweek Calendar and Transfer Gate (PL/pgSQL) *)

Module Calendar.

Import Sql.

Definition set_flags (cur nxt : option bool) (g : gameweek) : gameweek :=
  {| gameweek_number := gameweek_number g; status := status g;
     is_current := cur; is_next := nxt;
     deadline_time := deadline_time g; start_time := start_time g;
     end_time := end_time g |}.

Definition set_status (s : gameweek_status) (g : gameweek) : gameweek :=
  {| gameweek_number := gameweek_number g; status := s;
     is_current := is_current g; is_next := is_next g;
     deadline_time := deadline_time g; start_time := start_time g;
     end_time := end_time g |}.

(** [UPDATE gameweeks SET ... WHERE c] *)
Definition update_where (c : gameweek -> bool) (f : gameweek -> gameweek)
    (gws : list gameweek) : list gameweek :=
  map (fun g => if c g then f g else g) gws.

(** [gameweek_number = (scalar subquery)]: no row when the subquery is NULL. *)
Definition number_is (n : option Z) (g : gameweek) : bool :=
  is_true (cmp3 Z.eqb (Some (gameweek_number g)) n).

(** [MIN(x)] over the selected rows; NULL over no rows. *)
Definition min_of (l : list Z) : option Z :=
  match l with
  | [] => None
  | x :: l' => Some (fold_left Z.min l' x)
  end.

(** [deadline_time IS NOT NULL AND start_time IS NOT NULL AND end_time IS
    NOT NULL] *)
Definition window_complete (g : gameweek) : bool :=
  is_not_null (deadline_time g) && is_not_null (start_time g)
  && is_not_null (end_time g).

(** *** The word [current_time]

    Both functions declare [current_time TIMESTAMPTZ := now()] and then
    write [current_time] in their SQL statements.  In an SQL statement that
    word is the keyword [CURRENT_TIME], whose type is [time with time zone];
    the variable declared under the name is never substituted for it.  The
    columns [deadline_time], [start_time] and [end_time] are [TIMESTAMPTZ]. *)

Inductive sql_type := time_with_time_zone | timestamp_with_time_zone.

Definition sql_type_eqb (a b : sql_type) : bool :=
  match a, b with
  | time_with_time_zone, time_with_time_zone
  | timestamp_with_time_zone, timestamp_with_time_zone => true
  | _, _ => false
  end.

(** SQLSTATE 42883, [operator does not exist: l >= r]. *)
Inductive exception :=
| Undefined_function (l r : sql_type).

(** What a call gives back: the value returned or the exception raised. *)
Inductive result (A : Type) :=
| Returned (a : A)
| Raised (e : exception).

Arguments Returned {A} a.
Arguments Raised {A} e.

(** The comparison operators [<], [<=], [>=] and [>] as the planner looks
    them up for a left operand of type [l] and a right operand of type [r],
    before any row is read: each type has them for two operands of its own,
    there is none for one operand of each, and no implicit cast leads from
    one type to the other.  The operator found compares in three-valued
    logic. *)
Definition comparison (l r : sql_type)
  : option ((Z -> Z -> bool) -> option Z -> option Z -> option bool) :=
  if sql_type_eqb l r then Some (fun op a b => cmp3 op a b) else None.

(** The comparisons of [CURRENT_TIME] with a time column. *)
Definition compare_with_column :=
  comparison time_with_time_zone timestamp_with_time_zone.

Section Planned.

(** The operator that the planner has found, and the value of
    [CURRENT_TIME]. *)
Variable cmp : (Z -> Z -> bool) -> option Z -> option Z -> option bool.
Variable current_time : Z.

(** [current_time >= start_time AND current_time <= end_time] *)
Definition in_window (g : gameweek) : bool :=
  is_true (and3 (cmp Z.geb (Some current_time) (start_time g))
                (cmp Z.leb (Some current_time) (end_time g))).

(** The [CASE] of the status update. *)
Definition status_case (g : gameweek) : gameweek_status :=
  if is_true (cmp Z.ltb (Some current_time) (deadline_time g)) then upcoming
  else if is_true (and3 (cmp Z.geb (Some current_time) (deadline_time g))
                        (cmp Z.ltb (Some current_time) (start_time g))) then locked
  else if is_true (and3 (cmp Z.geb (Some current_time) (start_time g))
                        (cmp Z.leb (Some current_time) (end_time g))) then active
  else if is_true (cmp Z.gtb (Some current_time) (end_time g)) then finalized
  else status g.

(** The statements of [update_gameweek_status] from the second on, once
    their comparisons are planned. *)
Definition set_flags_and_status (gws : list gameweek) : list gameweek :=
  (* Set current gameweek *)
  let live_number :=
    head (order_by Z.ltb (map gameweek_number (List.filter in_window gws))) in
  let gws := update_where (number_is live_number)
               (fun g => set_flags (Some true) (is_next g) g) gws in
  (* If no active gameweek found, set the next upcoming one as current *)
  let gws :=
    if existsb (fun g => is_true (is_current g)) gws then gws
    else
      let upcoming_number :=
        min_of (map gameweek_number
                  (List.filter
                     (fun g => is_true (cmp Z.ltb (Some current_time) (start_time g)))
                     gws)) in
      update_where (number_is upcoming_number)
        (fun g => set_flags (Some true) (is_next g) g) gws in
  (* Set next gameweek *)
  let current_number :=
    head (map gameweek_number (List.filter (fun g => is_true (is_current g)) gws)) in
  let next_number :=
    min_of (map gameweek_number
              (List.filter
                 (fun g => is_true (cmp3 Z.gtb (Some (gameweek_number g)) current_number))
                 gws)) in
  let gws := update_where (number_is next_number)
               (fun g => set_flags (is_current g) (Some true) g) gws in
  (* Update status based on time *)
  update_where window_complete (fun g => set_status (status_case g) g) gws.

(** The [EXISTS] of [transfers_allowed], once its comparison is planned. *)
Definition deadline_passed (gws : list gameweek) : bool :=
  existsb
    (fun g =>
       is_true
         (and3 (and3 (or3 (cmp3 Bool.eqb (is_current g) (Some true))
                          (cmp3 Bool.eqb (is_next g) (Some true)))
                     (Some (is_not_null (deadline_time g))))
               (cmp Z.geb (Some current_time) (deadline_time g))))
    gws.

End Planned.

(** [update_gameweek_status()]; [current_time] is the value of
    [CURRENT_TIME].  A statement is planned when the function first reaches
    it.  An exception ends the call and undoes what the call has written,
    so the table is then the one the call found. *)
Definition update_gameweek_status (current_time : Z) (gws : list gameweek)
  : list gameweek * option exception :=
  (* Reset all current/next flags *)
  let cleared := update_where (fun _ => true)
                   (fun g => set_flags (Some false) (Some false) g) gws in
  (* Set current gameweek: the first statement that compares current_time *)
  match compare_with_column with
  | Some cmp => (set_flags_and_status cmp current_time cleared, None)
  | None =>
      (gws, Some (Undefined_function time_with_time_zone timestamp_with_time_zone))
  end.

(** [transfers_allowed()]; [current_time] is the value of [CURRENT_TIME]. *)
Definition transfers_allowed (current_time : Z) (gws : list gameweek) : result bool :=
  (* Check if we're past the deadline for the current/next gameweek *)
  match compare_with_column with
  | Some cmp => Returned (negb (deadline_passed cmp current_time gws))
  | None => Raised (Undefined_function time_with_time_zone timestamp_with_time_zone)
  end.

End Calendar.

(** ** Transfers ([makeTransfer] and [fetchTransferData] of the [useTransfers] hook) *)

Module Transfers.

Record TransferData := {
  transfersRemaining : Z;
  transfersMadeThisGW : Z;
  transfersBanked : Z;
  maxTransfers : Z;
  canMakeTransfers : bool
}.

(** The message shown by [toast]. *)
Inductive toast :=
| No_transfers_remaining
| Transfers_are_not_allowed_at_this_time
| Insufficient_budget_for_this_transfer
| Failed_to_complete_transfer
| Transfer_completed.

(** What a call leaves behind: the tables, the hook state, the toast and
    the returned boolean. *)
Record outcome := {
  db_after : database;
  data_after : TransferData;
  shown : toast;
  returned : bool
}.

(** [.single()]: exactly one row, otherwise an error. *)
Definition single {A : Type} (rows : list A) : option A :=
  match rows with
  | [x] => Some x
  | _ => None
  end.

(** [from('fantasy_teams').select(...).eq('fantasy_team_id', id).single()] *)
Definition select_team (db : database) (id : uuid) : option fantasy_team :=
  single (List.filter (fun t => N.eqb (team_id t) id) (fantasy_teams db)).

Definition with_rosters (rs : list roster) (db : database) : database :=
  {| real_matches := real_matches db; gameweeks := gameweeks db;
     fantasy_teams := fantasy_teams db; rosters := rs; players := players db;
     gameweek_scores := gameweek_scores db;
     fantasy_team_gameweek_points := fantasy_team_gameweek_points db;
     transactions := transactions db |}.

Definition with_fantasy_teams (ts : list fantasy_team) (db : database) : database :=
  {| real_matches := real_matches db; gameweeks := gameweeks db;
     fantasy_teams := ts; rosters := rosters db; players := players db;
     gameweek_scores := gameweek_scores db;
     fantasy_team_gameweek_points := fantasy_team_gameweek_points db;
     transactions := transactions db |}.

Definition with_transactions (txs : list transaction) (db : database) : database :=
  {| real_matches := real_matches db; gameweeks := gameweeks db;
     fantasy_teams := fantasy_teams db; rosters := rosters db; players := players db;
     gameweek_scores := gameweek_scores db;
     fantasy_team_gameweek_points := fantasy_team_gameweek_points db;
     transactions := txs |}.

(** [from('rosters').update({ player_id, purchase_price }).eq('roster_id', rosterId)] *)
Definition update_roster (rosterId incomingPlayerId : uuid) (incomingPrice : Z)
    (r : roster) : roster :=
  if N.eqb (roster_id r) rosterId then
    {| roster_id := roster_id r; fantasy_team_id := fantasy_team_id r;
       player_id := Some incomingPlayerId; is_starter := is_starter r;
       is_captain := is_captain r; is_vice_captain := is_vice_captain r;
       purchase_price := incomingPrice |}
  else r.

(** [from('fantasy_teams').update({ budget_remaining, transfers_made_this_gw })
    .eq('fantasy_team_id', fantasyTeamId)] *)
Definition update_team (fantasyTeamId : uuid) (newBudget newTransfersMade : Z)
    (t : fantasy_team) : fantasy_team :=
  if N.eqb (team_id t) fantasyTeamId then
    {| team_id := team_id t; league_id := league_id t;
       team_total_points := team_total_points t;
       gameweek_points := gameweek_points t; rank := rank t;
       budget_remaining := newBudget;
       transfers_made_this_gw := newTransfersMade;
       transfers_banked := transfers_banked t;
       current_gameweek := current_gameweek t |}
  else t.

(** [x || 1] on a number. *)
Definition or_one (x : Z) : Z := if x =? 0 then 1 else x.

(** [fetchTransferData]; [current_time] is the value of [CURRENT_TIME] in
    the database.  An error of either read is thrown and caught at the end
    of the function, which leaves the state as it was. *)
Definition fetchTransferData (current_time : Z) (fantasyTeamId : option uuid)
    (db : database) (transferData : TransferData) : TransferData :=
  match fantasyTeamId with
  | None => transferData
  | Some id =>
      match select_team db id with
      | None => transferData
      | Some team =>
          (* Check if transfers are allowed *)
          match Calendar.transfers_allowed current_time (gameweeks db) with
          | Calendar.Raised _ => transferData
          | Calendar.Returned transfersAllowed =>
              let transfersMadeThisGW := transfers_made_this_gw team in
              let transfersBanked := transfers_banked team in
              let baseTransfers := 1 in
              let totalAvailable := Z.min (baseTransfers + transfersBanked) 2 in
              let transfersRemaining := Z.max (totalAvailable - transfersMadeThisGW) 0 in
              {| transfersRemaining := transfersRemaining;
                 transfersMadeThisGW := transfersMadeThisGW;
                 transfersBanked := transfersBanked;
                 maxTransfers := 2;
                 canMakeTransfers := transfersAllowed && (0 <? transfersRemaining) |}
          end
      end
  end.

Definition rejected (db : database) (transferData : TransferData) (msg : toast) : outcome :=
  {| db_after := db; data_after := transferData; shown := msg; returned := false |}.

(** [makeTransfer(outgoingPlayerId, incomingPlayerId, rosterId)]; a
    thrown error is caught at the end of the function, which shows
    'Failed to complete transfer' and returns false. *)
Definition makeTransfer (current_time : Z) (fantasyTeamId : option uuid)
    (transferData : TransferData) (db : database)
    (outgoingPlayerId incomingPlayerId rosterId : uuid) : outcome :=
  match fantasyTeamId with
  | None => rejected db transferData No_transfers_remaining
  | Some teamId =>
      if transfersRemaining transferData <=? 0
      then rejected db transferData No_transfers_remaining
      else if negb (canMakeTransfers transferData)
      then rejected db transferData Transfers_are_not_allowed_at_this_time
      else
        (* Get team data *)
        match select_team db teamId with
        | None => rejected db transferData Failed_to_complete_transfer
        | Some team =>
            (* Get player prices *)
            match players db !! outgoingPlayerId, players db !! incomingPlayerId with
            | Some outgoingPlayer, Some incomingPlayer =>
                let priceDifference := price incomingPlayer - price outgoingPlayer in
                let newBudget := budget_remaining team - priceDifference in
                if newBudget <? 0
                then rejected db transferData Insufficient_budget_for_this_transfer
                else
                  (* Update roster *)
                  let db := with_rosters
                              (map (update_roster rosterId incomingPlayerId
                                      (price incomingPlayer)) (rosters db)) db in
                  (* Update fantasy team *)
                  let newTransfersMade := transfersMadeThisGW transferData + 1 in
                  let db := with_fantasy_teams
                              (map (update_team teamId newBudget newTransfersMade)
                                 (fantasy_teams db)) db in
                  (* Record transactions *)
                  let txs :=
                    [ {| tx_fantasy_team_id := teamId; tx_player_id := outgoingPlayerId;
                         tx_type := transfer_out;
                         tx_gameweek := or_one (current_gameweek team);
                         tx_price := price outgoingPlayer; tx_transfer_cost := 0 |};
                      {| tx_fantasy_team_id := teamId; tx_player_id := incomingPlayerId;
                         tx_type := transfer_in;
                         tx_gameweek := or_one (current_gameweek team);
                         tx_price := price incomingPlayer; tx_transfer_cost := 0 |} ] in
                  let db := with_transactions (transactions db ++ txs) db in
                  (* Refresh transfer data *)
                  {| db_after := db;
                     data_after := fetchTransferData current_time fantasyTeamId db transferData;
                     shown := Transfer_completed;
                     returned := true |}
            | _, _ => rejected db transferData Failed_to_complete_transfer
            end
        end
  end.

End Transfers.

(** ** Gameweek Finalizer ([finalize_gameweek]) *)

Module Finalizer.

Import Sql.

Inductive exception :=
| Cannot_finalize_gameweek (p_gameweek : Z).

Definition with_points (m : gmap (N * Z) gameweek_points_row) (db : database) : database :=
  {| real_matches := real_matches db; gameweeks := gameweeks db;
     fantasy_teams := fantasy_teams db; rosters := rosters db; players := players db;
     gameweek_scores := gameweek_scores db;
     fantasy_team_gameweek_points := m;
     transactions := transactions db |}.

Definition with_gameweeks (gws : list gameweek) (db : database) : database :=
  {| real_matches := real_matches db; gameweeks := gws;
     fantasy_teams := fantasy_teams db; rosters := rosters db; players := players db;
     gameweek_scores := gameweek_scores db;
     fantasy_team_gameweek_points := fantasy_team_gameweek_points db;
     transactions := transactions db |}.

(** [EXISTS (SELECT 1 FROM real_matches WHERE gameweek = p_gameweek AND
    status != 'completed')] *)
Definition unfinished_match (p_gameweek : Z) (m : real_match) : bool :=
  (match_gameweek m =? p_gameweek)
  && negb (match_status_eqb (match_status_of m) completed).

(** [INSERT ... VALUES (team, p_gameweek, team_points) ON CONFLICT
    (fantasy_team_id, gameweek) DO UPDATE SET points = EXCLUDED.points] *)
Definition upsert_points (t : uuid) (p_gameweek team_points : Z)
    (m : gmap (N * Z) gameweek_points_row) : gmap (N * Z) gameweek_points_row :=
  match m !! (t, p_gameweek) with
  | Some row =>
      <[(t, p_gameweek) := {| points := team_points;
                              rank_in_league := rank_in_league row |}]> m
  | None =>
      <[(t, p_gameweek) := {| points := team_points; rank_in_league := None |}]> m
  end.

(** The [SET] list of the update of [fantasy_teams] in the first loop;
    [LEAST(a, b)] is [Z.min]. *)
Definition roll_over (p_gameweek team_points : Z) (t : fantasy_team) : fantasy_team :=
  {| team_id := team_id t; league_id := league_id t;
     team_total_points := team_total_points t + team_points;
     gameweek_points := team_points;
     rank := rank t;
     budget_remaining := budget_remaining t;
     transfers_made_this_gw := 0;
     transfers_banked := Z.min (transfers_banked t + 1) 1;
     current_gameweek := p_gameweek + 1 |}.

Definition update_team_where (id : uuid) (f : fantasy_team -> fantasy_team)
    (ts : list fantasy_team) : list fantasy_team :=
  map (fun t => if N.eqb (team_id t) id then f t else t) ts.

(** The body of the loop over all fantasy teams. *)
Definition finalize_team (p_gameweek : Z) (db : database) (id : uuid) : database :=
  let team_points := TeamPoints.calculate_fantasy_team_points db id p_gameweek in
  let db := with_points
              (upsert_points id p_gameweek team_points (fantasy_team_gameweek_points db))
              db in
  Transfers.with_fantasy_teams
    (update_team_where id (roll_over p_gameweek team_points) (fantasy_teams db)) db.

(** [SELECT fantasy_team_id, league_id FROM fantasy_teams ORDER BY
    fantasy_team_id] *)
Definition teams_by_id (db : database) : list uuid :=
  map team_id (order_by (fun a b => N.ltb (team_id a) (team_id b)) (fantasy_teams db)).

(** [SELECT DISTINCT league_id FROM fantasy_teams WHERE league_id IS NOT NULL] *)
Definition distinct_leagues (db : database) : list uuid :=
  remove_dups (omap league_id (fantasy_teams db)).

(** [SELECT ft.fantasy_team_id FROM fantasy_teams ft JOIN
    fantasy_team_gameweek_points fgp ON ... WHERE ft.league_id = lg AND
    fgp.gameweek = p_gameweek ORDER BY fgp.points DESC]; each row is kept
    with its sort key. *)
Definition league_rows (p_gameweek : Z) (db : database) (lg : uuid) : list (uuid * Z) :=
  order_by (fun a b => snd b <? snd a)
    (omap (fun t =>
             if is_true (cmp3 N.eqb (league_id t) (Some lg)) then
               match fantasy_team_gameweek_points db !! (team_id t, p_gameweek) with
               | Some row => Some (team_id t, points row)
               | None => None
               end
             else None)
          (fantasy_teams db)).

Definition set_rank_in_league (r : Z) (row : gameweek_points_row) : gameweek_points_row :=
  {| points := points row; rank_in_league := Some r |}.

(** The inner ranking loop of one league, threading [rank_counter]. *)
Definition rank_league (p_gameweek : Z) (db : database) (lg : uuid) : database :=
  let step (st : gmap (N * Z) gameweek_points_row * Z) (row : uuid * Z) :=
    (alter (set_rank_in_league (snd st)) (fst row, p_gameweek) (fst st), snd st + 1) in
  with_points
    (fst (fold_left step (league_rows p_gameweek db lg)
            (fantasy_team_gameweek_points db, 1)))
    db.

Definition set_rank (r : Z) (t : fantasy_team) : fantasy_team :=
  {| team_id := team_id t; league_id := league_id t;
     team_total_points := team_total_points t;
     gameweek_points := gameweek_points t;
     rank := r;
     budget_remaining := budget_remaining t;
     transfers_made_this_gw := transfers_made_this_gw t;
     transfers_banked := transfers_banked t;
     current_gameweek := current_gameweek t |}.

(** The loop over [SELECT fantasy_team_id FROM fantasy_teams ORDER BY
    total_points DESC]. *)
Definition rank_overall (db : database) : database :=
  let rows :=
    map team_id
      (order_by (fun a b => team_total_points b <? team_total_points a)
         (fantasy_teams db)) in
  let step (st : list fantasy_team * Z) (id : uuid) :=
    (update_team_where id (set_rank (snd st)) (fst st), snd st + 1) in
  Transfers.with_fantasy_teams (fst (fold_left step rows (fantasy_teams db, 1))) db.

(** [UPDATE gameweeks SET status = 'finalized' WHERE gameweek_number =
    p_gameweek] *)
Definition mark_finalized (p_gameweek : Z) (db : database) : database :=
  with_gameweeks
    (Calendar.update_where (fun g => gameweek_number g =? p_gameweek)
       (Calendar.set_status finalized) (gameweeks db))
    db.

(** [finalize_gameweek(p_gameweek)]: the tables as the procedure leaves
    them, and the exception it raised, if any. *)
Definition finalize_gameweek (p_gameweek : Z) (db : database) : database * option exception :=
  (* Check if all matches in gameweek are completed *)
  if existsb (unfinished_match p_gameweek) (real_matches db)
  then (db, Some (Cannot_finalize_gameweek p_gameweek))
  else
    (* Calculate points for all fantasy teams *)
    let db := fold_left (finalize_team p_gameweek) (teams_by_id db) db in
    (* Calculate league rankings *)
    let db := fold_left (rank_league p_gameweek) (distinct_leagues db) db in
    (* Update overall rankings *)
    let db := rank_overall db in
    (* Set gameweek status to finalized *)
    (mark_finalized p_gameweek db, None).

End Finalizer.

(** ** Derived notions used in the statements *)

Module Derived.

Definition sumZ (l : list Z) : Z := fold_right Z.add 0 l.

(** What one row of the loop of [calculate_fantasy_team_points] adds to
    [total_points]. *)
Definition starter_contribution (db : database) (t : uuid) (gw : Z)
    (pr : TeamPoints.player_record) : Z :=
  if Sql.is_true (TeamPoints.pr_is_starter pr) then
    if TeamPoints.pr_minutes_played pr =? 0 then
      match TeamPoints.find_substitute db t gw (TeamPoints.pr_position pr) with
      | Some sub =>
          if Sql.is_not_null (TeamPoints.sub_player_id sub)
          then TeamPoints.sub_points sub else 0
      | None => 0
      end
    else TeamPoints.pr_player_points pr
  else 0.

(** The substitutes that the loop of [calculate_fantasy_team_points]
    brings on, in loop order. *)
Definition substitutions (db : database) (t : uuid) (gw : Z) : list (option uuid) :=
  flat_map
    (fun pr =>
       if Sql.is_true (TeamPoints.pr_is_starter pr)
          && (TeamPoints.pr_minutes_played pr =? 0)
       then match TeamPoints.find_substitute db t gw (TeamPoints.pr_position pr) with
            | Some sub => [TeamPoints.sub_player_id sub]
            | None => []
            end
       else [])
    (TeamPoints.loop_rows db t gw).

(** [scores?.total_points || 0] and [scores?.minutes_played || 0] of a
    roster row of the client. *)
Definition manual_points (db : database) (gw : Z) (r : TeamPoints.roster_with_player) : Z :=
  TeamPoints.or_zero
    (TeamPoints.gs_total_points (TeamPoints.score_of db gw (player_id (TeamPoints.rw_roster r)))).

Definition manual_minutes (db : database) (gw : Z) (r : TeamPoints.roster_with_player) : Z :=
  TeamPoints.or_zero
    (TeamPoints.gs_minutes_played (TeamPoints.score_of db gw (player_id (TeamPoints.rw_roster r)))).

(** The substitute that [calculateTeamPointsManual] brings on for a
    starter without minutes. *)
Definition manual_substitute (db : database) (gw : Z)
    (roster : list TeamPoints.roster_with_player)
    (rosterPlayer : TeamPoints.roster_with_player) : option TeamPoints.roster_with_player :=
  match TeamPoints.find_bench roster rosterPlayer with
  | Some substitute =>
      if 0 <? manual_minutes db gw substitute then Some substitute else None
  | None => None
  end.

(** What one row of the loop of [calculateTeamPointsManual] adds to
    [totalPoints]. *)
Definition manual_contribution (db : database) (gw : Z)
    (roster : list TeamPoints.roster_with_player)
    (rosterPlayer : TeamPoints.roster_with_player) : Z :=
  if TeamPoints.not_starter rosterPlayer then 0
  else if manual_minutes db gw rosterPlayer =? 0 then
    match manual_substitute db gw roster rosterPlayer with
    | Some substitute => manual_points db gw substitute
    | None => 0
    end
  else manual_points db gw rosterPlayer.

Definition manual_substitutions (db : database) (t : uuid) (gw : Z) : list uuid :=
  flat_map
    (fun rp =>
       if negb (TeamPoints.not_starter rp) && (manual_minutes db gw rp =? 0)
       then match manual_substitute db gw (TeamPoints.select_roster db t) rp with
            | Some substitute => [roster_id (TeamPoints.rw_roster substitute)]
            | None => []
            end
       else [])
    (TeamPoints.select_roster db t).

(** [j] is an eligible bench row for [pos] that no eligible bench row
    precedes in [ORDER BY gs2.total_points DESC NULLS LAST]. *)
Definition best_scoring_substitute (db : database) (t : uuid) (gw : Z)
    (pos : player_position) (j : TeamPoints.joined) : Prop :=
  In j (TeamPoints.team_rows db t gw)
  /\ TeamPoints.substitute_where pos j = true
  /\ forall j', In j' (TeamPoints.team_rows db t gw) ->
       TeamPoints.substitute_where pos j' = true ->
       Sql.desc_nulls_last (TeamPoints.gs_total_points (TeamPoints.j_score j'))
         (TeamPoints.gs_total_points (TeamPoints.j_score j)) = false.

(** The test of [roster.find] in [calculateTeamPointsManual]. *)
Definition bench_at (rosterPlayer r : TeamPoints.roster_with_player) : bool :=
  TeamPoints.not_starter r
  && TeamPoints.option_position_eqb (TeamPoints.rw_position r)
       (TeamPoints.rw_position rosterPlayer).

(** [s] is the first row of [roster] that passes the test. *)
Definition first_bench_at (roster : list TeamPoints.roster_with_player)
    (rosterPlayer s : TeamPoints.roster_with_player) : Prop :=
  exists l1 l2, roster = l1 ++ s :: l2
    /\ bench_at rosterPlayer s = true
    /\ forall r, In r l1 -> bench_at rosterPlayer r = false.

(** The tables that [calculate_fantasy_team_points] reads. *)
Definition same_inputs (db db' : database) : Prop :=
  rosters db = rosters db'
  /\ players db = players db'
  /\ gameweek_scores db = gameweek_scores db'.

(** [points] of the ledger row with key [k], if any. *)
Definition points_at (m : gmap (N * Z) gameweek_points_row) (k : N * Z) : option Z :=
  match m !! k with
  | Some row => Some (points row)
  | None => None
  end.

Definition ledger_points (db : database) (t : uuid) (p : Z) : option Z :=
  points_at (fantasy_team_gameweek_points db) (t, p).

(** A team row with its [rank] blanked, to compare rows up to rank. *)
Definition without_rank (t : fantasy_team) : fantasy_team := Finalizer.set_rank 0 t.

(** *** Conditions under which the two calculators are compared *)

(** The roster rows of team [t], in listing order. *)
Definition team_rosters (db : database) (t : uuid) : list roster :=
  List.filter (TeamPoints.of_team t) (rosters db).

(** The row names a player of the [players] table. *)
Definition references_player (db : database) (r : roster) : bool :=
  match player_id r with
  | Some pid => Sql.is_not_null (players db !! pid)
  | None => false
  end.

(** Every row of the team names a player and says whether it starts. *)
Definition well_formed_roster (db : database) (t : uuid) : bool :=
  forallb (fun r => references_player db r && Sql.is_not_null (is_starter r))
    (team_rosters db t).

Definition roster_position (db : database) (r : roster) : option player_position :=
  match player_id r with
  | Some pid =>
      match players db !! pid with
      | Some pl => Some (position_of pl)
      | None => None
      end
  | None => None
  end.

Definition roster_minutes (db : database) (gw : Z) (r : roster) : Z :=
  Sql.coalesce (TeamPoints.gs_minutes_played (TeamPoints.score_of db gw (player_id r))) 0.

(** The row is not a starter and its player plays at [pos]. *)
Definition on_bench_at (db : database) (pos : option player_position) (r : roster) : bool :=
  negb (Sql.is_true (is_starter r))
  && TeamPoints.option_position_eqb (roster_position db r) pos.

(** Every starter without minutes has at most one bench player at his
    position. *)
Definition single_bench_option (db : database) (t : uuid) (gw : Z) : bool :=
  forallb
    (fun r =>
       negb (Sql.is_true (is_starter r) && (roster_minutes db gw r =? 0))
       || (length (List.filter (on_bench_at db (roster_position db r)) (team_rosters db t))
           <=? 1)%nat)
    (team_rosters db t).

Definition captain_starter (r : roster) : bool :=
  Sql.is_true (is_starter r) && Sql.is_true (is_captain r).

(** At most one starter is flagged captain. *)
Definition single_captain (db : database) (t : uuid) : bool :=
  (length (List.filter captain_starter (team_rosters db t)) <=? 1)%nat.

(** The row of [rosters JOIN players LEFT JOIN gameweek_scores] that a
    roster row with a player gives. *)
Definition joined_of (db : database) (gw : Z) (r : roster) : TeamPoints.joined :=
  {| TeamPoints.j_roster := r;
     TeamPoints.j_player :=
       match player_id r with
       | Some pid =>
           match players db !! pid with
           | Some pl => pl
           | None => {| position_of := GK; price := 0 |}
           end
       | None => {| position_of := GK; price := 0 |}
       end;
     TeamPoints.j_score := TeamPoints.score_of db gw (player_id r) |}.

(** The loop record of the database procedure for a roster row. *)
Definition row_of (db : database) (gw : Z) (r : roster) : TeamPoints.player_record :=
  TeamPoints.select_player_record (joined_of db gw r).

(** The rows whose score the loops copy into the captain variable. *)
Definition captain_row (pr : TeamPoints.player_record) : bool :=
  Sql.is_true (TeamPoints.pr_is_starter pr) && Sql.is_true (TeamPoints.pr_is_captain pr).

Definition captain_slot (rp : TeamPoints.roster_with_player) : bool :=
  negb (TeamPoints.not_starter rp) && Sql.is_true (is_captain (TeamPoints.rw_roster rp)).

End Derived.

(** ** Statements of the specification, in its own words *)

Module Claims.

(** §4.2 "Clean sheet (minutesPlayed>0 and cleanSheet=true): GK/DEF +4,
    MID +1, FWD +0": the clean-sheet rule contributes the award when the
    player was on the pitch and kept a clean sheet, and nothing
    otherwise. *)
Definition clean_sheet_needs_minutes (stats : Scoring.PlayerStats)
    (player : Scoring.Player) : Prop :=
  Scoring.clean_sheet_points stats player =
  if (0 <? Scoring.minutes_played stats) && Scoring.clean_sheet stats
  then Scoring.clean_sheet_award (Scoring.position player)
  else 0.

(** §4.3 step 2, "the first-listed bench player at the same position whose
    minutesPlayed > 0": the first row, in roster listing order, that is on
    the bench, plays at [pos] and has minutes. *)
Definition first_listed_substitute (db : database) (t : uuid) (gw : Z)
    (pos : player_position) : option TeamPoints.substitute_record :=
  match List.find (TeamPoints.substitute_where pos) (TeamPoints.team_rows db t gw) with
  | Some j => Some (TeamPoints.select_substitute j)
  | None => None
  end.

(** The same search over the rows the client works on. *)
Definition first_listed_bench (db : database) (gw : Z)
    (roster : list TeamPoints.roster_with_player)
    (rosterPlayer : TeamPoints.roster_with_player) : option TeamPoints.roster_with_player :=
  List.find
    (fun r =>
       TeamPoints.not_starter r
       && TeamPoints.option_position_eqb (TeamPoints.rw_position r)
            (TeamPoints.rw_position rosterPlayer)
       && (0 <? TeamPoints.or_zero
                  (TeamPoints.gs_minutes_played
                     (TeamPoints.score_of db gw (player_id (TeamPoints.rw_roster r))))))
    roster.

(** C1 for the database procedure: every starter with 0 minutes is replaced
    by the first-listed eligible bench player. *)
Definition procedure_substitutes_first_listed (db : database) (t : uuid) (gw : Z) : Prop :=
  forall pr, In pr (TeamPoints.loop_rows db t gw) ->
    Sql.is_true (TeamPoints.pr_is_starter pr) = true ->
    TeamPoints.pr_minutes_played pr = 0 ->
    TeamPoints.find_substitute db t gw (TeamPoints.pr_position pr)
    = first_listed_substitute db t gw (TeamPoints.pr_position pr).

(** C1 for the client fallback. *)
Definition client_substitutes_first_listed (db : database) (t : uuid) (gw : Z) : Prop :=
  forall rp, In rp (TeamPoints.select_roster db t) ->
    TeamPoints.not_starter rp = false ->
    TeamPoints.or_zero
      (TeamPoints.gs_minutes_played
         (TeamPoints.score_of db gw (player_id (TeamPoints.rw_roster rp)))) = 0 ->
    Derived.manual_substitute db gw (TeamPoints.select_roster db t) rp
    = first_listed_bench db gw (TeamPoints.select_roster db t) rp.

(** §4.3 "a bench player used as a substitute for one starter is not reused
    for another": the substitutes assigned in one computation are pairwise
    distinct. *)
Definition procedure_uses_each_substitute_once (db : database) (t : uuid) (gw : Z) : Prop :=
  NoDup (Derived.substitutions db t gw).

Definition client_uses_each_substitute_once (db : database) (t : uuid) (gw : Z) : Prop :=
  NoDup (Derived.manual_substitutions db t gw).

(** §9 "two parallel implementations of team-points calculation": they
    return the same total. *)
Definition calculators_agree (db : database) (t : uuid) (gw : Z) : Prop :=
  TeamPoints.calculate_fantasy_team_points db t gw
  = TeamPoints.calculateTeamPointsManual db t gw.

(** §4.4 "Re-running finalize on an already-finalized gameweek is logically
    idempotent for the ledger (upsert) but must not double-apply the
    totalPoints accumulation or the transfer rollover": after a second run
    the ledger points, the running totals and the transfer counters are
    what the first run left. *)
Definition rerun_changes_nothing (p : Z) (db : database) : Prop :=
  let db1 := fst (Finalizer.finalize_gameweek p db) in
  let db2 := fst (Finalizer.finalize_gameweek p db1) in
  (forall t, Derived.ledger_points db2 t p = Derived.ledger_points db1 t p)
  /\ map team_total_points (fantasy_teams db2) = map team_total_points (fantasy_teams db1)
  /\ map transfers_made_this_gw (fantasy_teams db2)
     = map transfers_made_this_gw (fantasy_teams db1)
  /\ map transfers_banked (fantasy_teams db2) = map transfers_banked (fantasy_teams db1).

End Claims.

(** ** Example data *)

Module Examples.

Definition no_stats : Scoring.PlayerStats :=
  {| Scoring.minutes_played := 0; Scoring.goals := 0; Scoring.assists := 0;
     Scoring.clean_sheet := false; Scoring.yellow_cards := 0;
     Scoring.red_cards := 0; Scoring.saves := 0; Scoring.penalty_saves := 0;
     Scoring.penalty_misses := 0; Scoring.own_goals := 0;
     Scoring.goals_conceded := 0; Scoring.bonus_points := 0;
     Scoring.total_points := 0; Scoring.is_playing := true |}.

(** A goalkeeper who never came on, in a side that conceded nothing. *)
Definition unused_keeper_stats : Scoring.PlayerStats :=
  Scoring.with_clean_sheet true no_stats.

Definition keeper : Scoring.Player :=
  {| Scoring.player_id := 7%N; Scoring.position := GK |}.

(** Gameweek 1 was finalized by hand ahead of its window
    (deadline 100, start 200, end 300). *)
Definition early_finalized : gameweek :=
  {| gameweek_number := 1; status := finalized;
     is_current := Some false; is_next := Some false;
     deadline_time := Some 100; start_time := Some 200; end_time := Some 300 |}.

(** A current gameweek without a deadline. *)
Definition open_gameweek : gameweek :=
  {| gameweek_number := 2; status := upcoming;
     is_current := Some true; is_next := Some false;
     deadline_time := None; start_time := Some 200; end_time := Some 300 |}.

(** Gameweek 3 with one match still being played. *)
Definition matches_in_progress : list real_match :=
  [ {| match_gameweek := 3; match_status_of := completed |};
    {| match_gameweek := 3; match_status_of := live |};
    {| match_gameweek := 2; match_status_of := completed |} ].

Definition team_a : fantasy_team :=
  {| team_id := 1%N; league_id := Some 1%N; team_total_points := 40;
     gameweek_points := 0; rank := 1; budget_remaining := 5;
     transfers_made_this_gw := 0; transfers_banked := 1;
     current_gameweek := 3 |}.

Definition slot (id t p : N) (starter captain vice : bool) : roster :=
  {| roster_id := id; fantasy_team_id := Some t; player_id := Some p;
     is_starter := Some starter; is_captain := Some captain;
     is_vice_captain := Some vice; purchase_price := 50 |}.

Definition played (pts mins : Z) : gameweek_score :=
  {| total_points := Some pts; minutes_played := Some mins |}.

(** Team 1 holds forward 10 (price 80) and looks at forward 20 (price 90)
    with 5 left in the bank. *)
Definition transfer_db : database :=
  {| real_matches := matches_in_progress;
     gameweeks := [];
     fantasy_teams := [team_a];
     rosters := [slot 1 1 10 true false false];
     players := {[ 10%N := {| position_of := FWD; price := 80 |};
                   20%N := {| position_of := FWD; price := 90 |} ]};
     gameweek_scores := ∅;
     fantasy_team_gameweek_points := ∅;
     transactions := [] |}.

Definition two_transfers_left : Transfers.TransferData :=
  {| Transfers.transfersRemaining := 2; Transfers.transfersMadeThisGW := 0;
     Transfers.transfersBanked := 1; Transfers.maxTransfers := 2;
     Transfers.canMakeTransfers := true |}.

Definition team_db (rs : list roster) (ps : list (N * player))
    (scores : list (N * Z * gameweek_score)) : database :=
  {| real_matches := []; gameweeks := []; fantasy_teams := [team_a];
     rosters := rs; players := list_to_map ps;
     gameweek_scores := list_to_map scores;
     fantasy_team_gameweek_points := ∅; transactions := [] |}.

Definition defender : player := {| position_of := DEF; price := 50 |}.
Definition midfielder : player := {| position_of := MID; price := 60 |}.

(** Starting defender 10 did not play; on the bench, in this order,
    defender 11 (no minutes), defender 12 (90 minutes, 9 points) and
    defender 13 (90 minutes, 12 points). *)
Definition bench_db : database :=
  team_db
    [ slot 1 1 10 true false false; slot 2 1 11 false false false;
      slot 3 1 12 false false false; slot 4 1 13 false false false ]
    [ (10%N, defender); (11%N, defender); (12%N, defender); (13%N, defender) ]
    [ ((12%N, 1), played 9 90); ((13%N, 1), played 12 90) ].

(** Starting defenders 10 and 14 did not play; the only defender on the
    bench, 11, played 90 minutes for 5 points. *)
Definition shared_bench_db : database :=
  team_db
    [ slot 1 1 10 true false false; slot 2 1 14 true false false;
      slot 3 1 11 false false false ]
    [ (10%N, defender); (14%N, defender); (11%N, defender) ]
    [ ((11%N, 1), played 5 90) ].

(** Captain 10 was sent off after 30 minutes and ended on 0 points;
    vice-captain 11 played 90 minutes for 5 points. *)
Definition captain_db : database :=
  team_db
    [ slot 1 1 10 true true false; slot 2 1 11 true false true ]
    [ (10%N, midfielder); (11%N, midfielder) ]
    [ ((10%N, 1), played 0 30); ((11%N, 1), played 5 90) ].

(** The loop row of starting defender 10 in [bench_db] and in
    [shared_bench_db]. *)
Definition idle_defender : TeamPoints.player_record :=
  {| TeamPoints.pr_player_id := Some 10%N; TeamPoints.pr_is_starter := Some true;
     TeamPoints.pr_is_captain := Some false; TeamPoints.pr_is_vice_captain := Some false;
     TeamPoints.pr_position := DEF; TeamPoints.pr_player_points := 0;
     TeamPoints.pr_minutes_played := 0 |}.

(** The loop row of starting defender 14 in [shared_bench_db]. *)
Definition second_idle_defender : TeamPoints.player_record :=
  {| TeamPoints.pr_player_id := Some 14%N; TeamPoints.pr_is_starter := Some true;
     TeamPoints.pr_is_captain := Some false; TeamPoints.pr_is_vice_captain := Some false;
     TeamPoints.pr_position := DEF; TeamPoints.pr_player_points := 0;
     TeamPoints.pr_minutes_played := 0 |}.

Definition zero_acc : TeamPoints.acc :=
  {| TeamPoints.acc_total := 0; TeamPoints.acc_captain := 0 |}.

Definition team_b : fantasy_team :=
  {| team_id := 2%N; league_id := Some 1%N; team_total_points := 55;
     gameweek_points := 0; rank := 1; budget_remaining := 0;
     transfers_made_this_gw := 1; transfers_banked := 0;
     current_gameweek := 1 |}.

(** Gameweek 1 is played: team 1 fields midfielder 10 (7 points) as
    captain, team 2 fields midfielder 11 (3 points). *)
Definition played_db : database :=
  {| real_matches := [ {| match_gameweek := 1; match_status_of := completed |} ];
     gameweeks := [ {| gameweek_number := 1; status := active;
                       is_current := Some true; is_next := Some false;
                       deadline_time := Some 100; start_time := Some 200;
                       end_time := Some 300 |} ];
     fantasy_teams := [team_a; team_b];
     rosters := [ slot 1 1 10 true true false; slot 2 2 11 true false false ];
     players := {[ 10%N := midfielder; 11%N := midfielder ]};
     gameweek_scores := {[ (10%N, 1) := played 7 90; (11%N, 1) := played 3 90 ]};
     fantasy_team_gameweek_points := ∅;
     transactions := [] |}.

Definition forward : player := {| position_of := FWD; price := 80 |}.

(** Captain 10 (midfield, 7 points) and vice-captain 11 (midfield,
    5 points) played; starting defender 14 did not; on the bench, defender
    12 played for 6 points and midfielder 13 did not play. *)
Definition simple_db : database :=
  team_db
    [ slot 1 1 10 true true false; slot 2 1 14 true false false;
      slot 3 1 11 true false true; slot 4 1 12 false false false;
      slot 5 1 13 false false false ]
    [ (10%N, midfielder); (14%N, defender); (11%N, midfielder);
      (12%N, defender); (13%N, midfielder) ]
    [ ((10%N, 1), played 7 90); ((11%N, 1), played 5 90); ((12%N, 1), played 6 90) ].

End Examples.


(** * Further code of the same files *)

(** ** [set_gameweek_status] (PL/pgSQL) and [setGameweekStatus] (client) *)

From Stdlib Require String.

Module Override.

Import Stdlib.Strings.String.

(** The text values that the [CHECK] constraint on [gameweeks.status]
    admits. *)
Definition status_of_text (s : string) : option gameweek_status :=
  if String.eqb s "upcoming" then Some upcoming
  else if String.eqb s "active" then Some active
  else if String.eqb s "locked" then Some locked
  else if String.eqb s "finalized" then Some finalized
  else None.

Inductive exception :=
| Gameweek_not_found (p_gameweek : Z)
| Check_violation.

(** [set_gameweek_status(p_gameweek, p_status)]: the table as the
    procedure leaves it and the exception it raised, if any.  The update
    fails on the [CHECK] constraint when it would write a text outside the
    four statuses to a row; [NOT FOUND] holds when it matched no row. *)
Definition set_gameweek_status (p_gameweek : Z) (p_status : string)
    (gws : list gameweek) : list gameweek * option exception :=
  if existsb (fun g => gameweek_number g =? p_gameweek) gws then
    match status_of_text p_status with
    | Some st =>
        (Calendar.update_where (fun g => gameweek_number g =? p_gameweek)
           (Calendar.set_status st) gws, None)
    | None => (gws, Some Check_violation)
    end
  else (gws, Some (Gameweek_not_found p_gameweek)).

Definition gameweek_status_eqb (a b : gameweek_status) : bool :=
  match a, b with
  | upcoming, upcoming | active, active | locked, locked
  | finalized, finalized => true
  | _, _ => false
  end.

(** The [update] object of the first request of [setGameweekStatus]. *)
Definition set_status_and_flags (st : gameweek_status) (g : gameweek) : gameweek :=
  {| gameweek_number := gameweek_number g; status := st;
     is_current := Some (gameweek_status_eqb st active);
     is_next := Some false;
     deadline_time := deadline_time g; start_time := start_time g;
     end_time := end_time g |}.

(** [setGameweekStatus(gameweek, status)] of [GameweekManager.tsx], for
    the three statuses its buttons pass, every request succeeding. *)
Definition setGameweekStatus (gw : Z) (st : gameweek_status)
    (gws : list gameweek) : list gameweek :=
  let gws := Calendar.update_where (fun g => gameweek_number g =? gw)
               (set_status_and_flags st) gws in
  (* Update other gameweeks if setting this one as active *)
  if gameweek_status_eqb st active then
    let gws := Calendar.update_where (fun g => negb (gameweek_number g =? gw))
                 (fun g => Calendar.set_flags (Some false) (is_next g) g) gws in
    (* Set next gameweek *)
    Calendar.update_where (fun g => gameweek_number g =? gw + 1)
      (fun g => Calendar.set_flags (is_current g) (Some true) g) gws
  else gws.

End Override.

(** ** [formatTimeRemaining] of the [useGameweek] hook *)

From stdpp Require pretty.

Module Countdown.

Import Stdlib.Strings.String.

(** The three numbers that the function prints: whole days, and the whole
    hours and minutes left over; [Math.floor(a / b)] and [a % b] on a
    positive integer are [Z.div] and [Z.modulo]. *)
Definition time_parts (milliseconds : Z) : Z * Z * Z :=
  let days := milliseconds / (1000 * 60 * 60 * 24) in
  let hours := (milliseconds mod (1000 * 60 * 60 * 24)) / (1000 * 60 * 60) in
  let minutes := (milliseconds mod (1000 * 60 * 60)) / (1000 * 60) in
  (days, hours, minutes).

(** [formatTimeRemaining(milliseconds)]; [None] is [null]. *)
Definition formatTimeRemaining (milliseconds : option Z) : string :=
  match milliseconds with
  | None => ""
  | Some ms =>
      if (ms =? 0) || (ms <=? 0) then ""
      else
        let '(days, hours, minutes) := time_parts ms in
        if 0 <? days then
          (pretty.pretty days ++ "d " ++ pretty.pretty hours ++ "h "
           ++ pretty.pretty minutes ++ "m")%string
        else if 0 <? hours then
          (pretty.pretty hours ++ "h " ++ pretty.pretty minutes ++ "m")%string
        else (pretty.pretty minutes ++ "m")%string
  end.

End Countdown.

(** ** The state of the [useTransfers] hook *)

Module Hook.

(** The argument of [useState]: the state before [fetchTransferData] has
    set it. *)
Definition initial : Transfers.TransferData :=
  {| Transfers.transfersRemaining := 1; Transfers.transfersMadeThisGW := 0;
     Transfers.transfersBanked := 0; Transfers.maxTransfers := 2;
     Transfers.canMakeTransfers := false |}.

End Hook.

(** ** [setCaptain] and [setViceCaptain] of [MyTeam.tsx] *)

Module Armband.

Definition with_captain (b : option bool) (r : roster) : roster :=
  {| roster_id := roster_id r; fantasy_team_id := fantasy_team_id r;
     player_id := player_id r; is_starter := is_starter r;
     is_captain := b; is_vice_captain := is_vice_captain r;
     purchase_price := purchase_price r |}.

Definition with_vice_captain (b : option bool) (r : roster) : roster :=
  {| roster_id := roster_id r; fantasy_team_id := fantasy_team_id r;
     player_id := player_id r; is_starter := is_starter r;
     is_captain := is_captain r; is_vice_captain := b;
     purchase_price := purchase_price r |}.

(** [setCaptain(rosterId)] for a loaded fantasy team: the flag is cleared
    on every roster row of the team, then set on the row [rosterId]. *)
Definition setCaptain (fantasy_team : uuid) (rosterId : uuid) (rs : list roster)
  : list roster :=
  (* Remove captain from all players *)
  let rs := map (fun r => if TeamPoints.of_team fantasy_team r
                          then with_captain (Some false) r else r) rs in
  (* Set new captain *)
  map (fun r => if N.eqb (roster_id r) rosterId then with_captain (Some true) r else r) rs.

Definition setViceCaptain (fantasy_team : uuid) (rosterId : uuid) (rs : list roster)
  : list roster :=
  (* Remove vice captain from all players *)
  let rs := map (fun r => if TeamPoints.of_team fantasy_team r
                          then with_vice_captain (Some false) r else r) rs in
  (* Set new vice captain *)
  map (fun r => if N.eqb (roster_id r) rosterId
                then with_vice_captain (Some true) r else r) rs.

End Armband.

(** ** [finalizeGameweek] and [calculateAllTeamPoints] of [GameweekManager.tsx] *)

Module ClientFinalize.

Section WithUpsert.

(** [from('fantasy_team_gameweek_points').upsert({ fantasy_team_id,
    gameweek, points })]: what the request does to the table is decided by
    the data API, outside this repository; a failed request leaves the
    table as it is and the loop goes on. *)
Variable upsert :
  gmap (N * Z) gameweek_points_row -> uuid -> Z -> Z -> gmap (N * Z) gameweek_points_row.

(** [calculateAllTeamPoints(gameweek)], the requests for the rosters
    succeeding; [teamPoints || 0] is [teamPoints] on a number. *)
Definition calculateAllTeamPoints (gw : Z) (db : database) : database :=
  fold_left
    (fun db team =>
       let teamPoints := TeamPoints.calculateTeamPointsManual db (team_id team) gw in
       Finalizer.with_points
         (upsert (fantasy_team_gameweek_points db) (team_id team) gw teamPoints)
         db)
    (fantasy_teams db) db.

(** The [update] object of the manual finalization; the column
    [is_finished] is outside the model. *)
Definition finish (g : gameweek) : gameweek :=
  {| gameweek_number := gameweek_number g; status := finalized;
     is_current := Some false; is_next := is_next g;
     deadline_time := deadline_time g; start_time := start_time g;
     end_time := end_time g |}.

Definition start_next (g : gameweek) : gameweek :=
  {| gameweek_number := gameweek_number g; status := active;
     is_current := Some true; is_next := Some false;
     deadline_time := deadline_time g; start_time := start_time g;
     end_time := end_time g |}.

(** [finalizeGameweek(gameweek)]: [confirmed] is the answer to the
    [confirm] dialog, [known] the list of gameweeks in the component state.
    A raised [finalize_gameweek] is rolled back by the database and sends
    the function into its manual branch. *)
Definition finalizeGameweek (confirmed : bool) (known : list gameweek) (gw : Z)
    (db : database) : database :=
  if negb confirmed then db
  else
    match Finalizer.finalize_gameweek gw db with
    | (db', None) => db'
    | (_, Some _) =>
        (* Manual finalization process *)
        let db := calculateAllTeamPoints gw db in
        (* Update gameweek status *)
        let db := Finalizer.with_gameweeks
                    (Calendar.update_where (fun g => gameweek_number g =? gw) finish
                       (gameweeks db)) db in
        (* Set next gameweek as current if it exists *)
        match List.find (fun g => gameweek_number g =? gw + 1) known with
        | Some _ =>
            Finalizer.with_gameweeks
              (Calendar.update_where (fun g => gameweek_number g =? gw + 1) start_next
                 (gameweeks db)) db
        | None => db
        end
    end.

End WithUpsert.

End ClientFinalize.

(** ** Ranks *)

Module Ranking.

(** The value of [rank_counter] at which a ranking loop over [ids],
    started at [counter], reaches [id]. *)
Fixpoint assigned_rank (ids : list uuid) (counter : Z) (id : uuid) : option Z :=
  match ids with
  | [] => None
  | i :: rest =>
      if N.eqb id i then Some counter else assigned_rank rest (counter + 1) id
  end.

(** The order of the overall ranking query, [total_points DESC]. *)
Definition more_points (a b : fantasy_team) : bool :=
  team_total_points b <? team_total_points a.

(** [ft.league_id = lg] *)
Definition league_member (lg : uuid) (t : fantasy_team) : bool :=
  Sql.is_true (Sql.cmp3 N.eqb (league_id t) (Some lg)).

(** The number of teams of a league. *)
Definition league_size (db : database) (lg : uuid) : nat :=
  length (List.filter (league_member lg) (fantasy_teams db)).

(** The row that a team contributes to the ranking query of league [lg]:
    its id and the points of its ledger row of the gameweek. *)
Definition league_entry (p_gameweek : Z) (db : database) (lg : uuid) (t : fantasy_team)
  : option (uuid * Z) :=
  if league_member lg t then
    match fantasy_team_gameweek_points db !! (team_id t, p_gameweek) with
    | Some row => Some (team_id t, points row)
    | None => None
    end
  else None.

(** The order of the league ranking query, [fgp.points DESC]. *)
Definition more_gameweek_points (a b : uuid * Z) : bool := snd b <? snd a.

End Ranking.

(** ** Goals in the scoring table *)

Module Goals.

(** The stats of a player with [goals] set to [n]. *)
Definition with_goals (n : Z) (s : Scoring.PlayerStats) : Scoring.PlayerStats :=
  {| Scoring.minutes_played := Scoring.minutes_played s; Scoring.goals := n;
     Scoring.assists := Scoring.assists s; Scoring.clean_sheet := Scoring.clean_sheet s;
     Scoring.yellow_cards := Scoring.yellow_cards s;
     Scoring.red_cards := Scoring.red_cards s; Scoring.saves := Scoring.saves s;
     Scoring.penalty_saves := Scoring.penalty_saves s;
     Scoring.penalty_misses := Scoring.penalty_misses s;
     Scoring.own_goals := Scoring.own_goals s;
     Scoring.goals_conceded := Scoring.goals_conceded s;
     Scoring.bonus_points := Scoring.bonus_points s;
     Scoring.total_points := Scoring.total_points s;
     Scoring.is_playing := Scoring.is_playing s |}.

(** The factors of the [switch] on the position in [calculatePlayerPoints]. *)
Definition goal_award (pos : player_position) : Z :=
  match pos with
  | GK => 10
  | DEF => 6
  | MID => 5
  | FWD => 4
  end.

End Goals.

(** ** Example data for the further code *)

Module MoreExamples.

Definition week (n : Z) (st : gameweek_status) (d s e : Z) : gameweek :=
  {| gameweek_number := n; status := st; is_current := None; is_next := None;
     deadline_time := Some d; start_time := Some s; end_time := Some e |}.

(** Three consecutive gameweeks; at time 250 the first is being played. *)
Definition season : list gameweek :=
  [ week 1 upcoming 100 200 300; week 2 upcoming 400 500 600;
    week 3 upcoming 700 800 900 ].

(** The third week of [season], looked up by the override examples. *)
Definition last_week : gameweek := week 3 upcoming 700 800 900.

(** [Examples.transfer_db] with a third forward, 30, priced 82: within
    reach of the 5 left in the bank when forward 10 (80) goes out. *)
Definition market_db : database :=
  {| real_matches := real_matches Examples.transfer_db;
     gameweeks := season;
     fantasy_teams := fantasy_teams Examples.transfer_db;
     rosters := rosters Examples.transfer_db;
     players := <[ 30%N := {| position_of := FWD; price := 82 |} ]>
                  (players Examples.transfer_db);
     gameweek_scores := gameweek_scores Examples.transfer_db;
     fantasy_team_gameweek_points := fantasy_team_gameweek_points Examples.transfer_db;
     transactions := transactions Examples.transfer_db |}.

(** The two teams of [Examples.played_db] once gameweek 1 is finalized:
    team 2 leads with 55 + 3 points, team 1 follows with 40 + 2 * 7. *)
Definition leader : fantasy_team :=
  {| team_id := 2%N; league_id := Some 1%N; team_total_points := 58;
     gameweek_points := 3; rank := 1; budget_remaining := 0;
     transfers_made_this_gw := 0; transfers_banked := 1;
     current_gameweek := 2 |}.

Definition runner_up : fantasy_team :=
  {| team_id := 1%N; league_id := Some 1%N; team_total_points := 54;
     gameweek_points := 14; rank := 2; budget_remaining := 5;
     transfers_made_this_gw := 0; transfers_banked := 1;
     current_gameweek := 2 |}.

End MoreExamples.

(** * Properties *)

(** ** Scoring Engine *)

(** C4 (as stated, refuted): a goalkeeper with 0 minutes and the clean-sheet
    flag set receives the 4 clean-sheet points, and [calculatePlayerPoints]
    returns 4 for him. *)
Lemma clean_sheet_without_minutes :
  ~ Claims.clean_sheet_needs_minutes Examples.unused_keeper_stats Examples.keeper
  /\ Scoring.calculatePlayerPoints {[ 7%N := Examples.unused_keeper_stats ]}
       [Examples.keeper] [] 7%N = 4.
Proof.
  split.
  - unfold Claims.clean_sheet_needs_minutes. vm_compute. discriminate.
  - reflexivity.
Qed.

(** C4 (amended): for every stat line and every position, the clean-sheet
    rule of [calculatePlayerPoints] contributes +4 (GK, DEF), +1 (MID) or
    +0 (FWD) exactly when [clean_sheet] is true, whatever the minutes
    played. *)
Theorem clean_sheet_points_follow_flag (stats : Scoring.PlayerStats) (player : Scoring.Player) :
  Scoring.clean_sheet_points stats player =
  if Scoring.clean_sheet stats
  then Scoring.clean_sheet_award (Scoring.position player)
  else 0.
Proof.
  unfold Scoring.clean_sheet_points, Scoring.points_before_clamp,
    Scoring.clean_sheet_award.
  destruct stats as [m g a cs y r sv ps pm og gc b tp ip]; simpl.
  destruct player as [pid pos]; simpl.
  destruct cs, pos; simpl; lia.
Qed.

(** ** Gameweek Calendar and Transfer Gate *)

(** No operator compares [CURRENT_TIME] with a [TIMESTAMPTZ] column. *)
Lemma compare_with_column_None : Calendar.compare_with_column = None.
Proof. reflexivity. Qed.

(** C10 (failing input): [transfers_allowed] returns no boolean.  At every
    value of [CURRENT_TIME] and on every table, also on the one whose only
    flagged gameweek has no deadline, the comparison
    [current_time >= deadline_time] cannot be planned and the call raises
    [operator does not exist]. *)
Theorem transfers_allowed_raises :
  (forall current_time gws,
     Calendar.transfers_allowed current_time gws
     = Calendar.Raised (Calendar.Undefined_function Calendar.time_with_time_zone
                          Calendar.timestamp_with_time_zone))
  /\ Calendar.transfers_allowed 1000 [Examples.early_finalized; Examples.open_gameweek]
     <> Calendar.Returned true.
Proof.
  assert (H : forall current_time gws,
            Calendar.transfers_allowed current_time gws
            = Calendar.Raised (Calendar.Undefined_function Calendar.time_with_time_zone
                                 Calendar.timestamp_with_time_zone)).
  { intros current_time gws. unfold Calendar.transfers_allowed.
    now rewrite compare_with_column_None. }
  split; [exact H|]. rewrite H. discriminate.
Qed.

(** C7: a gameweek that is finalized stays finalized through
    [update_gameweek_status], whatever the clock and its window: the rows
    after the call are the rows before it, in order, and a row that was
    finalized is finalized.  The call ends at its second statement, whose
    comparisons of [current_time] cannot be planned, and what its first
    statement wrote is undone. *)
Theorem refresh_keeps_finalized (current_time : Z) (gws : list gameweek) :
  Forall2
    (fun g g' =>
       gameweek_number g' = gameweek_number g
       /\ (status g = finalized -> status g' = finalized))
    gws (fst (Calendar.update_gameweek_status current_time gws)).
Proof.
  unfold Calendar.update_gameweek_status. rewrite compare_with_column_None.
  cbv zeta. cbn [fst].
  induction gws as [|g gws IH]; constructor; [split; auto | exact IH].
Qed.

(** ** Gameweek Finalizer: the completed-matches check *)

Lemma unfinished_match_spec (p : Z) (m : real_match) :
  Finalizer.unfinished_match p m = true <->
  match_gameweek m = p /\ match_status_of m <> completed.
Proof.
  unfold Finalizer.unfinished_match. rewrite andb_true_iff, negb_true_iff, Z.eqb_eq.
  destruct (match_status_of m); simpl; intuition congruence.
Qed.

(** C6: when some match of gameweek [p] is not completed, [finalize_gameweek]
    raises its exception with every table as it found it; and it runs to
    the end only when every match of the gameweek is completed. *)
Theorem finalize_needs_completed_matches (p : Z) (db : database) :
  ((exists m, In m (real_matches db) /\ match_gameweek m = p
              /\ match_status_of m <> completed) ->
   Finalizer.finalize_gameweek p db = (db, Some (Finalizer.Cannot_finalize_gameweek p)))
  /\ (snd (Finalizer.finalize_gameweek p db) = None ->
      forall m, In m (real_matches db) -> match_gameweek m = p ->
                match_status_of m = completed).
Proof.
  unfold Finalizer.finalize_gameweek.
  destruct (existsb (Finalizer.unfinished_match p) (real_matches db)) eqn:E; split.
  - reflexivity.
  - discriminate.
  - intros (m & Hin & Hm). exfalso.
    assert (existsb (Finalizer.unfinished_match p) (real_matches db) = true) as E'.
    { apply existsb_exists. exists m. split; [exact Hin|].
      now apply unfinished_match_spec. }
    congruence.
  - intros _ m Hin Hgw.
    destruct (match_status_eqb (match_status_of m) completed) eqn:Es.
    + destruct (match_status_of m); simpl in Es; congruence.
    + exfalso.
      assert (existsb (Finalizer.unfinished_match p) (real_matches db) = true) as E'.
      { apply existsb_exists. exists m. split; [exact Hin|].
        unfold Finalizer.unfinished_match. rewrite Es. simpl.
        now rewrite andb_true_r, Z.eqb_eq. }
      congruence.
Qed.

Lemma finalize_needs_completed_matches_witness :
  Finalizer.finalize_gameweek 3 Examples.transfer_db
  = (Examples.transfer_db, Some (Finalizer.Cannot_finalize_gameweek 3)).
Proof.
  apply (proj1 (finalize_needs_completed_matches 3 Examples.transfer_db)).
  exists {| match_gameweek := 3; match_status_of := live |}.
  split; [simpl; auto | split; [reflexivity | discriminate]].
Defined.

(** ** Transfers *)

(** Every rejected call leaves the tables and the hook state untouched. *)
Lemma makeTransfer_rejected_unchanged now ft td db o i r :
  Transfers.returned (Transfers.makeTransfer now ft td db o i r) = false ->
  Transfers.db_after (Transfers.makeTransfer now ft td db o i r) = db
  /\ Transfers.data_after (Transfers.makeTransfer now ft td db o i r) = td.
Proof.
  unfold Transfers.makeTransfer.
  destruct ft as [id|]; [|auto].
  destruct (Transfers.transfersRemaining td <=? 0); [auto|].
  destruct (negb (Transfers.canMakeTransfers td)); [auto|].
  destruct (Transfers.select_team db id) as [team|]; [|auto].
  destruct (players db !! o) as [po|]; [|auto].
  destruct (players db !! i) as [pi|]; [|auto].
  destruct (_ <? 0); [auto|]. simpl. discriminate.
Qed.

(** C9: when the incoming player's price minus the outgoing player's price
    exceeds the team's [budget_remaining], [makeTransfer] returns false and
    leaves every table as it was: the team's budget and the roster slot
    are unchanged, the check preceding all three writes. *)
Theorem makeTransfer_budget_guard now id td db o i r team po pi :
  Transfers.select_team db id = Some team ->
  players db !! o = Some po ->
  players db !! i = Some pi ->
  price pi - price po > budget_remaining team ->
  let out := Transfers.makeTransfer now (Some id) td db o i r in
  Transfers.returned out = false
  /\ Transfers.db_after out = db
  /\ Transfers.select_team (Transfers.db_after out) id = Some team
  /\ rosters (Transfers.db_after out) = rosters db
  /\ (0 < Transfers.transfersRemaining td -> Transfers.canMakeTransfers td = true ->
      Transfers.shown out = Transfers.Insufficient_budget_for_this_transfer).
Proof.
  intros Hteam Ho Hi Hprice out.
  assert (Hret : Transfers.returned out = false).
  { unfold out, Transfers.makeTransfer.
    destruct (Transfers.transfersRemaining td <=? 0); [reflexivity|].
    destruct (negb (Transfers.canMakeTransfers td)); [reflexivity|].
    rewrite Hteam, Ho, Hi.
    assert ((budget_remaining team - (price pi - price po) <? 0) = true) as -> by lia.
    reflexivity. }
  destruct (makeTransfer_rejected_unchanged now (Some id) td db o i r Hret) as [Hdb _].
  fold out in Hdb. rewrite Hdb. repeat split; auto.
  intros Hrem Hcan. unfold out, Transfers.makeTransfer.
  assert ((Transfers.transfersRemaining td <=? 0) = false) as -> by lia.
  rewrite Hcan. simpl. rewrite Hteam, Ho, Hi.
  assert ((budget_remaining team - (price pi - price po) <? 0) = true) as -> by lia.
  reflexivity.
Qed.

Lemma makeTransfer_budget_guard_witness :
  let out := Transfers.makeTransfer 0 (Some 1%N) Examples.two_transfers_left
               Examples.transfer_db 10%N 20%N 1%N in
  Transfers.returned out = false
  /\ Transfers.db_after out = Examples.transfer_db
  /\ Transfers.select_team (Transfers.db_after out) 1%N = Some Examples.team_a
  /\ rosters (Transfers.db_after out) = rosters Examples.transfer_db
  /\ (0 < Transfers.transfersRemaining Examples.two_transfers_left ->
      Transfers.canMakeTransfers Examples.two_transfers_left = true ->
      Transfers.shown out = Transfers.Insufficient_budget_for_this_transfer).
Proof.
  apply (makeTransfer_budget_guard 0 1%N Examples.two_transfers_left
           Examples.transfer_db 10%N 20%N 1%N Examples.team_a
           {| position_of := FWD; price := 80 |}
           {| position_of := FWD; price := 90 |}).
  - reflexivity.
  - reflexivity.
  - reflexivity.
  - vm_compute. reflexivity.
Defined.

(** ** [ORDER BY] *)

Section OrderBy.

Context {A : Type} (before : A -> A -> bool).

Lemma insert_by_perm (x : A) (l : list A) :
  Permutation (Sql.insert_by before x l) (x :: l).
Proof.
  induction l as [|y l IH]; simpl; [reflexivity|].
  destruct (before y x); [|reflexivity].
  rewrite IH. apply perm_swap.
Qed.

Lemma order_by_perm (l : list A) : Permutation (Sql.order_by before l) l.
Proof.
  induction l as [|x l IH]; simpl; [reflexivity|].
  rewrite insert_by_perm. now constructor.
Qed.

Lemma order_by_In (l : list A) (x : A) : In x (Sql.order_by before l) <-> In x l.
Proof.
  split; apply Permutation_in; [|symmetry]; apply order_by_perm.
Qed.

Lemma order_by_singleton (x : A) : Sql.order_by before [x] = [x].
Proof. reflexivity. Qed.

Hypothesis before_asym : forall x y, before x y = true -> before y x = false.
Hypothesis before_negtrans :
  forall x y z, before x z = true -> before x y = true \/ before y z = true.

Lemma before_irrefl (x : A) : before x x = false.
Proof.
  destruct (before x x) eqn:E; [|reflexivity].
  now rewrite (before_asym x x E) in E.
Qed.

(** [LIMIT 1] after [ORDER BY]: the first row is one that no row sorts
    strictly before. *)
Lemma head_order_by (l : list A) (h : A) :
  head (Sql.order_by before l) = Some h ->
  In h l /\ forall x, In x l -> before x h = false.
Proof.
  revert h. induction l as [|x l IH]; intros h; simpl; [discriminate|].
  destruct (Sql.order_by before l) as [|y s] eqn:Es; simpl.
  - intros [= <-]. split; [now left|].
    assert (l = []) as ->.
    { apply Permutation_nil. rewrite <- Es. apply order_by_perm. }
    intros z [<- | []]. apply before_irrefl.
  - destruct (IH y eq_refl) as [Hy Hmin].
    destruct (before y x) eqn:Eyx; simpl; intros [= <-].
    + split; [now right|]. intros z [<- | Hz]; [now apply before_asym | now apply Hmin].
    + split; [now left|]. intros z [<- | Hz]; [apply before_irrefl|].
      destruct (before z x) eqn:Ezx; [|reflexivity].
      destruct (before_negtrans z y x Ezx) as [H | H].
      * now rewrite (Hmin z Hz) in H.
      * now rewrite Eyx in H.
Qed.

Lemma head_order_by_None (l : list A) :
  head (Sql.order_by before l) = None <-> l = [].
Proof.
  split; [|now intros ->].
  destruct (Sql.order_by before l) as [|y s] eqn:Es; [|discriminate].
  intros _. apply Permutation_nil. rewrite <- Es. apply order_by_perm.
Qed.

End OrderBy.

Lemma desc_nulls_last_asym (a b : option Z) :
  Sql.desc_nulls_last a b = true -> Sql.desc_nulls_last b a = false.
Proof. destruct a, b; simpl; try reflexivity; try discriminate; lia. Qed.

Lemma desc_nulls_last_negtrans (a b c : option Z) :
  Sql.desc_nulls_last a c = true ->
  Sql.desc_nulls_last a b = true \/ Sql.desc_nulls_last b c = true.
Proof. destruct a, b, c; simpl; try discriminate; auto; lia. Qed.

(** ** Team Points Calculator: the substitution rule *)

Section Substitution.

Variables (db : database) (t : uuid) (gw : Z).

(** The substitute of the database procedure is an eligible bench row that
    no eligible bench row precedes in [total_points DESC NULLS LAST]. *)
Lemma find_substitute_Some (pos : player_position) (sub : TeamPoints.substitute_record) :
  TeamPoints.find_substitute db t gw pos = Some sub ->
  exists j, In j (TeamPoints.team_rows db t gw)
    /\ TeamPoints.substitute_where pos j = true
    /\ sub = TeamPoints.select_substitute j
    /\ forall j', In j' (TeamPoints.team_rows db t gw) ->
         TeamPoints.substitute_where pos j' = true ->
         Sql.desc_nulls_last (TeamPoints.gs_total_points (TeamPoints.j_score j'))
           (TeamPoints.gs_total_points (TeamPoints.j_score j)) = false.
Proof.
  unfold TeamPoints.find_substitute.
  destruct (Sql.order_by _ _) as [|j s] eqn:Es; simpl; [discriminate|].
  intros [= <-]. exists j.
  destruct (head_order_by TeamPoints.substitute_order
              (fun x y => desc_nulls_last_asym _ _)
              (fun x y z => desc_nulls_last_negtrans _ _ _)
              (List.filter (TeamPoints.substitute_where pos) (TeamPoints.team_rows db t gw)) j)
    as [Hin Hmin].
  { now rewrite Es. }
  apply filter_In in Hin as [Hin Hw]. repeat split; auto.
  intros j' Hj' Hw'. apply Hmin. now apply filter_In.
Qed.

Lemma find_substitute_None (pos : player_position) :
  TeamPoints.find_substitute db t gw pos = None <->
  forall j, In j (TeamPoints.team_rows db t gw) -> TeamPoints.substitute_where pos j = false.
Proof.
  unfold TeamPoints.find_substitute.
  destruct (Sql.order_by _ _) as [|j s] eqn:Es; simpl; split.
  - intros _ j Hj.
    assert (Hnil : List.filter (TeamPoints.substitute_where pos) (TeamPoints.team_rows db t gw) = []).
    { apply (head_order_by_None TeamPoints.substitute_order). now rewrite Es. }
    destruct (TeamPoints.substitute_where pos j) eqn:E; [|reflexivity].
    assert (In j []) as []. rewrite <- Hnil. now apply filter_In.
  - reflexivity.
  - discriminate.
  - intros Hall. exfalso.
    assert (Hj : In j (Sql.order_by TeamPoints.substitute_order
                         (List.filter (TeamPoints.substitute_where pos)
                            (TeamPoints.team_rows db t gw)))).
    { rewrite Es. now left. }
    apply order_by_In, filter_In in Hj as [Hj Hw]. now rewrite (Hall j Hj) in Hw.
Qed.

(** Rows come out of the join with a player, so with a key. *)
Lemma team_rows_player_id (j : TeamPoints.joined) :
  In j (TeamPoints.team_rows db t gw) ->
  Sql.is_not_null (player_id (TeamPoints.j_roster j)) = true.
Proof.
  unfold TeamPoints.team_rows. rewrite in_flat_map. intros (r & _ & Hj).
  unfold TeamPoints.join_row in Hj.
  destruct (player_id r) as [pid|] eqn:Er; [|destruct Hj].
  destruct (players db !! pid); [|destruct Hj].
  destruct Hj as [<- | []]. simpl. now rewrite Er.
Qed.

(** Whatever the loop has accumulated, a row adds its contribution. *)
Lemma loop_body_total (a : TeamPoints.acc) (pr : TeamPoints.player_record) :
  TeamPoints.acc_total (TeamPoints.loop_body db t gw a pr)
  = TeamPoints.acc_total a + Derived.starter_contribution db t gw pr.
Proof.
  unfold TeamPoints.loop_body, Derived.starter_contribution.
  destruct (Sql.is_true (TeamPoints.pr_is_starter pr)); [|lia].
  destruct (TeamPoints.pr_minutes_played pr =? 0); [|reflexivity].
  destruct (TeamPoints.find_substitute db t gw (TeamPoints.pr_position pr)) as [sub|]; [|lia].
  destruct (Sql.is_not_null (TeamPoints.sub_player_id sub)); [reflexivity|lia].
Qed.

Lemma loop_total (rows : list TeamPoints.player_record) (a : TeamPoints.acc) :
  TeamPoints.acc_total (fold_left (TeamPoints.loop_body db t gw) rows a)
  = TeamPoints.acc_total a + Derived.sumZ (map (Derived.starter_contribution db t gw) rows).
Proof.
  revert a. induction rows as [|pr rows IH]; intros a; simpl; [lia|].
  rewrite IH, loop_body_total. lia.
Qed.

(** The same for the client. *)
Lemma manual_body_total (roster : list TeamPoints.roster_with_player)
    (a : TeamPoints.acc) (rp : TeamPoints.roster_with_player) :
  TeamPoints.acc_total (TeamPoints.manual_body db gw roster a rp)
  = TeamPoints.acc_total a + Derived.manual_contribution db gw roster rp.
Proof.
  unfold TeamPoints.manual_body, Derived.manual_contribution, Derived.manual_substitute,
    Derived.manual_minutes, Derived.manual_points.
  destruct (TeamPoints.not_starter rp); [lia|].
  destruct (_ =? 0); [|reflexivity].
  destruct (TeamPoints.find_bench roster rp) as [s|]; [|lia].
  destruct (0 <? _); [reflexivity|lia].
Qed.

Lemma manual_total (roster rows : list TeamPoints.roster_with_player) (a : TeamPoints.acc) :
  TeamPoints.acc_total (fold_left (TeamPoints.manual_body db gw roster) rows a)
  = TeamPoints.acc_total a + Derived.sumZ (map (Derived.manual_contribution db gw roster) rows).
Proof.
  revert a. induction rows as [|rp rows IH]; intros a; simpl; [lia|].
  rewrite IH, manual_body_total. lia.
Qed.

End Substitution.

Lemma find_first {A : Type} (f : A -> bool) (l : list A) (x : A) :
  List.find f l = Some x ->
  exists l1 l2, l = l1 ++ x :: l2 /\ f x = true /\ forall y, In y l1 -> f y = false.
Proof.
  induction l as [|y l IH]; simpl; [discriminate|].
  destruct (f y) eqn:Ey.
  - intros [= <-]. exists [], l. repeat split; auto. intros z [].
  - intros H. destruct (IH H) as (l1 & l2 & -> & Hx & Hl1).
    exists (y :: l1), l2. repeat split; auto.
    intros z [<- | Hz]; auto.
Qed.

(** C1 (as stated, refuted): in [bench_db] the first-listed bench defender
    with minutes is player 12 (9 points); the database procedure brings on
    player 13 (12 points, total 12) and the client brings on nobody
    (total 0). *)
Lemma substitute_is_not_first_listed :
  ~ Claims.procedure_substitutes_first_listed Examples.bench_db 1 1
  /\ ~ Claims.client_substitutes_first_listed Examples.bench_db 1 1
  /\ TeamPoints.calculate_fantasy_team_points Examples.bench_db 1 1 = 12
  /\ TeamPoints.calculateTeamPointsManual Examples.bench_db 1 1 = 0.
Proof.
  split; [|split; [|split; reflexivity]].
  - intros H. specialize (H Examples.idle_defender).
    assert (Hin : In Examples.idle_defender (TeamPoints.loop_rows Examples.bench_db 1 1))
      by (vm_compute; auto).
    specialize (H Hin eq_refl eq_refl). vm_compute in H. discriminate H.
  - intros H.
    specialize (H (TeamPoints.embed_player Examples.bench_db
                     (Examples.slot 1 1 10 true false false))).
    assert (Hin : In (TeamPoints.embed_player Examples.bench_db
                        (Examples.slot 1 1 10 true false false))
                     (TeamPoints.select_roster Examples.bench_db 1))
      by (vm_compute; auto).
    specialize (H Hin eq_refl eq_refl). vm_compute in H. discriminate H.
Qed.

(** C1 (amended): for a starter with 0 minutes, the database procedure
    brings on the bench player of the same position with minutes who comes
    first in [total_points DESC NULLS LAST], and adds that player's points
    to the total in place of the starter's; without such a player it adds
    nothing.  The client fallback looks only at the first-listed bench
    player of the same position, and adds that player's points when he has
    minutes and nothing otherwise. *)
Theorem substitute_selection (db : database) (t : uuid) (gw : Z) :
  (forall a pr,
     Sql.is_true (TeamPoints.pr_is_starter pr) = true ->
     TeamPoints.pr_minutes_played pr = 0 ->
     match TeamPoints.find_substitute db t gw (TeamPoints.pr_position pr) with
     | Some sub =>
         (exists j, Derived.best_scoring_substitute db t gw (TeamPoints.pr_position pr) j
                    /\ sub = TeamPoints.select_substitute j)
         /\ TeamPoints.acc_total (TeamPoints.loop_body db t gw a pr)
            = TeamPoints.acc_total a + TeamPoints.sub_points sub
     | None =>
         (forall j, In j (TeamPoints.team_rows db t gw) ->
                    TeamPoints.substitute_where (TeamPoints.pr_position pr) j = false)
         /\ TeamPoints.loop_body db t gw a pr = a
     end)
  /\ (forall roster a rp,
        TeamPoints.not_starter rp = false ->
        Derived.manual_minutes db gw rp = 0 ->
        match TeamPoints.find_bench roster rp with
        | Some s =>
            Derived.first_bench_at roster rp s
            /\ TeamPoints.acc_total (TeamPoints.manual_body db gw roster a rp)
               = TeamPoints.acc_total a
                 + (if 0 <? Derived.manual_minutes db gw s
                    then Derived.manual_points db gw s else 0)
        | None =>
            (forall r, In r roster -> Derived.bench_at rp r = false)
            /\ TeamPoints.manual_body db gw roster a rp = a
        end).
Proof.
  split.
  - intros a pr Hst Hmin.
    destruct (TeamPoints.find_substitute db t gw (TeamPoints.pr_position pr)) as [sub|] eqn:E.
    + destruct (find_substitute_Some db t gw _ _ E) as (j & Hin & Hw & -> & Hbest).
      split; [exists j; split; [repeat split; auto | reflexivity]|].
      unfold TeamPoints.loop_body. rewrite Hst, Hmin, E. simpl.
      now rewrite (team_rows_player_id db t gw j Hin).
    + split; [now apply find_substitute_None|].
      unfold TeamPoints.loop_body. now rewrite Hst, Hmin, E.
  - intros roster a rp Hst Hmin.
    unfold TeamPoints.manual_body. rewrite Hst.
    unfold Derived.manual_minutes in Hmin. rewrite Hmin. simpl.
    unfold TeamPoints.find_bench.
    destruct (List.find _ roster) as [s|] eqn:E.
    + split; [apply find_first in E; exact E|].
      unfold Derived.manual_minutes, Derived.manual_points.
      destruct (0 <? _); simpl; [reflexivity|lia].
    + split; [|reflexivity]. intros r Hr. exact (find_none _ _ E r Hr).
Qed.

Lemma substitute_selection_witness :
  TeamPoints.acc_total
    (TeamPoints.loop_body Examples.bench_db 1 1 Examples.zero_acc Examples.idle_defender)
  = 12.
Proof.
  pose proof (proj1 (substitute_selection Examples.bench_db 1 1)
                Examples.zero_acc Examples.idle_defender eq_refl eq_refl) as H.
  change (TeamPoints.find_substitute Examples.bench_db 1 1
            (TeamPoints.pr_position Examples.idle_defender))
    with (Some {| TeamPoints.sub_player_id := Some 13%N; TeamPoints.sub_points := 12;
                  TeamPoints.sub_minutes := 90 |}) in H.
  destruct H as [_ H]. exact H.
Defined.

(** C2 (as stated, refuted): in [shared_bench_db] bench defender 11 comes
    on for both idle starters, in the procedure and in the client, and his
    5 points are counted twice. *)
Lemma bench_player_used_twice :
  ~ Claims.procedure_uses_each_substitute_once Examples.shared_bench_db 1 1
  /\ ~ Claims.client_uses_each_substitute_once Examples.shared_bench_db 1 1
  /\ TeamPoints.calculate_fantasy_team_points Examples.shared_bench_db 1 1 = 10
  /\ TeamPoints.calculateTeamPointsManual Examples.shared_bench_db 1 1 = 10.
Proof.
  split; [|split; [|split; reflexivity]].
  - unfold Claims.procedure_uses_each_substitute_once.
    change (Derived.substitutions Examples.shared_bench_db 1 1)
      with [Some 11%N; Some 11%N].
    rewrite NoDup_cons. intros [H _]. apply H. left.
  - unfold Claims.client_uses_each_substitute_once.
    change (Derived.manual_substitutions Examples.shared_bench_db 1 1)
      with [3%N; 3%N].
    rewrite NoDup_cons. intros [H _]. apply H. left.
Qed.

(** C2 (amended): the calculators keep no record of the bench players
    already brought on.  What a starter adds to the total is a function of
    his own row and the stored stats alone, whatever the loop has done
    before, so that the total is the sum of these contributions; two
    starters without minutes at the same position get the same substitute. *)
Theorem substitution_has_no_memory (db : database) (t : uuid) (gw : Z) :
  (forall rows a,
     TeamPoints.acc_total (fold_left (TeamPoints.loop_body db t gw) rows a)
     = TeamPoints.acc_total a
       + Derived.sumZ (map (Derived.starter_contribution db t gw) rows))
  /\ (forall roster rows a,
        TeamPoints.acc_total (fold_left (TeamPoints.manual_body db gw roster) rows a)
        = TeamPoints.acc_total a
          + Derived.sumZ (map (Derived.manual_contribution db gw roster) rows))
  /\ (forall pr1 pr2,
        TeamPoints.pr_position pr1 = TeamPoints.pr_position pr2 ->
        TeamPoints.find_substitute db t gw (TeamPoints.pr_position pr1)
        = TeamPoints.find_substitute db t gw (TeamPoints.pr_position pr2))
  /\ (forall roster rp1 rp2,
        TeamPoints.rw_position rp1 = TeamPoints.rw_position rp2 ->
        Derived.manual_substitute db gw roster rp1
        = Derived.manual_substitute db gw roster rp2).
Proof.
  split; [intros; apply loop_total|].
  split; [intros; apply manual_total|].
  split; [now intros pr1 pr2 ->|].
  intros roster rp1 rp2 Hpos.
  unfold Derived.manual_substitute, TeamPoints.find_bench. now rewrite Hpos.
Qed.

Lemma substitution_has_no_memory_witness :
  TeamPoints.find_substitute Examples.shared_bench_db 1 1
    (TeamPoints.pr_position Examples.idle_defender)
  = TeamPoints.find_substitute Examples.shared_bench_db 1 1
      (TeamPoints.pr_position Examples.second_idle_defender)
  /\ TeamPoints.acc_total (TeamPoints.run_loop Examples.shared_bench_db 1 1)
     = 0 + (5 + (5 + (0 + 0))).
Proof.
  destruct (substitution_has_no_memory Examples.shared_bench_db 1 1)
    as (Hsum & _ & Hsame & _).
  split.
  - apply (Hsame Examples.idle_defender Examples.second_idle_defender). reflexivity.
  - exact (Hsum (TeamPoints.loop_rows Examples.shared_bench_db 1 1) Examples.zero_acc).
Defined.

(** ** Team Points Calculator: captaincy *)

(** C3 (the code departs from the claim): in [captain_db] the captain
    played 30 minutes and scored 0; the loop leaves [captain_points] at 0,
    the procedure takes the vice-captain branch and adds the vice-captain's
    5 points a second time, for a total of 10 where doubling the captain
    gives 5. *)
Lemma vice_captain_bonus_although_captain_played :
  TeamPoints.run_loop Examples.captain_db 1 1
  = {| TeamPoints.acc_total := 5; TeamPoints.acc_captain := 0 |}
  /\ TeamPoints.captain_bonus Examples.captain_db 1 1 0 = 5
  /\ TeamPoints.calculate_fantasy_team_points Examples.captain_db 1 1 = 10.
Proof. repeat split; reflexivity. Qed.

(** C8 (as stated, refuted): the two calculators disagree on [captain_db]
    (10 against 5: only the procedure has the vice-captain fallback) and on
    [bench_db] (12 against 0: they choose the substitute differently). *)
Lemma calculators_disagree :
  ~ Claims.calculators_agree Examples.captain_db 1 1
  /\ ~ Claims.calculators_agree Examples.bench_db 1 1.
Proof. split; intros H; vm_compute in H; discriminate H. Qed.

(** ** Gameweek Finalizer: running it twice *)

Lemma same_inputs_refl (db : database) : Derived.same_inputs db db.
Proof. repeat split. Qed.

Lemma same_inputs_trans (a b c : database) :
  Derived.same_inputs a b -> Derived.same_inputs b c -> Derived.same_inputs a c.
Proof. intros (? & ? & ?) (? & ? & ?). repeat split; congruence. Qed.

(** The team total is a function of [rosters], [players] and
    [gameweek_scores]. *)
Lemma calculate_same_inputs (db db' : database) (t : uuid) (gw : Z) :
  Derived.same_inputs db db' ->
  TeamPoints.calculate_fantasy_team_points db t gw
  = TeamPoints.calculate_fantasy_team_points db' t gw.
Proof.
  intros (Hr & Hp & Hs).
  unfold TeamPoints.calculate_fantasy_team_points, TeamPoints.run_loop,
    TeamPoints.captain_bonus, TeamPoints.select_vice_captain_id,
    TeamPoints.vice_captain_points, TeamPoints.loop_rows, TeamPoints.loop_body,
    TeamPoints.find_substitute, TeamPoints.team_rows, TeamPoints.join_row.
  now rewrite Hr, Hp, Hs.
Qed.

Section FinalizeOnce.

Variables (p : Z) (db0 : database).

Local Abbreviation calc := (fun id : uuid => TeamPoints.calculate_fantasy_team_points db0 id p).

(** The first loop, table by table. *)
Lemma team_loop (ids : list uuid) (db : database) :
  Derived.same_inputs db0 db ->
  let db' := fold_left (Finalizer.finalize_team p) ids db in
  Derived.same_inputs db0 db'
  /\ real_matches db' = real_matches db
  /\ gameweeks db' = gameweeks db
  /\ fantasy_teams db'
     = fold_left (fun ts id => Finalizer.update_team_where id
                                 (Finalizer.roll_over p (calc id)) ts)
         ids (fantasy_teams db)
  /\ fantasy_team_gameweek_points db'
     = fold_left (fun m id => Finalizer.upsert_points id p (calc id) m)
         ids (fantasy_team_gameweek_points db).
Proof.
  revert db. induction ids as [|id ids IH]; intros db Hsame; simpl.
  - split; [assumption|]. repeat split.
  - assert (Hstep : Derived.same_inputs db0 (Finalizer.finalize_team p db id))
      by (destruct Hsame as (? & ? & ?); repeat split; assumption).
    destruct (IH _ Hstep) as (H1 & H2 & H3 & H4 & H5).
    split; [assumption|]. split; [assumption|]. split; [assumption|]. split.
    + rewrite H4. unfold Finalizer.finalize_team. simpl.
      now rewrite (calculate_same_inputs db0 db id p Hsame).
    + rewrite H5. unfold Finalizer.finalize_team. simpl.
      now rewrite (calculate_same_inputs db0 db id p Hsame).
Qed.


Lemma existsb_eqb_In (a : N) (l : list N) : existsb (N.eqb a) l = true <-> In a l.
Proof.
  rewrite existsb_exists. split.
  - intros (x & Hx & E). apply N.eqb_eq in E. now subst.
  - intros H. exists a. split; [assumption | apply N.eqb_refl].
Qed.

(** With each team listed once, the first loop rolls every listed team
    over once. *)
Lemma roll_over_teams (ids : list uuid) (ts : list fantasy_team) :
  NoDup ids ->
  fold_left (fun ts id => Finalizer.update_team_where id
                            (Finalizer.roll_over p (calc id)) ts) ids ts
  = map (fun t => if existsb (N.eqb (team_id t)) ids
                  then Finalizer.roll_over p (calc (team_id t)) t else t) ts.
Proof.
  revert ts. induction ids as [|id ids IH]; intros ts Hnd; simpl.
  - symmetry. apply map_id.
  - apply NoDup_cons in Hnd as [Hnin Hnd]. rewrite (IH _ Hnd).
    unfold Finalizer.update_team_where. rewrite map_map. apply map_ext. intros t.
    destruct (N.eqb (team_id t) id) eqn:E; simpl.
    + apply N.eqb_eq in E. rewrite E.
      destruct (existsb (N.eqb id) ids) eqn:Ex; [|reflexivity].
      apply existsb_eqb_In in Ex. exfalso. apply Hnin. now apply list_elem_of_In.
    + reflexivity.
Qed.

Lemma upsert_points_at (id : uuid) (v : Z) (m : gmap (N * Z) gameweek_points_row)
    (k : N * Z) :
  Derived.points_at (Finalizer.upsert_points id p v m) k
  = if decide ((id, p) = k) then Some v else Derived.points_at m k.
Proof.
  unfold Derived.points_at, Finalizer.upsert_points.
  destruct (m !! (id, p)); rewrite lookup_insert; case_decide; reflexivity.
Qed.

Lemma ledger_fold (ids : list uuid) (m : gmap (N * Z) gameweek_points_row) (k : N * Z) :
  Derived.points_at
    (fold_left (fun m id => Finalizer.upsert_points id p (calc id) m) ids m) k
  = if (snd k =? p) && existsb (N.eqb (fst k)) ids
    then Some (calc (fst k)) else Derived.points_at m k.
Proof.
  revert m. induction ids as [|id ids IH]; intros m; simpl.
  - now rewrite andb_false_r.
  - rewrite IH, upsert_points_at. destruct k as [t p']; simpl.
    destruct (p' =? p) eqn:Ep; simpl.
    + apply Z.eqb_eq in Ep. subst p'.
      destruct (existsb (N.eqb t) ids); [now rewrite orb_true_r|].
      rewrite orb_false_r. case_decide as Hk.
      * injection Hk as ->. now rewrite N.eqb_refl.
      * destruct (N.eqb t id) eqn:E; [|reflexivity].
        apply N.eqb_eq in E. subst. now destruct Hk.
    + case_decide as Hk; [|reflexivity].
      injection Hk as -> ->. now rewrite Z.eqb_refl in Ep.
Qed.

(** Ranking writes [rank_in_league] and [rank] only. *)
Lemma rank_rows_points (rows : list (uuid * Z))
    (st : gmap (N * Z) gameweek_points_row * Z) (k : N * Z) :
  Derived.points_at
    (fst (fold_left
            (fun (st : gmap (N * Z) gameweek_points_row * Z) (row : uuid * Z) =>
               (alter (Finalizer.set_rank_in_league (snd st)) (fst row, p) (fst st),
                snd st + 1))
            rows st)) k
  = Derived.points_at (fst st) k.
Proof.
  revert st. induction rows as [|row rows IH]; intros [m counter]; simpl; [reflexivity|].
  rewrite IH. simpl. unfold Derived.points_at. rewrite lookup_alter.
  case_decide as Hk; [|reflexivity]. subst k.
  now destruct (m !! (row.1, p)).
Qed.

Lemma rank_ids_teams (ids : list uuid) (st : list fantasy_team * Z) :
  map Derived.without_rank
    (fst (fold_left
            (fun (st : list fantasy_team * Z) (id : uuid) =>
               (Finalizer.update_team_where id (Finalizer.set_rank (snd st)) (fst st),
                snd st + 1))
            ids st))
  = map Derived.without_rank (fst st).
Proof.
  revert st. induction ids as [|id ids IH]; intros [ts counter]; simpl; [reflexivity|].
  rewrite IH. simpl. unfold Finalizer.update_team_where. rewrite map_map.
  apply map_ext. intros t. now destruct (N.eqb (team_id t) id).
Qed.

Lemma rank_league_effect (db : database) (lg : uuid) :
  let db' := Finalizer.rank_league p db lg in
  Derived.same_inputs db db'
  /\ real_matches db' = real_matches db
  /\ fantasy_teams db' = fantasy_teams db
  /\ forall k, Derived.points_at (fantasy_team_gameweek_points db') k
               = Derived.points_at (fantasy_team_gameweek_points db) k.
Proof.
  simpl. repeat split. intros k. apply rank_rows_points.
Qed.

Lemma league_loop (lgs : list uuid) (db : database) :
  let db' := fold_left (Finalizer.rank_league p) lgs db in
  Derived.same_inputs db db'
  /\ real_matches db' = real_matches db
  /\ fantasy_teams db' = fantasy_teams db
  /\ forall k, Derived.points_at (fantasy_team_gameweek_points db') k
               = Derived.points_at (fantasy_team_gameweek_points db) k.
Proof.
  revert db. induction lgs as [|lg lgs IH]; intros db; simpl.
  - split; [apply same_inputs_refl|]. repeat split.
  - destruct (IH (Finalizer.rank_league p db lg)) as (H1 & H2 & H3 & H4).
    destruct (rank_league_effect db lg) as (G1 & G2 & G3 & G4).
    split; [eapply same_inputs_trans; eassumption|].
    split; [congruence|]. split; [congruence|].
    intros k. now rewrite H4, G4.
Qed.

Lemma rank_overall_effect (db : database) :
  let db' := Finalizer.rank_overall db in
  Derived.same_inputs db db'
  /\ real_matches db' = real_matches db
  /\ fantasy_team_gameweek_points db' = fantasy_team_gameweek_points db
  /\ map Derived.without_rank (fantasy_teams db')
     = map Derived.without_rank (fantasy_teams db).
Proof.
  simpl. repeat split. apply rank_ids_teams.
Qed.

End FinalizeOnce.

Lemma existsb_Permutation {A : Type} (f : A -> bool) (l l' : list A) :
  Permutation l l' -> existsb f l = existsb f l'.
Proof.
  intros Hp. apply eq_true_iff_eq. rewrite !existsb_exists.
  split; intros (x & Hx & Hf); exists x; split; auto.
  - now apply (Permutation_in x Hp).
  - now apply (Permutation_in x (Permutation_sym Hp)).
Qed.

Lemma teams_by_id_perm (db : database) :
  Permutation (Finalizer.teams_by_id db) (map team_id (fantasy_teams db)).
Proof. unfold Finalizer.teams_by_id. apply Permutation_map, order_by_perm. Qed.

(** One run of [finalize_gameweek] over a gameweek whose matches are all
    completed. *)
Lemma finalize_effect (p : Z) (db : database) :
  NoDup (map team_id (fantasy_teams db)) ->
  existsb (Finalizer.unfinished_match p) (real_matches db) = false ->
  let db1 := fst (Finalizer.finalize_gameweek p db) in
  snd (Finalizer.finalize_gameweek p db) = None
  /\ Derived.same_inputs db db1
  /\ real_matches db1 = real_matches db
  /\ map Derived.without_rank (fantasy_teams db1)
     = map (fun t => Derived.without_rank
                       (Finalizer.roll_over p
                          (TeamPoints.calculate_fantasy_team_points db (team_id t) p) t))
         (fantasy_teams db)
  /\ forall t, Derived.ledger_points db1 t p
               = if existsb (N.eqb t) (map team_id (fantasy_teams db))
                 then Some (TeamPoints.calculate_fantasy_team_points db t p)
                 else Derived.ledger_points db t p.
Proof.
  intros Hnd Hdone. unfold Finalizer.finalize_gameweek. rewrite Hdone.
  cbv zeta. cbn [fst snd]. split; [reflexivity|].
  destruct (team_loop p db (Finalizer.teams_by_id db) db (same_inputs_refl db))
    as (A1 & A2 & _ & A4 & A5).
  set (dbA := fold_left (Finalizer.finalize_team p) (Finalizer.teams_by_id db) db) in *.
  destruct (league_loop p (Finalizer.distinct_leagues dbA) dbA) as (B1 & B2 & B3 & B4).
  set (dbB := fold_left (Finalizer.rank_league p) (Finalizer.distinct_leagues dbA) dbA) in *.
  destruct (rank_overall_effect dbB) as (C1 & C2 & C3 & C4).
  set (dbC := Finalizer.rank_overall dbB) in *.
  assert (Hids : NoDup (Finalizer.teams_by_id db)).
  { now rewrite teams_by_id_perm. }
  split; [|split; [|split]].
  - change (Derived.same_inputs db dbC).
    eapply same_inputs_trans; [exact A1|].
    eapply same_inputs_trans; [exact B1|exact C1].
  - change (real_matches dbC = real_matches db). congruence.
  - change (fantasy_teams (Finalizer.mark_finalized p dbC)) with (fantasy_teams dbC).
    rewrite C4, B3, A4, (roll_over_teams p db _ _ Hids).
    rewrite map_map. apply map_ext_in. intros t Ht.
    assert (existsb (N.eqb (team_id t)) (Finalizer.teams_by_id db) = true) as ->;
      [|reflexivity].
    rewrite (existsb_Permutation _ _ _ (teams_by_id_perm db)).
    apply existsb_eqb_In. now apply in_map.
  - intros t. unfold Derived.ledger_points.
    change (fantasy_team_gameweek_points (Finalizer.mark_finalized p dbC))
      with (fantasy_team_gameweek_points dbC).
    rewrite C3, B4, A5, ledger_fold. simpl. rewrite Z.eqb_refl. simpl.
    now rewrite (existsb_Permutation _ _ _ (teams_by_id_perm db)).
Qed.

Lemma map_eq_Forall2 {A B C : Type} (f : B -> C) (g : A -> C) (l1 : list A) (l2 : list B) :
  map f l2 = map g l1 -> Forall2 (fun a b => f b = g a) l1 l2.
Proof.
  revert l2. induction l1 as [|a l1 IH]; intros [|b l2] H; try discriminate H;
    constructor; simpl in H; [congruence | apply IH; congruence].
Qed.

(** C5 (as stated, refuted): finalizing gameweek 1 of [played_db] twice
    moves the running totals from 54 and 58 after the first run to 68 and 61
    after the second. *)
Lemma second_finalize_adds_points_again :
  ~ Claims.rerun_changes_nothing 1 Examples.played_db
  /\ map team_total_points
       (fantasy_teams (fst (Finalizer.finalize_gameweek 1 Examples.played_db)))
     = [54; 58]
  /\ map team_total_points
       (fantasy_teams
          (fst (Finalizer.finalize_gameweek 1
                  (fst (Finalizer.finalize_gameweek 1 Examples.played_db)))))
     = [68; 61].
Proof.
  split; [|split; reflexivity].
  intros (_ & H & _). vm_compute in H. discriminate H.
Qed.

(** C5 (amended): when [finalize_gameweek] has run on a gameweek, a second
    run finds the matches completed again and leaves the [points] of every ledger row
    of the gameweek as they are; it writes 0 to [transfers_made_this_gw]
    and least(transfers_banked + 1, 1) to [transfers_banked] again, which
    changes neither once they are 0 and 1; and it adds the team's gameweek
    points to [total_points] a second time. *)
Theorem finalize_twice (p : Z) (db : database) :
  NoDup (map team_id (fantasy_teams db)) ->
  existsb (Finalizer.unfinished_match p) (real_matches db) = false ->
  let db1 := fst (Finalizer.finalize_gameweek p db) in
  let db2 := fst (Finalizer.finalize_gameweek p db1) in
  snd (Finalizer.finalize_gameweek p db1) = None
  /\ (forall t, Derived.ledger_points db2 t p = Derived.ledger_points db1 t p)
  /\ Forall2
       (fun t1 t2 =>
          team_id t2 = team_id t1
          /\ team_total_points t2
             = team_total_points t1
               + TeamPoints.calculate_fantasy_team_points db (team_id t1) p
          /\ gameweek_points t2 = gameweek_points t1
          /\ transfers_made_this_gw t1 = 0 /\ transfers_made_this_gw t2 = 0
          /\ transfers_banked t2 = Z.min (transfers_banked t1 + 1) 1
          /\ (transfers_banked t1 = 1 -> transfers_banked t2 = 1))
       (fantasy_teams db1) (fantasy_teams db2).
Proof.
  intros Hnd Hdone db1 db2.
  destruct (finalize_effect p db Hnd Hdone) as (_ & S1 & M1 & T1 & L1).
  fold db1 in S1, M1, T1, L1.
  assert (Hids : map team_id (fantasy_teams db1) = map team_id (fantasy_teams db)).
  { apply (f_equal (map team_id)) in T1. now rewrite !map_map in T1. }
  assert (Hnd1 : NoDup (map team_id (fantasy_teams db1))) by now rewrite Hids.
  assert (Hdone1 : existsb (Finalizer.unfinished_match p) (real_matches db1) = false)
    by now rewrite M1.
  destruct (finalize_effect p db1 Hnd1 Hdone1) as (R2 & S2 & _ & T2 & L2).
  fold db2 in S2, T2, L2.
  split; [exact R2|]. split.
  - intros t. rewrite L2, Hids, L1.
    rewrite <- (calculate_same_inputs db db1 t p S1).
    now destruct (existsb (N.eqb t) (map team_id (fantasy_teams db))).
  - apply map_eq_Forall2 in T1, T2.
    assert (Hfirst : Forall (fun t1 => transfers_made_this_gw t1 = 0
                        /\ gameweek_points t1
                           = TeamPoints.calculate_fantasy_team_points db (team_id t1) p)
                       (fantasy_teams db1)).
    { clear -T1. induction T1 as [|t0 t1 l0 l1 H _ IH]; constructor; [|exact IH].
      split.
      - apply (f_equal transfers_made_this_gw) in H. exact H.
      - apply (f_equal gameweek_points) in H as Hg.
        apply (f_equal team_id) in H as Hi. simpl in Hg, Hi. congruence. }
    clear -T2 Hfirst S1.
    induction T2 as [|t1 t2 l1 l2 H _ IH]; constructor.
    + apply Forall_cons in Hfirst as [[Hm Hg] _].
      rewrite <- (calculate_same_inputs db db1 (team_id t1) p S1) in H.
      apply (f_equal team_id) in H as Hi.
      apply (f_equal team_total_points) in H as Ht.
      apply (f_equal gameweek_points) in H as Hgp.
      apply (f_equal transfers_made_this_gw) in H as Hmd.
      apply (f_equal transfers_banked) in H as Hb.
      simpl in Hi, Ht, Hgp, Hmd, Hb.
      repeat split; try assumption; try congruence.
      intros Hone. rewrite Hb, Hone. reflexivity.
    + apply IH. now apply Forall_cons in Hfirst as [_ ?].
Qed.

Lemma finalize_twice_witness :
  let db1 := fst (Finalizer.finalize_gameweek 1 Examples.played_db) in
  let db2 := fst (Finalizer.finalize_gameweek 1 db1) in
  snd (Finalizer.finalize_gameweek 1 db1) = None
  /\ (forall t, Derived.ledger_points db2 t 1 = Derived.ledger_points db1 t 1)
  /\ Forall2
       (fun t1 t2 =>
          team_id t2 = team_id t1
          /\ team_total_points t2
             = team_total_points t1
               + TeamPoints.calculate_fantasy_team_points Examples.played_db (team_id t1) 1
          /\ gameweek_points t2 = gameweek_points t1
          /\ transfers_made_this_gw t1 = 0 /\ transfers_made_this_gw t2 = 0
          /\ transfers_banked t2 = Z.min (transfers_banked t1 + 1) 1
          /\ (transfers_banked t1 = 1 -> transfers_banked t2 = 1))
       (fantasy_teams db1) (fantasy_teams db2).
Proof.
  apply (finalize_twice 1 Examples.played_db).
  - apply (bool_decide_unpack (NoDup (map team_id (fantasy_teams Examples.played_db)))).
    vm_compute. exact I.
  - reflexivity.
Defined.

(** ** Team Points Calculator: the two implementations side by side *)

Lemma find_map {A B : Type} (f : B -> bool) (g : A -> B) (l : list A) :
  List.find f (map g l) = option_map g (List.find (fun x => f (g x)) l).
Proof.
  induction l as [|x l IH]; simpl; [reflexivity|].
  destruct (f (g x)); [reflexivity | exact IH].
Qed.

Lemma find_head_filter {A : Type} (f : A -> bool) (l : list A) :
  List.find f l = head (List.filter f l).
Proof.
  induction l as [|x l IH]; simpl; [reflexivity|].
  destruct (f x); [reflexivity | exact IH].
Qed.

Lemma filter_map_comm {A B : Type} (f : B -> bool) (g : A -> B) (l : list A) :
  List.filter f (map g l) = map g (List.filter (fun x => f (g x)) l).
Proof.
  induction l as [|x l IH]; simpl; [reflexivity|].
  destruct (f (g x)); simpl; now rewrite IH.
Qed.

Lemma filter_andb {A : Type} (a b : A -> bool) (l : list A) :
  List.filter (fun x => a x && b x) l = List.filter b (List.filter a l).
Proof.
  induction l as [|x l IH]; simpl; [reflexivity|].
  destruct (a x); simpl; [destruct (b x)|]; now rewrite IH.
Qed.

Lemma filter_Permutation_bool {A : Type} (f : A -> bool) (l l' : list A) :
  Permutation l l' -> Permutation (List.filter f l) (List.filter f l').
Proof.
  induction 1 as [|x l l' _ IH|x y l|l l' l'' _ IH1 _ IH2]; simpl.
  - reflexivity.
  - destruct (f x); [now constructor | exact IH].
  - destruct (f x), (f y); try reflexivity. apply perm_swap.
  - now transitivity (List.filter f l').
Qed.

Lemma sumZ_Permutation (l l' : list Z) :
  Permutation l l' -> Derived.sumZ l = Derived.sumZ l'.
Proof.
  induction 1 as [|x l l' _ IH|x y l|l l' l'' _ IH1 _ IH2]; simpl; lia.
Qed.

Section Agreement.

Variables (db : database) (t : uuid) (gw : Z).

Local Abbreviation R := (Derived.team_rosters db t).
Local Abbreviation J := (Derived.joined_of db gw).
Local Abbreviation E := (TeamPoints.embed_player db).
Local Abbreviation row_of := (Derived.row_of db gw).

Lemma join_row_joined_of (r : roster) :
  Derived.references_player db r = true -> TeamPoints.join_row db gw r = [J r].
Proof.
  unfold Derived.references_player, TeamPoints.join_row, Derived.joined_of.
  destruct (player_id r) as [pid|]; [|discriminate].
  simpl. destruct (players db !! pid); [reflexivity|discriminate].
Qed.

Lemma flat_map_join_row (l : list roster) :
  (forall r, In r l -> Derived.references_player db r = true) ->
  flat_map (TeamPoints.join_row db gw) l = map J l.
Proof.
  induction l as [|r l IH]; intros H; simpl; [reflexivity|].
  rewrite (join_row_joined_of r) by (apply H; now left).
  simpl. f_equal. apply IH. intros r' Hr'. apply H. now right.
Qed.

Hypothesis well_formed : Derived.well_formed_roster db t = true.

Lemma roster_references (r : roster) :
  In r R -> Derived.references_player db r = true.
Proof.
  intros Hr. unfold Derived.well_formed_roster in well_formed.
  rewrite forallb_forall in well_formed.
  specialize (well_formed r Hr). now apply andb_true_iff in well_formed.
Qed.

Lemma roster_starter_known (r : roster) :
  In r R -> Sql.is_not_null (is_starter r) = true.
Proof.
  intros Hr. unfold Derived.well_formed_roster in well_formed.
  rewrite forallb_forall in well_formed.
  specialize (well_formed r Hr). now apply andb_true_iff in well_formed.
Qed.

Lemma team_rows_map : TeamPoints.team_rows db t gw = map J R.
Proof.
  unfold TeamPoints.team_rows. apply flat_map_join_row.
  intros r Hr. now apply roster_references.
Qed.

Lemma roster_position_row (r : roster) :
  Derived.references_player db r = true ->
  Derived.roster_position db r
  = Some (TeamPoints.pr_position (TeamPoints.select_player_record (J r))).
Proof.
  unfold Derived.references_player, Derived.roster_position, Derived.joined_of. simpl.
  destruct (player_id r) as [pid|]; [|discriminate].
  destruct (players db !! pid); [reflexivity|discriminate].
Qed.

Lemma rw_position_embed (r : roster) :
  TeamPoints.rw_position (E r) = Derived.roster_position db r.
Proof.
  unfold TeamPoints.rw_position, TeamPoints.embed_player, Derived.roster_position. simpl.
  destruct (player_id r) as [pid|]; [|reflexivity].
  now destruct (players db !! pid).
Qed.

(** The [WHERE] of the substitute query, on a well-formed row. *)
Lemma substitute_where_row (pos : player_position) (r : roster) :
  In r R ->
  TeamPoints.substitute_where pos (J r)
  = Derived.on_bench_at db (Some pos) r && (0 <? Derived.roster_minutes db gw r).
Proof.
  intros Hr. pose proof (roster_references r Hr) as Href.
  pose proof (roster_starter_known r Hr) as Hst.
  unfold TeamPoints.substitute_where, Derived.on_bench_at, Derived.roster_minutes,
    Derived.roster_position, Derived.joined_of. simpl.
  unfold Derived.references_player in Href.
  destruct (player_id r) as [pid|]; [|discriminate].
  destruct (players db !! pid) as [pl|]; [|discriminate]. simpl.
  destruct (is_starter r) as [[|]|]; [| |discriminate]; simpl; [reflexivity|].
  destruct (position_eqb (position_of pl) pos); simpl; [|reflexivity].
  now destruct (0 <? _).
Qed.

(** The bench of a position, as each calculator finds it. *)
Lemma procedure_bench (pos : player_position) :
  List.filter (TeamPoints.substitute_where pos) (TeamPoints.team_rows db t gw)
  = map J (List.filter (fun r => 0 <? Derived.roster_minutes db gw r)
             (List.filter (Derived.on_bench_at db (Some pos)) R)).
Proof.
  rewrite team_rows_map, filter_map_comm. f_equal.
  rewrite <- filter_andb. apply filter_ext_in.
  intros r Hr. now apply substitute_where_row.
Qed.

Lemma client_bench (r : roster) :
  TeamPoints.find_bench (TeamPoints.select_roster db t) (E r)
  = option_map E (head (List.filter (Derived.on_bench_at db (Derived.roster_position db r)) R)).
Proof.
  unfold TeamPoints.find_bench, TeamPoints.select_roster.
  rewrite find_map, find_head_filter. do 2 f_equal.
  apply filter_ext. intros r'.
  unfold Derived.on_bench_at, TeamPoints.not_starter. simpl.
  now rewrite !rw_position_embed.
Qed.


(** A starter adds the same to both totals when at most one bench player
    shares his position. *)
Lemma contribution_agrees (r : roster) :
  In r R ->
  (Sql.is_true (is_starter r) && (Derived.roster_minutes db gw r =? 0) = true ->
   (length (List.filter (Derived.on_bench_at db (Derived.roster_position db r)) R) <= 1)%nat) ->
  Derived.starter_contribution db t gw (row_of r)
  = Derived.manual_contribution db gw (TeamPoints.select_roster db t) (E r).
Proof.
  intros Hr Hbench.
  unfold Derived.starter_contribution, Derived.manual_contribution,
    Derived.manual_substitute, TeamPoints.not_starter.
  change (TeamPoints.pr_is_starter (row_of r)) with (is_starter r).
  change (is_starter (TeamPoints.rw_roster (E r))) with (is_starter r).
  change (TeamPoints.pr_minutes_played (row_of r)) with (Derived.roster_minutes db gw r).
  change (Derived.manual_minutes db gw (E r)) with (Derived.roster_minutes db gw r).
  destruct (Sql.is_true (is_starter r)); cbn [negb andb] in *; [|reflexivity].
  destruct (Derived.roster_minutes db gw r =? 0); [|reflexivity].
  specialize (Hbench eq_refl).
  rewrite client_bench.
  unfold TeamPoints.find_substitute. rewrite procedure_bench.
  rewrite (roster_position_row r (roster_references r Hr)) in *.
  fold (Derived.row_of db gw r) in *.
  set (pos := TeamPoints.pr_position (row_of r)) in *.
  assert (Hsub : forall b, In b (List.filter (Derived.on_bench_at db (Some pos)) R) -> In b R).
  { intros b Hb. now apply filter_In in Hb. }
  destruct (List.filter (Derived.on_bench_at db (Some pos)) R) as [|b [|b' l]].
  - reflexivity.
  - simpl.
    change (Derived.manual_minutes db gw (E b)) with (Derived.roster_minutes db gw b).
    destruct (0 <? Derived.roster_minutes db gw b); simpl; [|reflexivity].
    pose proof (roster_references b (Hsub b (or_introl eq_refl))) as Href.
    unfold Derived.references_player in Href.
    unfold Derived.manual_points, TeamPoints.or_zero. simpl.
    destruct (player_id b) as [pid|] eqn:Eb; [|discriminate]. reflexivity.
  - simpl in Hbench. lia.
Qed.

(** *** The captain's counted score *)

Lemma loop_body_captain_other (a : TeamPoints.acc) (pr : TeamPoints.player_record) :
  Derived.captain_row pr = false ->
  TeamPoints.acc_captain (TeamPoints.loop_body db t gw a pr) = TeamPoints.acc_captain a.
Proof.
  unfold Derived.captain_row, TeamPoints.loop_body.
  destruct (Sql.is_true (TeamPoints.pr_is_starter pr)); [|reflexivity]. simpl.
  intros ->.
  destruct (_ =? 0); [|reflexivity].
  destruct (TeamPoints.find_substitute _ _ _ _) as [sub|]; [|reflexivity].
  now destruct (Sql.is_not_null _).
Qed.

Lemma loop_body_captain_self (a : TeamPoints.acc) (pr : TeamPoints.player_record) :
  Derived.captain_row pr = true -> TeamPoints.acc_captain a = 0 ->
  TeamPoints.acc_captain (TeamPoints.loop_body db t gw a pr)
  = Derived.starter_contribution db t gw pr.
Proof.
  unfold Derived.captain_row, TeamPoints.loop_body, Derived.starter_contribution.
  intros [-> ->]%andb_true_iff Ha.
  destruct (_ =? 0); [|reflexivity].
  destruct (TeamPoints.find_substitute _ _ _ _) as [sub|]; [|exact Ha].
  destruct (Sql.is_not_null _); [reflexivity|exact Ha].
Qed.

Lemma loop_captain_none (rows : list TeamPoints.player_record) (a : TeamPoints.acc) :
  List.filter Derived.captain_row rows = [] ->
  TeamPoints.acc_captain (fold_left (TeamPoints.loop_body db t gw) rows a)
  = TeamPoints.acc_captain a.
Proof.
  revert a. induction rows as [|pr rows IH]; intros a; simpl; [reflexivity|].
  destruct (Derived.captain_row pr) eqn:Ec; [discriminate|].
  intros Hnil. rewrite (IH _ Hnil). now apply loop_body_captain_other.
Qed.

Lemma loop_captain (rows : list TeamPoints.player_record) (a : TeamPoints.acc) :
  (length (List.filter Derived.captain_row rows) <= 1)%nat ->
  TeamPoints.acc_captain a = 0 ->
  TeamPoints.acc_captain (fold_left (TeamPoints.loop_body db t gw) rows a)
  = Derived.sumZ (map (Derived.starter_contribution db t gw)
                    (List.filter Derived.captain_row rows)).
Proof.
  revert a. induction rows as [|pr rows IH]; intros a; simpl; [auto|].
  destruct (Derived.captain_row pr) eqn:Ec; simpl; intros Hlen Ha.
  - assert (Hnil : List.filter Derived.captain_row rows = []).
    { destruct (List.filter Derived.captain_row rows); [reflexivity | simpl in Hlen; lia]. }
    rewrite (loop_captain_none _ _ Hnil), Hnil. simpl.
    rewrite (loop_body_captain_self a pr Ec Ha). lia.
  - apply IH; [exact Hlen|]. now rewrite loop_body_captain_other.
Qed.

Lemma manual_body_captain_other (roster : list TeamPoints.roster_with_player)
    (a : TeamPoints.acc) (rp : TeamPoints.roster_with_player) :
  Derived.captain_slot rp = false ->
  TeamPoints.acc_captain (TeamPoints.manual_body db gw roster a rp)
  = TeamPoints.acc_captain a.
Proof.
  unfold Derived.captain_slot, TeamPoints.manual_body.
  destruct (TeamPoints.not_starter rp); [reflexivity|]. simpl. intros ->.
  destruct (_ =? 0); [|reflexivity].
  destruct (TeamPoints.find_bench roster rp) as [s|]; [|reflexivity].
  now destruct (0 <? _).
Qed.

Lemma manual_body_captain_self (roster : list TeamPoints.roster_with_player)
    (a : TeamPoints.acc) (rp : TeamPoints.roster_with_player) :
  Derived.captain_slot rp = true -> TeamPoints.acc_captain a = 0 ->
  TeamPoints.acc_captain (TeamPoints.manual_body db gw roster a rp)
  = Derived.manual_contribution db gw roster rp.
Proof.
  unfold Derived.captain_slot, TeamPoints.manual_body, Derived.manual_contribution,
    Derived.manual_substitute, Derived.manual_minutes, Derived.manual_points.
  destruct (TeamPoints.not_starter rp); [discriminate|]. simpl. intros -> Ha.
  destruct (_ =? 0); [|reflexivity].
  destruct (TeamPoints.find_bench roster rp) as [s|]; [|exact Ha].
  destruct (0 <? _); [reflexivity|exact Ha].
Qed.

Lemma manual_captain_none (roster rows : list TeamPoints.roster_with_player)
    (a : TeamPoints.acc) :
  List.filter Derived.captain_slot rows = [] ->
  TeamPoints.acc_captain (fold_left (TeamPoints.manual_body db gw roster) rows a)
  = TeamPoints.acc_captain a.
Proof.
  revert a. induction rows as [|rp rows IH]; intros a; simpl; [reflexivity|].
  destruct (Derived.captain_slot rp) eqn:Ec; [discriminate|].
  intros Hnil. rewrite (IH _ Hnil). now apply manual_body_captain_other.
Qed.

Lemma manual_captain (roster rows : list TeamPoints.roster_with_player)
    (a : TeamPoints.acc) :
  (length (List.filter Derived.captain_slot rows) <= 1)%nat ->
  TeamPoints.acc_captain a = 0 ->
  TeamPoints.acc_captain (fold_left (TeamPoints.manual_body db gw roster) rows a)
  = Derived.sumZ (map (Derived.manual_contribution db gw roster)
                    (List.filter Derived.captain_slot rows)).
Proof.
  revert a. induction rows as [|rp rows IH]; intros a; simpl; [auto|].
  destruct (Derived.captain_slot rp) eqn:Ec; simpl; intros Hlen Ha.
  - assert (Hnil : List.filter Derived.captain_slot rows = []).
    { destruct (List.filter Derived.captain_slot rows); [reflexivity | simpl in Hlen; lia]. }
    rewrite (manual_captain_none _ _ _ Hnil), Hnil. simpl.
    rewrite (manual_body_captain_self roster a rp Ec Ha). lia.
  - apply IH; [exact Hlen|]. now rewrite manual_body_captain_other.
Qed.


Hypothesis one_bench_option : Derived.single_bench_option db t gw = true.
Hypothesis one_captain : Derived.single_captain db t = true.

Lemma bench_option (r : roster) :
  In r R ->
  Sql.is_true (is_starter r) && (Derived.roster_minutes db gw r =? 0) = true ->
  (length (List.filter (Derived.on_bench_at db (Derived.roster_position db r)) R) <= 1)%nat.
Proof.
  intros Hr Hidle. unfold Derived.single_bench_option in one_bench_option.
  rewrite forallb_forall in one_bench_option.
  specialize (one_bench_option r Hr). rewrite Hidle in one_bench_option.
  simpl in one_bench_option. now apply Nat.leb_le.
Qed.

Lemma loop_rows_perm :
  Permutation (TeamPoints.loop_rows db t gw) (map row_of R).
Proof.
  unfold TeamPoints.loop_rows. rewrite team_rows_map.
  rewrite (order_by_perm TeamPoints.loop_order (map J R)).
  now rewrite map_map.
Qed.

Lemma contributions_agree (l : list roster) :
  (forall r, In r l -> In r R) ->
  map (Derived.starter_contribution db t gw) (map row_of l)
  = map (Derived.manual_contribution db gw (TeamPoints.select_roster db t)) (map E l).
Proof.
  intros Hl. rewrite !map_map. apply map_ext_in. intros r Hr.
  apply contribution_agrees; [now apply Hl|]. apply bench_option. now apply Hl.
Qed.

Lemma totals_agree :
  TeamPoints.acc_total (TeamPoints.run_loop db t gw)
  = TeamPoints.acc_total
      (fold_left (TeamPoints.manual_body db gw (TeamPoints.select_roster db t))
         (TeamPoints.select_roster db t)
         {| TeamPoints.acc_total := 0; TeamPoints.acc_captain := 0 |}).
Proof.
  unfold TeamPoints.run_loop. rewrite loop_total, manual_total. f_equal.
  rewrite (sumZ_Permutation _ _
             (Permutation_map (Derived.starter_contribution db t gw) loop_rows_perm)).
  unfold TeamPoints.select_roster. fold R.
  now rewrite (contributions_agree R).
Qed.

Lemma captain_rows_perm :
  Permutation (List.filter Derived.captain_row (TeamPoints.loop_rows db t gw))
    (map row_of (List.filter Derived.captain_starter R)).
Proof.
  rewrite (filter_Permutation_bool Derived.captain_row _ _ loop_rows_perm).
  now rewrite filter_map_comm.
Qed.

Lemma captain_slots :
  List.filter Derived.captain_slot (TeamPoints.select_roster db t)
  = map E (List.filter Derived.captain_starter R).
Proof.
  unfold TeamPoints.select_roster. rewrite filter_map_comm. f_equal.
  apply filter_ext. intros r.
  unfold Derived.captain_slot, Derived.captain_starter, TeamPoints.not_starter. simpl.
  now rewrite negb_involutive.
Qed.

Lemma captains_agree :
  TeamPoints.acc_captain (TeamPoints.run_loop db t gw)
  = TeamPoints.acc_captain
      (fold_left (TeamPoints.manual_body db gw (TeamPoints.select_roster db t))
         (TeamPoints.select_roster db t)
         {| TeamPoints.acc_total := 0; TeamPoints.acc_captain := 0 |}).
Proof.
  pose proof one_captain as Hone. unfold Derived.single_captain in Hone.
  apply Nat.leb_le in Hone.
  unfold TeamPoints.run_loop. rewrite loop_captain, manual_captain; try reflexivity.
  - rewrite (sumZ_Permutation _ _
               (Permutation_map (Derived.starter_contribution db t gw) captain_rows_perm)).
    rewrite captain_slots. f_equal. apply contributions_agree.
    intros r Hr. now apply filter_In in Hr.
  - now rewrite captain_slots, length_map.
  - now rewrite (Permutation_length captain_rows_perm), length_map.
Qed.

End Agreement.

(** C8 (amended): the database procedure and the client fallback return
    the same total for a team when every roster row of the team names an
    existing player and says whether it starts, every starter without
    minutes has at most one bench player at his position, at most one
    starter is captain, and the captain's counted score is positive or it
    is 0 and the vice-captain fallback adds nothing. *)
Theorem calculators_agree_on_simple_rosters (db : database) (t : uuid) (gw : Z) :
  Derived.well_formed_roster db t = true ->
  Derived.single_bench_option db t gw = true ->
  Derived.single_captain db t = true ->
  (0 < TeamPoints.acc_captain (TeamPoints.run_loop db t gw)
   \/ (TeamPoints.acc_captain (TeamPoints.run_loop db t gw) = 0
       /\ TeamPoints.captain_bonus db t gw 0 = 0)) ->
  TeamPoints.calculate_fantasy_team_points db t gw
  = TeamPoints.calculateTeamPointsManual db t gw.
Proof.
  intros Hwf Hbench Hcap Hbonus.
  unfold TeamPoints.calculate_fantasy_team_points, TeamPoints.calculateTeamPointsManual.
  cbv zeta.
  rewrite <- (totals_agree db t gw Hwf Hbench), <- (captains_agree db t gw Hwf Hbench Hcap).
  f_equal. destruct Hbonus as [Hpos | [Hzero Hnone]].
  - unfold TeamPoints.captain_bonus.
    now assert ((0 <? TeamPoints.acc_captain (TeamPoints.run_loop db t gw)) = true) as ->
      by lia.
  - now rewrite Hzero.
Qed.

Lemma calculators_agree_on_simple_rosters_witness :
  TeamPoints.calculate_fantasy_team_points Examples.simple_db 1 1
  = TeamPoints.calculateTeamPointsManual Examples.simple_db 1 1.
Proof.
  apply (calculators_agree_on_simple_rosters Examples.simple_db 1 1).
  - reflexivity.
  - reflexivity.
  - reflexivity.
  - left. vm_compute. reflexivity.
Defined.


(** * Properties of the further code *)

(** ** [update_gameweek_status] and the statuses set by hand *)


Lemma setGameweekStatus_row (gw : Z) (st : gameweek_status) (gws : list gameweek)
    (g' : gameweek) :
  In g' (Override.setGameweekStatus gw st gws) -> gameweek_number g' = gw ->
  status g' = st.
Proof.
  unfold Override.setGameweekStatus. cbv zeta.
  destruct (Override.gameweek_status_eqb st active); unfold Calendar.update_where;
    rewrite ?map_map; intros H; apply in_map_iff in H as (g & <- & _);
    destruct (gameweek_number g =? gw) eqn:E; simpl; rewrite ?E; simpl;
    try (destruct (gameweek_number g =? gw + 1); simpl); try reflexivity;
    apply Z.eqb_neq in E; intros; contradiction.
Qed.

(** X5: a status written by hand survives [update_gameweek_status].  After
    the client's [setGameweekStatus] or a [set_gameweek_status] that did
    not raise, followed by [update_gameweek_status] at any time, the rows
    of the gameweek carry the status that was written, whatever their
    window says. *)
Theorem override_survives_refresh (current_time gw : Z) (gws : list gameweek) :
  (forall st g',
     In g' (fst (Calendar.update_gameweek_status current_time
                   (Override.setGameweekStatus gw st gws))) ->
     gameweek_number g' = gw -> status g' = st)
  /\ (forall text g',
        snd (Override.set_gameweek_status gw text gws) = None ->
        In g' (fst (Calendar.update_gameweek_status current_time
                      (fst (Override.set_gameweek_status gw text gws)))) ->
        gameweek_number g' = gw ->
        Override.status_of_text text = Some (status g')).
Proof.
  split.
  - intros st g'. unfold Calendar.update_gameweek_status.
    rewrite compare_with_column_None. cbv zeta. cbn [fst].
    apply setGameweekStatus_row.
  - intros text g'. unfold Calendar.update_gameweek_status.
    rewrite compare_with_column_None. cbv zeta. cbn [fst].
    unfold Override.set_gameweek_status.
    destruct (existsb _ gws); [|discriminate].
    destruct (Override.status_of_text text) as [st|]; [|discriminate].
    cbn [fst snd]. intros _ Hin Hn. unfold Calendar.update_where in Hin.
    apply in_map_iff in Hin as (g & <- & _).
    destruct (gameweek_number g =? gw) eqn:E; [reflexivity|].
    apply Z.eqb_neq in E. contradiction.
Qed.

Lemma override_survives_refresh_witness :
  status (Override.set_status_and_flags finalized MoreExamples.last_week) = finalized.
Proof.
  apply (proj1 (override_survives_refresh 250 3 MoreExamples.season) finalized).
  - vm_compute. auto.
  - reflexivity.
Defined.

(** X6: after the client's [setGameweekStatus] with status active, a
    gameweek is flagged current exactly when its number is the one given;
    the rows with that number are active and the rows with the following
    number are flagged next. *)
Theorem setGameweekStatus_active (gw : Z) (gws : list gameweek) (g' : gameweek) :
  In g' (Override.setGameweekStatus gw active gws) ->
  (is_current g' = Some true <-> gameweek_number g' = gw)
  /\ (gameweek_number g' = gw -> status g' = active)
  /\ (gameweek_number g' = gw + 1 -> is_next g' = Some true).
Proof.
  unfold Override.setGameweekStatus. simpl. unfold Calendar.update_where.
  rewrite !map_map. intros H. apply in_map_iff in H as (g & <- & _).
  destruct (gameweek_number g =? gw) eqn:E; simpl; rewrite E; simpl.
  - apply Z.eqb_eq in E.
    assert ((gameweek_number g =? gw + 1) = false) as -> by lia. simpl.
    repeat split; auto; lia.
  - apply Z.eqb_neq in E.
    destruct (gameweek_number g =? gw + 1) eqn:E1; simpl;
      (split; [split; [discriminate | intros; contradiction]|]);
      split; try (intros; contradiction); auto.
    apply Z.eqb_neq in E1. intros; contradiction.
Qed.

Lemma setGameweekStatus_active_witness :
  (is_current (Override.set_status_and_flags active MoreExamples.last_week) = Some true
   <-> gameweek_number (Override.set_status_and_flags active MoreExamples.last_week) = 3)
  /\ (gameweek_number (Override.set_status_and_flags active MoreExamples.last_week) = 3 ->
      status (Override.set_status_and_flags active MoreExamples.last_week) = active)
  /\ (gameweek_number (Override.set_status_and_flags active MoreExamples.last_week) = 3 + 1 ->
      is_next (Override.set_status_and_flags active MoreExamples.last_week) = Some true).
Proof.
  apply (setGameweekStatus_active 3 MoreExamples.season).
  vm_compute. auto.
Defined.

(** X7: the client's [setGameweekStatus] with a status other than active
    touches the rows of the gameweek only: it writes the status, clears
    both of their flags and keeps their window; every other row, flagged
    or not, is left as it was. *)
Theorem setGameweekStatus_other_status (gw : Z) (st : gameweek_status)
    (gws : list gameweek) :
  st <> active ->
  Forall2
    (fun g g' =>
       if gameweek_number g =? gw
       then gameweek_number g' = gw /\ status g' = st
            /\ is_current g' = Some false /\ is_next g' = Some false
            /\ deadline_time g' = deadline_time g /\ start_time g' = start_time g
            /\ end_time g' = end_time g
       else g' = g)
    gws (Override.setGameweekStatus gw st gws).
Proof.
  intros Hst. unfold Override.setGameweekStatus.
  assert (Override.gameweek_status_eqb st active = false) as E
    by (destruct st; try reflexivity; contradiction).
  cbv zeta. rewrite E. unfold Calendar.update_where.
  induction gws as [|g l IH]; simpl; constructor; [|exact IH].
  destruct (gameweek_number g =? gw) eqn:En; [|reflexivity].
  apply Z.eqb_eq in En. simpl. rewrite E. repeat split; assumption.
Qed.

Lemma setGameweekStatus_other_status_witness :
  Forall2
    (fun g g' =>
       if gameweek_number g =? 1
       then gameweek_number g' = 1 /\ status g' = locked
            /\ is_current g' = Some false /\ is_next g' = Some false
            /\ deadline_time g' = deadline_time g /\ start_time g' = start_time g
            /\ end_time g' = end_time g
       else g' = g)
    MoreExamples.season (Override.setGameweekStatus 1 locked MoreExamples.season).
Proof.
  apply (setGameweekStatus_other_status 1 locked MoreExamples.season). discriminate.
Defined.

(** ** [formatTimeRemaining] *)

Lemma append_nonempty_r (x y : String.string) :
  y <> String.EmptyString -> String.append x y <> String.EmptyString.
Proof. destruct x; simpl; [auto | discriminate]. Qed.

(** X8: [formatTimeRemaining] prints nothing exactly for [null] and for
    times that are not positive.  For a positive time the days, hours and
    minutes it prints are whole numbers with hours below 24 and minutes
    below 60, and together they never overstate the time and fall short of
    it by less than a minute. *)
Theorem formatTimeRemaining_parts :
  (forall x, Countdown.formatTimeRemaining x = String.EmptyString
             <-> match x with None => True | Some ms => ms <= 0 end)
  /\ (forall ms, 0 < ms ->
        match Countdown.time_parts ms with
        | (d, h, m) =>
            0 <= d /\ 0 <= h < 24 /\ 0 <= m < 60
            /\ d * 86400000 + h * 3600000 + m * 60000 <= ms
               < d * 86400000 + h * 3600000 + m * 60000 + 60000
        end).
Proof.
  split.
  - intros [ms|]; simpl; [|tauto].
    destruct ((ms =? 0) || (ms <=? 0)) eqn:E.
    + split; [intros _; lia | reflexivity].
    + split; [|lia]. intros H. exfalso. revert H.
      destruct (0 <? _); [|destruct (0 <? _)];
        repeat (apply append_nonempty_r); discriminate.
  - intros ms Hpos. unfold Countdown.time_parts.
    change (1000 * 60 * 60 * 24) with 86400000.
    change (1000 * 60 * 60) with 3600000. change (1000 * 60) with 60000.
    assert (Hmod : ms mod 3600000 = (ms mod 86400000) mod 3600000).
    { symmetry. apply Z.mod_mod_divide. exists 24. reflexivity. }
    pose proof (Z.div_mod ms 86400000 ltac:(lia)) as H1.
    pose proof (Z.mod_pos_bound ms 86400000 ltac:(lia)) as B1.
    pose proof (Z.div_mod (ms mod 86400000) 3600000 ltac:(lia)) as H2.
    pose proof (Z.mod_pos_bound (ms mod 86400000) 3600000 ltac:(lia)) as B2.
    pose proof (Z.div_mod (ms mod 3600000) 60000 ltac:(lia)) as H3.
    pose proof (Z.mod_pos_bound (ms mod 3600000) 60000 ltac:(lia)) as B3.
    pose proof (Z.div_pos ms 86400000 ltac:(lia) ltac:(lia)) as P1.
    rewrite <- Hmod in H2, B2.
    repeat split; lia.
Qed.

Lemma formatTimeRemaining_parts_witness :
  match Countdown.time_parts 93784000 with
  | (d, h, m) =>
      0 <= d /\ 0 <= h < 24 /\ 0 <= m < 60
      /\ d * 86400000 + h * 3600000 + m * 60000 <= 93784000
         < d * 86400000 + h * 3600000 + m * 60000 + 60000
  end.
Proof. apply (proj2 formatTimeRemaining_parts 93784000). lia. Defined.

(** ** The client's [finalizeGameweek] *)

Lemma upsert_loop_frame
    (upsert : gmap (N * Z) gameweek_points_row -> uuid -> Z -> Z
              -> gmap (N * Z) gameweek_points_row)
    (gw : Z) (teams : list fantasy_team) (db : database) :
  let db' :=
    fold_left
      (fun db team =>
         Finalizer.with_points
           (upsert (fantasy_team_gameweek_points db) (team_id team) gw
              (TeamPoints.calculateTeamPointsManual db (team_id team) gw)) db)
      teams db in
  fantasy_teams db' = fantasy_teams db /\ rosters db' = rosters db
  /\ real_matches db' = real_matches db /\ gameweeks db' = gameweeks db
  /\ players db' = players db /\ gameweek_scores db' = gameweek_scores db
  /\ transactions db' = transactions db.
Proof.
  cbv zeta. revert db. induction teams as [|team teams IH]; intros db; simpl.
  - repeat split; reflexivity.
  - destruct (IH (Finalizer.with_points
                    (upsert (fantasy_team_gameweek_points db) (team_id team) gw
                       (TeamPoints.calculateTeamPointsManual db (team_id team) gw)) db))
      as (H1 & H2 & H3 & H4 & H5 & H6 & H7).
    repeat split; assumption.
Qed.

Lemma calculateAllTeamPoints_frame
    (upsert : gmap (N * Z) gameweek_points_row -> uuid -> Z -> Z
              -> gmap (N * Z) gameweek_points_row)
    (gw : Z) (db : database) :
  let db' := ClientFinalize.calculateAllTeamPoints upsert gw db in
  fantasy_teams db' = fantasy_teams db /\ rosters db' = rosters db
  /\ real_matches db' = real_matches db /\ gameweeks db' = gameweeks db
  /\ players db' = players db /\ gameweek_scores db' = gameweek_scores db
  /\ transactions db' = transactions db.
Proof. apply upsert_loop_frame. Qed.

(** X9: when [finalize_gameweek] raises because a match of the gameweek is
    not completed, the client's [finalizeGameweek], once confirmed, goes on
    by hand: it leaves every row of the gameweek with status finalized and
    not current, and it leaves [fantasy_teams] (running totals, transfer
    counters, ranks), [rosters] and [real_matches] as they were, whatever
    the upsert of the ledger does. *)
Theorem client_finalize_falls_back
    (upsert : gmap (N * Z) gameweek_points_row -> uuid -> Z -> Z
              -> gmap (N * Z) gameweek_points_row)
    (known : list gameweek) (gw : Z) (db : database) :
  existsb (Finalizer.unfinished_match gw) (real_matches db) = true ->
  let db' := ClientFinalize.finalizeGameweek upsert true known gw db in
  (forall g', In g' (gameweeks db') -> gameweek_number g' = gw ->
              status g' = finalized /\ is_current g' = Some false)
  /\ length (gameweeks db') = length (gameweeks db)
  /\ fantasy_teams db' = fantasy_teams db
  /\ rosters db' = rosters db
  /\ real_matches db' = real_matches db.
Proof.
  intros Hopen. unfold ClientFinalize.finalizeGameweek, Finalizer.finalize_gameweek.
  rewrite Hopen. cbv zeta. cbn [negb].
  destruct (calculateAllTeamPoints_frame upsert gw db) as (F1 & F2 & F3 & F4 & _).
  set (db1 := ClientFinalize.calculateAllTeamPoints upsert gw db) in *.
  assert (Hrows : forall g', In g' (Calendar.update_where (fun g => gameweek_number g =? gw)
                                     ClientFinalize.finish (gameweeks db1)) ->
                    gameweek_number g' = gw ->
                    status g' = finalized /\ is_current g' = Some false).
  { intros g' Hin Hn. unfold Calendar.update_where in Hin.
    apply in_map_iff in Hin as (g & <- & _).
    destruct (gameweek_number g =? gw) eqn:E; [split; reflexivity|].
    apply Z.eqb_neq in E. contradiction. }
  destruct (List.find _ known) as [nextGameweek|]; cbn [gameweeks fantasy_teams rosters real_matches
    Finalizer.with_gameweeks]; (split; [|unfold Calendar.update_where;
      rewrite ?length_map, F1, F2, F3, F4; auto]).
  - intros g' Hin Hn. unfold Calendar.update_where in Hin at 1.
    apply in_map_iff in Hin as (g & Hg & Hin).
    destruct (gameweek_number g =? gw + 1) eqn:E.
    + apply Z.eqb_eq in E. subst g'. simpl in Hn. lia.
    + subst g'. now apply Hrows.
  - exact Hrows.
Qed.

Lemma client_finalize_falls_back_witness :
  let db' := ClientFinalize.finalizeGameweek (fun m _ _ _ => m) true
               MoreExamples.season 3 MoreExamples.market_db in
  (forall g', In g' (gameweeks db') -> gameweek_number g' = 3 ->
              status g' = finalized /\ is_current g' = Some false)
  /\ length (gameweeks db') = length (gameweeks MoreExamples.market_db)
  /\ fantasy_teams db' = fantasy_teams MoreExamples.market_db
  /\ rosters db' = rosters MoreExamples.market_db
  /\ real_matches db' = real_matches MoreExamples.market_db.
Proof.
  apply (client_finalize_falls_back (fun m _ _ _ => m) MoreExamples.season 3
           MoreExamples.market_db).
  reflexivity.
Defined.

(** ** Transfers that go through *)

Lemma select_team_updated (db : database) (id : uuid) (team : fantasy_team)
    (newBudget newTransfersMade : Z) (db' : database) :
  Transfers.select_team db id = Some team ->
  fantasy_teams db'
  = map (Transfers.update_team id newBudget newTransfersMade) (fantasy_teams db) ->
  Transfers.select_team db' id
  = Some (Transfers.update_team id newBudget newTransfersMade team).
Proof.
  unfold Transfers.select_team. intros Hsel ->.
  rewrite filter_map_comm.
  rewrite (filter_ext _ (fun t => N.eqb (team_id t) id)).
  - destruct (List.filter _ (fantasy_teams db)) as [|x [|y l]]; try discriminate.
    simpl in *. congruence.
  - intros t. unfold Transfers.update_team.
    destruct (N.eqb (team_id t) id) eqn:E; simpl; now rewrite E.
Qed.

Lemma select_team_id (db : database) (id : uuid) (team : fantasy_team) :
  Transfers.select_team db id = Some team -> team_id team = id.
Proof.
  unfold Transfers.select_team. intros H.
  destruct (List.filter _ (fantasy_teams db)) as [|x [|y l]] eqn:E; try discriminate.
  injection H as <-.
  assert (Hin : In x (List.filter (fun t => N.eqb (team_id t) id) (fantasy_teams db)))
    by (rewrite E; now left).
  apply filter_In in Hin as [_ Hid]. now apply N.eqb_eq.
Qed.

(** What a call that returns true has read. *)
Lemma makeTransfer_true now id td db o i r :
  Transfers.returned (Transfers.makeTransfer now (Some id) td db o i r) = true ->
  exists team po pi,
    Transfers.select_team db id = Some team
    /\ players db !! o = Some po /\ players db !! i = Some pi
    /\ 0 < Transfers.transfersRemaining td
    /\ Transfers.canMakeTransfers td = true
    /\ 0 <= budget_remaining team - (price pi - price po).
Proof.
  unfold Transfers.makeTransfer.
  destruct (Transfers.transfersRemaining td <=? 0) eqn:E1; [discriminate|].
  destruct (Transfers.canMakeTransfers td) eqn:E2; [|discriminate]. simpl.
  destruct (Transfers.select_team db id) as [team|]; [|discriminate].
  destruct (players db !! o) as [po|]; [|discriminate].
  destruct (players db !! i) as [pi|]; [|discriminate].
  destruct (_ <? 0) eqn:E3; [discriminate|].
  intros _. exists team, po, pi. repeat split; auto; lia.
Qed.

(** The tables that a call that has passed every check leaves behind. *)
Lemma makeTransfer_db_after now id td db o i r team po pi :
  Transfers.select_team db id = Some team ->
  players db !! o = Some po -> players db !! i = Some pi ->
  0 < Transfers.transfersRemaining td ->
  Transfers.canMakeTransfers td = true ->
  0 <= budget_remaining team - (price pi - price po) ->
  Transfers.db_after (Transfers.makeTransfer now (Some id) td db o i r)
  = Transfers.with_transactions
      (transactions db ++
         [ {| tx_fantasy_team_id := id; tx_player_id := o; tx_type := transfer_out;
              tx_gameweek := Transfers.or_one (current_gameweek team);
              tx_price := price po; tx_transfer_cost := 0 |};
           {| tx_fantasy_team_id := id; tx_player_id := i; tx_type := transfer_in;
              tx_gameweek := Transfers.or_one (current_gameweek team);
              tx_price := price pi; tx_transfer_cost := 0 |} ])
      (Transfers.with_fantasy_teams
         (map (Transfers.update_team id
                 (budget_remaining team - (price pi - price po))
                 (Transfers.transfersMadeThisGW td + 1)) (fantasy_teams db))
         (Transfers.with_rosters
            (map (Transfers.update_roster r i (price pi)) (rosters db)) db)).
Proof.
  intros Hteam Ho Hi Hrem Hcan Hbudget. unfold Transfers.makeTransfer.
  assert ((Transfers.transfersRemaining td <=? 0) = false) as -> by lia.
  rewrite Hcan, Hteam, Ho, Hi. simpl.
  assert ((budget_remaining team - (price pi - price po) <? 0) = false) as -> by lia.
  reflexivity.
Qed.

(** X10: a transfer that [makeTransfer] completes keeps the books: the
    team's budget is reduced by the price difference and is not negative,
    its counter of transfers becomes the hook's counter plus one, exactly
    two transactions (out, then in, at the players' prices) are appended,
    the roster row named receives the incoming player at his price, and
    the other tables are left alone. *)
Theorem makeTransfer_completed now id td db o i r :
  Transfers.returned (Transfers.makeTransfer now (Some id) td db o i r) = true ->
  let db' := Transfers.db_after (Transfers.makeTransfer now (Some id) td db o i r) in
  exists team team' po pi,
    Transfers.select_team db id = Some team
    /\ players db !! o = Some po /\ players db !! i = Some pi
    /\ Transfers.select_team db' id = Some team'
    /\ budget_remaining team' + price pi = budget_remaining team + price po
    /\ 0 <= budget_remaining team'
    /\ transfers_made_this_gw team' = Transfers.transfersMadeThisGW td + 1
    /\ team_total_points team' = team_total_points team
    /\ transfers_banked team' = transfers_banked team
    /\ map (fun x => (tx_player_id x, tx_type x, tx_price x)) (transactions db')
       = map (fun x => (tx_player_id x, tx_type x, tx_price x)) (transactions db)
         ++ [(o, transfer_out, price po); (i, transfer_in, price pi)]
    /\ (forall row, In row (rosters db') -> roster_id row = r ->
          player_id row = Some i /\ purchase_price row = price pi)
    /\ length (rosters db') = length (rosters db)
    /\ players db' = players db
    /\ gameweek_scores db' = gameweek_scores db
    /\ fantasy_team_gameweek_points db' = fantasy_team_gameweek_points db.
Proof.
  intros Hret db'.
  destruct (makeTransfer_true now id td db o i r Hret)
    as (team & po & pi & Hteam & Ho & Hi & Hrem & Hcan & Hbudget).
  pose proof (select_team_id db id team Hteam) as Hid.
  pose proof (makeTransfer_db_after now id td db o i r team po pi
                Hteam Ho Hi Hrem Hcan Hbudget) as Hdb'.
  fold db' in Hdb'.
  exists team,
    (Transfers.update_team id (budget_remaining team - (price pi - price po))
       (Transfers.transfersMadeThisGW td + 1) team), po, pi.
  split; [exact Hteam|]. split; [exact Ho|]. split; [exact Hi|].
  split.
  { apply (select_team_updated db id team); [exact Hteam|]. now rewrite Hdb'. }
  unfold Transfers.update_team. rewrite Hid, N.eqb_refl. simpl.
  split; [lia|]. split; [lia|]. split; [reflexivity|]. split; [reflexivity|].
  split; [reflexivity|]. rewrite Hdb'. simpl.
  split; [now rewrite map_app|]. split.
  - intros row Hin Hrow. apply in_map_iff in Hin as (r0 & <- & _).
    unfold Transfers.update_roster in *.
    destruct (N.eqb (roster_id r0) r) eqn:E; [split; reflexivity|].
    apply N.eqb_neq in E. contradiction.
  - rewrite length_map. repeat split.
Qed.

Lemma makeTransfer_completed_witness :
  let db' := Transfers.db_after
               (Transfers.makeTransfer 0 (Some 1%N) Examples.two_transfers_left
                  MoreExamples.market_db 10%N 30%N 1%N) in
  map (fun x => (tx_player_id x, tx_type x, tx_price x)) (transactions db')
  = [(10%N, transfer_out, 80); (30%N, transfer_in, 82)].
Proof.
  intros db'.
  destruct (makeTransfer_completed 0 1%N Examples.two_transfers_left
              MoreExamples.market_db 10%N 30%N 1%N eq_refl)
    as (team & team' & po & pi & _ & Ho & Hi & _ & _ & _ & _ & _ & _ & Htx & _).
  fold db' in Htx. rewrite Htx.
  vm_compute in Ho, Hi. injection Ho as <-. injection Hi as <-. reflexivity.
Defined.

(** X11: no transfer is completed from the state the hook starts in.
    [fetchTransferData] never changes the state, since the call of
    [transfers_allowed] that it waits for raises; the state therefore keeps
    [canMakeTransfers] false, and [makeTransfer] refuses every transfer
    with 'Transfers are not allowed at this time' and writes nothing. *)
Theorem no_transfer_from_initial_state :
  (forall current_time fantasyTeamId db transferData,
     Transfers.fetchTransferData current_time fantasyTeamId db transferData
     = transferData)
  /\ (forall current_time id db o i r,
        let transferData :=
          Transfers.fetchTransferData current_time (Some id) db Hook.initial in
        let out := Transfers.makeTransfer current_time (Some id) transferData db o i r in
        Transfers.returned out = false
        /\ Transfers.shown out = Transfers.Transfers_are_not_allowed_at_this_time
        /\ Transfers.db_after out = db
        /\ Transfers.data_after out = Hook.initial).
Proof.
  assert (H : forall current_time fantasyTeamId db transferData,
            Transfers.fetchTransferData current_time fantasyTeamId db transferData
            = transferData).
  { intros current_time [id|] db transferData; [|reflexivity].
    unfold Transfers.fetchTransferData.
    destruct (Transfers.select_team db id); [|reflexivity].
    unfold Calendar.transfers_allowed. now rewrite compare_with_column_None. }
  split; [exact H|].
  intros current_time id db o i r. cbv zeta. rewrite H. repeat split.
Qed.

(** ** The armband *)

Lemma filter_same_key_length {A : Type} (f : A -> N) (p : A -> bool) (c : N) (l : list A) :
  NoDup (map f l) ->
  (forall x, In x l -> p x = true -> f x = c) ->
  (length (List.filter p l) <= 1)%nat.
Proof.
  induction l as [|x l IH]; intros Hnd Hkey; simpl; [lia|].
  apply NoDup_cons in Hnd as [Hnin Hnd].
  assert (Hrest : forall y, In y l -> p y = true -> f y = c)
    by (intros y Hy; apply Hkey; now right).
  destruct (p x) eqn:Ex; [|now apply IH].
  assert (Hnil : List.filter p l = []).
  { destruct (List.filter p l) as [|y l'] eqn:E; [reflexivity|]. exfalso.
    assert (Hy : In y (List.filter p l)) by (rewrite E; now left).
    apply filter_In in Hy as [Hy Hpy]. apply Hnin.
    rewrite (Hkey x (or_introl eq_refl) Ex), <- (Hrest y Hy Hpy).
    apply list_elem_of_In. now apply in_map. }
  rewrite Hnil. simpl. lia.
Qed.

(** X12: after [setCaptain], a roster row of the team is flagged captain
    exactly when it is the row named; with roster ids unique, at most one
    starter of the team is captain, which is what the team points
    calculators assume. *)
Theorem setCaptain_single (t rid : uuid) (rs : list roster) :
  (forall row, In row (Armband.setCaptain t rid rs) ->
     TeamPoints.of_team t row = true ->
     (is_captain row = Some true <-> roster_id row = rid))
  /\ (NoDup (map roster_id rs) ->
      forall db, Derived.single_captain
                   (Transfers.with_rosters (Armband.setCaptain t rid rs) db) t = true).
Proof.
  assert (Hrow : forall row, In row (Armband.setCaptain t rid rs) ->
            TeamPoints.of_team t row = true ->
            (is_captain row = Some true <-> roster_id row = rid)).
  { unfold Armband.setCaptain. rewrite map_map. intros row Hin Hteam.
    apply in_map_iff in Hin as (r0 & <- & _).
    destruct (TeamPoints.of_team t r0) eqn:Et; simpl in *.
    - destruct (N.eqb (roster_id r0) rid) eqn:E; simpl.
      + apply N.eqb_eq in E. tauto.
      + apply N.eqb_neq in E. split; [discriminate | contradiction].
    - destruct (N.eqb (roster_id r0) rid) eqn:E; simpl in *.
      + apply N.eqb_eq in E. tauto.
      + congruence. }
  split; [exact Hrow|].
  intros Hnd db. unfold Derived.single_captain, Derived.team_rosters. simpl.
  apply Nat.leb_le. rewrite <- filter_andb.
  apply (filter_same_key_length roster_id _ rid).
  - assert (map roster_id (Armband.setCaptain t rid rs) = map roster_id rs) as ->;
      [|exact Hnd].
    unfold Armband.setCaptain. rewrite !map_map. apply map_ext. intros r0.
    destruct (TeamPoints.of_team t r0); simpl; now destruct (N.eqb _ rid).
  - intros row Hin Hp. apply andb_true_iff in Hp as [Hteam Hcap].
    apply (Hrow row Hin Hteam). unfold Derived.captain_starter in Hcap.
    apply andb_true_iff in Hcap as [_ Hcap].
    destruct (is_captain row) as [[|]|]; try discriminate. reflexivity.
Qed.

Lemma setCaptain_single_witness :
  Derived.single_captain
    (Transfers.with_rosters (Armband.setCaptain 1 3 (rosters Examples.simple_db))
       Examples.simple_db) 1 = true.
Proof.
  apply (proj2 (setCaptain_single 1 3 (rosters Examples.simple_db))).
  apply (bool_decide_unpack (NoDup (map roster_id (rosters Examples.simple_db)))).
  vm_compute. exact I.
Defined.

(** ** [finalize_gameweek]: what a successful run leaves *)

Lemma team_loop_frame (p : Z) (ids : list uuid) (db : database) :
  let db' := fold_left (Finalizer.finalize_team p) ids db in
  gameweeks db' = gameweeks db /\ transactions db' = transactions db.
Proof.
  cbv zeta. revert db. induction ids as [|id ids IH]; intros db; simpl; [auto|].
  destruct (IH (Finalizer.finalize_team p db id)) as [H1 H2]. split; assumption.
Qed.

Lemma league_loop_frame (p : Z) (lgs : list uuid) (db : database) :
  let db' := fold_left (Finalizer.rank_league p) lgs db in
  gameweeks db' = gameweeks db /\ transactions db' = transactions db.
Proof.
  cbv zeta. revert db. induction lgs as [|lg lgs IH]; intros db; simpl; [auto|].
  destruct (IH (Finalizer.rank_league p db lg)) as [H1 H2]. split; assumption.
Qed.

Lemma Forall2_In_impl {A B : Type} (R S : A -> B -> Prop) (l : list A) (l' : list B) :
  Forall2 R l l' -> (forall a b, In a l -> R a b -> S a b) -> Forall2 S l l'.
Proof.
  induction 1 as [|a b l l' H _ IH]; intros Himp; constructor.
  - apply Himp; [now left | exact H].
  - apply IH. intros a' b' Hin. apply Himp. now right.
Qed.

(** X13: a run of [finalize_gameweek] over a gameweek whose matches are
    all completed, with team ids unique, leaves for every team a ledger row
    holding the points that [calculate_fantasy_team_points] gives, the same
    number in [gameweek_points] and added to [total_points],
    [current_gameweek] at the gameweek plus one, no transfers made, and a
    banked transfer count of least(old + 1, 1); league and budget are
    untouched. *)
Theorem finalize_postcondition (p : Z) (db : database) :
  NoDup (map team_id (fantasy_teams db)) ->
  existsb (Finalizer.unfinished_match p) (real_matches db) = false ->
  let db1 := fst (Finalizer.finalize_gameweek p db) in
  Forall2
    (fun t0 t1 =>
       let team_points := TeamPoints.calculate_fantasy_team_points db (team_id t0) p in
       team_id t1 = team_id t0
       /\ league_id t1 = league_id t0
       /\ budget_remaining t1 = budget_remaining t0
       /\ Derived.ledger_points db1 (team_id t0) p = Some team_points
       /\ gameweek_points t1 = team_points
       /\ team_total_points t1 = team_total_points t0 + team_points
       /\ current_gameweek t1 = p + 1
       /\ transfers_made_this_gw t1 = 0
       /\ transfers_banked t1 = Z.min (transfers_banked t0 + 1) 1)
    (fantasy_teams db) (fantasy_teams db1).
Proof.
  intros Hnd Hdone db1.
  destruct (finalize_effect p db Hnd Hdone) as (_ & _ & _ & T1 & L1).
  fold db1 in T1, L1. apply map_eq_Forall2 in T1.
  apply (Forall2_In_impl _ _ _ _ T1). intros t0 t1 Hin H.
  apply (f_equal team_id) in H as Hi.
  apply (f_equal league_id) in H as Hl.
  apply (f_equal budget_remaining) in H as Hb.
  apply (f_equal gameweek_points) in H as Hg.
  apply (f_equal team_total_points) in H as Ht.
  apply (f_equal current_gameweek) in H as Hc.
  apply (f_equal transfers_made_this_gw) in H as Hm.
  apply (f_equal transfers_banked) in H as Hk.
  simpl in *. repeat split; try assumption.
  rewrite L1.
  assert (existsb (N.eqb (team_id t0)) (map team_id (fantasy_teams db)) = true) as ->;
    [|reflexivity].
  apply existsb_eqb_In. now apply in_map.
Qed.

Lemma finalize_postcondition_witness :
  let db1 := fst (Finalizer.finalize_gameweek 1 Examples.played_db) in
  Forall2
    (fun t0 t1 =>
       let team_points :=
         TeamPoints.calculate_fantasy_team_points Examples.played_db (team_id t0) 1 in
       team_id t1 = team_id t0
       /\ league_id t1 = league_id t0
       /\ budget_remaining t1 = budget_remaining t0
       /\ Derived.ledger_points db1 (team_id t0) 1 = Some team_points
       /\ gameweek_points t1 = team_points
       /\ team_total_points t1 = team_total_points t0 + team_points
       /\ current_gameweek t1 = 1 + 1
       /\ transfers_made_this_gw t1 = 0
       /\ transfers_banked t1 = Z.min (transfers_banked t0 + 1) 1)
    (fantasy_teams Examples.played_db) (fantasy_teams db1).
Proof.
  apply (finalize_postcondition 1 Examples.played_db).
  - apply (bool_decide_unpack (NoDup (map team_id (fantasy_teams Examples.played_db)))).
    vm_compute. exact I.
  - reflexivity.
Defined.

(** X14: a successful run of [finalize_gameweek] writes nothing to
    [rosters], [players], [gameweek_scores], [real_matches] and
    [transactions]; in [gameweeks] it sets the status of the rows of the
    gameweek to finalized and changes nothing else, flags included; and the
    points of ledger rows of other gameweeks stay as they are. *)
Theorem finalize_frame (p : Z) (db : database) :
  existsb (Finalizer.unfinished_match p) (real_matches db) = false ->
  let db1 := fst (Finalizer.finalize_gameweek p db) in
  rosters db1 = rosters db /\ players db1 = players db
  /\ gameweek_scores db1 = gameweek_scores db
  /\ real_matches db1 = real_matches db
  /\ transactions db1 = transactions db
  /\ gameweeks db1
     = map (fun g => if gameweek_number g =? p then Calendar.set_status finalized g else g)
         (gameweeks db)
  /\ forall t q, q <> p -> Derived.ledger_points db1 t q = Derived.ledger_points db t q.
Proof.
  intros Hdone. unfold Finalizer.finalize_gameweek. rewrite Hdone.
  cbv zeta. cbn [fst].
  destruct (team_loop p db (Finalizer.teams_by_id db) db (same_inputs_refl db))
    as (A1 & A2 & _ & _ & A5).
  destruct (team_loop_frame p (Finalizer.teams_by_id db) db) as [A6 A7].
  set (dbA := fold_left (Finalizer.finalize_team p) (Finalizer.teams_by_id db) db) in *.
  destruct (league_loop p (Finalizer.distinct_leagues dbA) dbA) as (B1 & B2 & _ & B4).
  destruct (league_loop_frame p (Finalizer.distinct_leagues dbA) dbA) as [B6 B7].
  set (dbB := fold_left (Finalizer.rank_league p) (Finalizer.distinct_leagues dbA) dbA) in *.
  destruct (rank_overall_effect dbB) as (C1 & C2 & C3 & _).
  set (dbC := Finalizer.rank_overall dbB) in *.
  assert (Hsame : Derived.same_inputs db dbC).
  { eapply same_inputs_trans; [exact A1|].
    eapply same_inputs_trans; [exact B1|exact C1]. }
  destruct Hsame as (S1 & S2 & S3).
  change (rosters (Finalizer.mark_finalized p dbC)) with (rosters dbC).
  change (players (Finalizer.mark_finalized p dbC)) with (players dbC).
  change (gameweek_scores (Finalizer.mark_finalized p dbC)) with (gameweek_scores dbC).
  change (real_matches (Finalizer.mark_finalized p dbC)) with (real_matches dbC).
  change (transactions (Finalizer.mark_finalized p dbC)) with (transactions dbB).
  change (gameweeks (Finalizer.mark_finalized p dbC))
    with (Calendar.update_where (fun g => gameweek_number g =? p)
            (Calendar.set_status finalized) (gameweeks dbB)).
  repeat split; try congruence.
  - rewrite B6, A6. reflexivity.
  - intros t q Hq. unfold Derived.ledger_points.
    change (fantasy_team_gameweek_points (Finalizer.mark_finalized p dbC))
      with (fantasy_team_gameweek_points dbC).
    rewrite C3, B4, A5, ledger_fold. simpl.
    assert ((q =? p) = false) as -> by lia. reflexivity.
Qed.

Lemma finalize_frame_witness :
  let db1 := fst (Finalizer.finalize_gameweek 1 Examples.played_db) in
  rosters db1 = rosters Examples.played_db /\ players db1 = players Examples.played_db
  /\ gameweek_scores db1 = gameweek_scores Examples.played_db
  /\ real_matches db1 = real_matches Examples.played_db
  /\ transactions db1 = transactions Examples.played_db
  /\ gameweeks db1
     = map (fun g => if gameweek_number g =? 1 then Calendar.set_status finalized g else g)
         (gameweeks Examples.played_db)
  /\ forall t q, q <> 1 ->
       Derived.ledger_points db1 t q = Derived.ledger_points Examples.played_db t q.
Proof. apply (finalize_frame 1 Examples.played_db). reflexivity. Defined.

(** ** Ranks follow points *)

Section SortedOrderBy.

Context {A : Type} (before : A -> A -> bool).
Hypothesis before_asym : forall x y, before x y = true -> before y x = false.
Hypothesis before_negtrans :
  forall x y z, before x z = true -> before x y = true \/ before y z = true.

(** In the result of [ORDER BY], no row sorts strictly before a row that
    precedes it. *)
Lemma insert_by_later (x : A) (s : list A) :
  (forall l1 y l2, s = l1 ++ y :: l2 -> forall z, In z l2 -> before z y = false) ->
  forall l1 y l2, Sql.insert_by before x s = l1 ++ y :: l2 ->
                  forall z, In z l2 -> before z y = false.
Proof.
  induction s as [|h s IH]; intros Hs l1 y l2; simpl.
  - destruct l1 as [|a l1]; simpl; [|destruct l1; discriminate].
    intros [= <- <-] z [].
  - assert (Htail : forall l1 y l2, s = l1 ++ y :: l2 ->
                      forall z, In z l2 -> before z y = false).
    { intros m1 y' m2 -> z Hz. apply (Hs (h :: m1) y' m2); [reflexivity|exact Hz]. }
    assert (Hhead : forall z, In z s -> before z h = false).
    { intros z Hz. apply (Hs [] h s); [reflexivity|exact Hz]. }
    destruct (before h x) eqn:Ehx.
    + destruct l1 as [|a l1]; simpl; intros [= <- Heq] z Hz.
      * rewrite <- Heq in Hz.
        apply (Permutation_in z (insert_by_perm before x s)) in Hz as [<- | Hz];
          [now apply before_asym | now apply Hhead].
      * now apply (IH Htail l1 y l2 Heq).
    + destruct l1 as [|a l1]; simpl; intros [= <- Heq] z Hz.
      * subst l2. destruct Hz as [<- | Hz]; [exact Ehx|].
        destruct (before z x) eqn:Ezx; [|reflexivity].
        destruct (before_negtrans z h x Ezx) as [H | H].
        -- now rewrite (Hhead z Hz) in H.
        -- now rewrite Ehx in H.
      * now apply (Hs l1 y l2).
Qed.

Lemma order_by_later (l : list A) :
  forall l1 y l2, Sql.order_by before l = l1 ++ y :: l2 ->
                  forall z, In z l2 -> before z y = false.
Proof.
  induction l as [|x l IH]; simpl.
  - intros [|a l1] y l2 H; discriminate H.
  - now apply insert_by_later.
Qed.

End SortedOrderBy.

Lemma more_points_asym (a b : fantasy_team) :
  Ranking.more_points a b = true -> Ranking.more_points b a = false.
Proof. unfold Ranking.more_points. lia. Qed.

Lemma more_points_negtrans (a b c : fantasy_team) :
  Ranking.more_points a c = true ->
  Ranking.more_points a b = true \/ Ranking.more_points b c = true.
Proof. unfold Ranking.more_points. lia. Qed.

Lemma assigned_rank_at (l1 l2 : list uuid) (i : uuid) (c : Z) :
  ~ In i l1 ->
  Ranking.assigned_rank (l1 ++ i :: l2) c i = Some (c + Z.of_nat (length l1)).
Proof.
  revert c. induction l1 as [|a l1 IH]; intros c Hnin; simpl.
  - rewrite N.eqb_refl. f_equal. lia.
  - destruct (N.eqb i a) eqn:E.
    + apply N.eqb_eq in E. subst. exfalso. apply Hnin. now left.
    + rewrite IH by (intros H; apply Hnin; now right). f_equal. lia.
Qed.

Lemma assigned_rank_None (ids : list uuid) (c : Z) (i : uuid) :
  ~ In i ids -> Ranking.assigned_rank ids c i = None.
Proof.
  revert c. induction ids as [|a ids IH]; intros c Hnin; simpl; [reflexivity|].
  destruct (N.eqb i a) eqn:E.
  - apply N.eqb_eq in E. subst. exfalso. apply Hnin. now left.
  - apply IH. intros H. apply Hnin. now right.
Qed.

(** The loop that writes [rank] gives each listed team the counter at
    which it is reached. *)
Lemma rank_loop (ids : list uuid) (ts : list fantasy_team) (c : Z) :
  NoDup ids ->
  fst (fold_left
         (fun (st : list fantasy_team * Z) (id : uuid) =>
            (Finalizer.update_team_where id (Finalizer.set_rank (snd st)) (fst st),
             snd st + 1))
         ids (ts, c))
  = map (fun t => match Ranking.assigned_rank ids c (team_id t) with
                  | Some k => Finalizer.set_rank k t
                  | None => t
                  end) ts.
Proof.
  revert ts c. induction ids as [|i ids IH]; intros ts c Hnd; simpl.
  - symmetry. apply map_id.
  - apply NoDup_cons in Hnd as [Hnin Hnd]. rewrite (IH _ _ Hnd).
    unfold Finalizer.update_team_where. rewrite map_map. apply map_ext. intros t.
    destruct (N.eqb (team_id t) i) eqn:E; [|reflexivity].
    apply N.eqb_eq in E. simpl. rewrite E.
    rewrite assigned_rank_None; [reflexivity|].
    intros H. apply Hnin. now apply list_elem_of_In.
Qed.

Lemma NoDup_app_head (l1 l2 : list uuid) (i : uuid) :
  NoDup (l1 ++ i :: l2) -> ~ In i l1.
Proof.
  intros Hnd Hin. apply NoDup_app in Hnd as (_ & Hdisj & _).
  apply (Hdisj i); [now apply list_elem_of_In | left].
Qed.

Section RankBySort.

Context {A : Type} (before : A -> A -> bool) (key : A -> uuid).
Hypothesis before_asym : forall x y, before x y = true -> before y x = false.
Hypothesis before_negtrans :
  forall x y z, before x z = true -> before x y = true \/ before y z = true.

(** Ranks handed out along a sorted query: a row that sorts strictly
    before another is reached at a smaller counter. *)
Lemma assigned_rank_sorted (l : list A) (x y : A) :
  NoDup (map key l) -> In x l -> In y l ->
  exists rx ry,
    Ranking.assigned_rank (map key (Sql.order_by before l)) 1 (key x) = Some rx
    /\ Ranking.assigned_rank (map key (Sql.order_by before l)) 1 (key y) = Some ry
    /\ (before x y = true -> rx < ry)
    /\ 1 <= rx <= Z.of_nat (length l).
Proof.
  intros Hnd Hx Hy.
  assert (Hperm : Permutation (Sql.order_by before l) l) by apply order_by_perm.
  assert (Hlater := order_by_later before before_asym before_negtrans l).
  revert Hperm Hlater. generalize (Sql.order_by before l) as sorted.
  intros sorted Hperm Hlater.
  assert (Hids : NoDup (map key sorted)) by now rewrite Hperm.
  apply (Permutation_in x (Permutation_sym Hperm)) in Hx.
  apply (Permutation_in y (Permutation_sym Hperm)) in Hy.
  destruct (in_split x sorted Hx) as (l1 & l2 & Hsplit).
  destruct (in_split y sorted Hy) as (k1 & k2 & Hsplit').
  assert (Hrx : Ranking.assigned_rank (map key sorted) 1 (key x)
                = Some (1 + Z.of_nat (length l1))).
  { rewrite Hsplit, map_app. simpl. rewrite assigned_rank_at, length_map; [reflexivity|].
    apply (NoDup_app_head _ (map key l2)). rewrite Hsplit, map_app in Hids. exact Hids. }
  assert (Hry : Ranking.assigned_rank (map key sorted) 1 (key y)
                = Some (1 + Z.of_nat (length k1))).
  { rewrite Hsplit', map_app. simpl. rewrite assigned_rank_at, length_map; [reflexivity|].
    apply (NoDup_app_head _ (map key k2)). rewrite Hsplit', map_app in Hids. exact Hids. }
  exists (1 + Z.of_nat (length l1)), (1 + Z.of_nat (length k1)).
  split; [exact Hrx|]. split; [exact Hry|]. split.
  - intros Hb.
    assert (Hy1 : In y l1 \/ y = x \/ In y l2).
    { rewrite Hsplit in Hy. apply in_app_or in Hy as [H | [H | H]]; auto. }
    destruct Hy1 as [Hy1 | [-> | Hy1]].
    + exfalso. destruct (in_split y l1 Hy1) as (m1 & m2 & Hl1).
      assert (before x y = false) as Hn; [|now rewrite Hn in Hb].
      apply (Hlater m1 y (m2 ++ x :: l2)).
      * rewrite Hsplit, Hl1, <- app_assoc. reflexivity.
      * apply in_or_app. right. now left.
    + exfalso. now rewrite (before_asym x x Hb) in Hb.
    + destruct (in_split y l2 Hy1) as (m1 & m2 & Hl2).
      assert (Hs2 : sorted = (l1 ++ x :: m1) ++ y :: m2)
        by (rewrite Hsplit, Hl2, <- app_assoc; reflexivity).
      assert (Hry' : Ranking.assigned_rank (map key sorted) 1 (key y)
                     = Some (1 + Z.of_nat (length (l1 ++ x :: m1)))).
      { rewrite Hs2, map_app. simpl. rewrite assigned_rank_at, length_map; [reflexivity|].
        apply (NoDup_app_head _ (map key m2)). rewrite Hs2, map_app in Hids. exact Hids. }
      rewrite Hry in Hry'. injection Hry' as Hlen.
      rewrite length_app in Hlen. simpl in Hlen. lia.
  - rewrite <- (Permutation_length Hperm), Hsplit, length_app. simpl. lia.
Qed.

End RankBySort.

(** The overall ranking on its own. *)
Lemma rank_overall_follows_points (db : database) (a b : fantasy_team) :
  NoDup (map team_id (fantasy_teams db)) ->
  In a (fantasy_teams (Finalizer.rank_overall db)) ->
  In b (fantasy_teams (Finalizer.rank_overall db)) ->
  (team_total_points b < team_total_points a -> rank a < rank b)
  /\ 1 <= rank a <= Z.of_nat (length (fantasy_teams db)).
Proof.
  intros Hnd Ha Hb. unfold Finalizer.rank_overall in Ha, Hb. simpl in Ha, Hb.
  fold Ranking.more_points in Ha, Hb.
  assert (Hids : NoDup (map team_id (Sql.order_by Ranking.more_points (fantasy_teams db))))
    by now rewrite order_by_perm.
  rewrite (rank_loop _ _ _ Hids) in Ha, Hb.
  apply in_map_iff in Ha as (a0 & <- & Ha0). apply in_map_iff in Hb as (b0 & <- & Hb0).
  destruct (assigned_rank_sorted Ranking.more_points team_id more_points_asym
              more_points_negtrans (fantasy_teams db) a0 b0 Hnd Ha0 Hb0)
    as (ra & rb & -> & -> & Hlt & Hbound).
  simpl. split; [|exact Hbound].
  intros H. apply Hlt. unfold Ranking.more_points. lia.
Qed.

Lemma finalize_team_ids (p : Z) (db : database) :
  NoDup (map team_id (fantasy_teams db)) ->
  let dbA := fold_left (Finalizer.finalize_team p) (Finalizer.teams_by_id db) db in
  let dbB := fold_left (Finalizer.rank_league p) (Finalizer.distinct_leagues dbA) dbA in
  map team_id (fantasy_teams dbB) = map team_id (fantasy_teams db).
Proof.
  intros Hnd dbA dbB.
  destruct (team_loop p db (Finalizer.teams_by_id db) db (same_inputs_refl db))
    as (_ & _ & _ & A4 & _).
  fold dbA in A4.
  destruct (league_loop p (Finalizer.distinct_leagues dbA) dbA) as (_ & _ & B3 & _).
  fold dbB in B3.
  assert (Hids : NoDup (Finalizer.teams_by_id db)) by now rewrite teams_by_id_perm.
  rewrite B3, A4, (roll_over_teams p db _ _ Hids), map_map.
  apply map_ext. intros t.
  now destruct (existsb (N.eqb (team_id t)) (Finalizer.teams_by_id db)).
Qed.

(** X15: after a successful run of [finalize_gameweek] over teams with
    unique ids, the overall ranks follow the new totals: of two teams, the
    one with more [total_points] has the smaller [rank], and every rank lies
    between 1 and the number of teams. *)
Theorem finalize_ranks_follow_total_points (p : Z) (db : database)
    (a b : fantasy_team) :
  NoDup (map team_id (fantasy_teams db)) ->
  existsb (Finalizer.unfinished_match p) (real_matches db) = false ->
  let db1 := fst (Finalizer.finalize_gameweek p db) in
  In a (fantasy_teams db1) -> In b (fantasy_teams db1) ->
  (team_total_points b < team_total_points a -> rank a < rank b)
  /\ 1 <= rank a <= Z.of_nat (length (fantasy_teams db)).
Proof.
  intros Hnd Hdone. unfold Finalizer.finalize_gameweek. rewrite Hdone.
  cbv zeta. cbn [fst].
  pose proof (finalize_team_ids p db Hnd) as Hids. cbv zeta in Hids.
  set (dbA := fold_left (Finalizer.finalize_team p) (Finalizer.teams_by_id db) db) in *.
  set (dbB := fold_left (Finalizer.rank_league p) (Finalizer.distinct_leagues dbA) dbA) in *.
  change (fantasy_teams (Finalizer.mark_finalized p (Finalizer.rank_overall dbB)))
    with (fantasy_teams (Finalizer.rank_overall dbB)).
  intros Ha Hb.
  assert (Hlen : length (fantasy_teams db) = length (fantasy_teams dbB)).
  { rewrite <- (length_map team_id (fantasy_teams db)), <- Hids. apply length_map. }
  rewrite Hlen. apply (rank_overall_follows_points dbB a b); [|exact Ha|exact Hb].
  now rewrite Hids.
Qed.

Lemma finalize_ranks_follow_total_points_witness :
  let db1 := fst (Finalizer.finalize_gameweek 1 Examples.played_db) in
  In MoreExamples.leader (fantasy_teams db1)
  /\ In MoreExamples.runner_up (fantasy_teams db1)
  /\ (team_total_points MoreExamples.runner_up < team_total_points MoreExamples.leader ->
      rank MoreExamples.leader < rank MoreExamples.runner_up)
  /\ 1 <= rank MoreExamples.leader
     <= Z.of_nat (length (fantasy_teams Examples.played_db)).
Proof.
  assert (Ha : In MoreExamples.leader
                 (fantasy_teams (fst (Finalizer.finalize_gameweek 1 Examples.played_db))))
    by (right; left; reflexivity).
  assert (Hb : In MoreExamples.runner_up
                 (fantasy_teams (fst (Finalizer.finalize_gameweek 1 Examples.played_db))))
    by (left; reflexivity).
  split; [exact Ha|]. split; [exact Hb|].
  apply (finalize_ranks_follow_total_points 1 Examples.played_db
           MoreExamples.leader MoreExamples.runner_up).
  - apply (bool_decide_unpack (NoDup (map team_id (fantasy_teams Examples.played_db)))).
    vm_compute. exact I.
  - reflexivity.
  - exact Ha.
  - exact Hb.
Defined.

(** ** Team points are not negative *)

Section NonNegative.

Variables (db : database) (t : uuid) (gw : Z).

Hypothesis scores_nonneg :
  map_Forall (fun (k : N * Z) s => k.2 = gw -> 0 <= Sql.coalesce (total_points s) 0)
    (gameweek_scores db).

Lemma lookup_nonneg (pid : uuid) :
  0 <= Sql.coalesce (TeamPoints.gs_total_points (gameweek_scores db !! (pid, gw))) 0.
Proof.
  destruct (gameweek_scores db !! (pid, gw)) as [s|] eqn:E; simpl; [|lia].
  now apply (map_Forall_lookup_1 _ _ _ _ scores_nonneg E).
Qed.

Lemma score_of_nonneg (pid : option uuid) :
  0 <= TeamPoints.or_zero (TeamPoints.gs_total_points (TeamPoints.score_of db gw pid)).
Proof.
  unfold TeamPoints.or_zero. destruct pid as [pid|]; simpl; [apply lookup_nonneg | lia].
Qed.

Lemma joined_nonneg (j : TeamPoints.joined) :
  In j (TeamPoints.team_rows db t gw) ->
  0 <= Sql.coalesce (TeamPoints.gs_total_points (TeamPoints.j_score j)) 0.
Proof.
  unfold TeamPoints.team_rows. rewrite in_flat_map. intros (r & _ & Hj).
  unfold TeamPoints.join_row in Hj.
  destruct (player_id r) as [pid|]; [|destruct Hj].
  destruct (players db !! pid); [|destruct Hj].
  destruct Hj as [<- | []]. simpl. apply lookup_nonneg.
Qed.

Lemma starter_contribution_nonneg (pr : TeamPoints.player_record) :
  In pr (TeamPoints.loop_rows db t gw) -> 0 <= Derived.starter_contribution db t gw pr.
Proof.
  unfold TeamPoints.loop_rows. rewrite in_map_iff. intros (j & <- & Hj).
  apply order_by_In in Hj. unfold Derived.starter_contribution.
  destruct (Sql.is_true _); [|lia].
  destruct (_ =? 0).
  - destruct (TeamPoints.find_substitute _ _ _ _) as [sub|] eqn:Es; [|lia].
    destruct (Sql.is_not_null _); [|lia].
    apply find_substitute_Some in Es as (j' & Hj' & _ & -> & _).
    simpl. now apply joined_nonneg.
  - simpl. now apply joined_nonneg.
Qed.

Lemma manual_fold_nonneg (roster rows : list TeamPoints.roster_with_player)
    (a : TeamPoints.acc) :
  0 <= TeamPoints.acc_total a -> 0 <= TeamPoints.acc_captain a ->
  0 <= TeamPoints.acc_total (fold_left (TeamPoints.manual_body db gw roster) rows a)
  /\ 0 <= TeamPoints.acc_captain (fold_left (TeamPoints.manual_body db gw roster) rows a).
Proof.
  revert a. induction rows as [|rp rows IH]; intros a Ht Hc; simpl; [auto|].
  apply IH; unfold TeamPoints.manual_body;
    (destruct (TeamPoints.not_starter rp); [assumption|]); cbv zeta;
    pose proof (score_of_nonneg (player_id (TeamPoints.rw_roster rp)));
    (destruct (_ =? 0);
     [destruct (TeamPoints.find_bench roster rp) as [s|]; [|assumption];
      pose proof (score_of_nonneg (player_id (TeamPoints.rw_roster s)));
      destruct (0 <? _); [|assumption]|]);
    simpl; try destruct (Sql.is_true _); lia.
Qed.

End NonNegative.

Lemma sumZ_map_nonneg {A : Type} (f : A -> Z) (l : list A) :
  (forall x, In x l -> 0 <= f x) -> 0 <= Derived.sumZ (map f l).
Proof.
  induction l as [|x l IH]; intros H; simpl; [lia|].
  assert (0 <= f x) by (apply H; now left).
  assert (0 <= Derived.sumZ (map f l)) by (apply IH; intros y Hy; apply H; now right).
  lia.
Qed.

Lemma captain_bonus_nonneg (db : database) (t : uuid) (gw cp : Z) :
  0 <= TeamPoints.captain_bonus db t gw cp.
Proof.
  unfold TeamPoints.captain_bonus. destruct (0 <? cp) eqn:E; [lia|].
  destruct (TeamPoints.select_vice_captain_id db t) as [vc|]; [|lia].
  cbv zeta. destruct (TeamPoints.vice_captain_points db gw vc) as [v|]; simpl; [|lia].
  destruct (0 <? v) eqn:Ev; simpl; lia.
Qed.

(** X16: when no stored score of the gameweek is negative, neither
    [calculate_fantasy_team_points] nor [calculateTeamPointsManual] gives a
    negative total. *)
Theorem team_points_not_negative (db : database) (t : uuid) (gw : Z) :
  map_Forall (fun (k : N * Z) s => k.2 = gw -> 0 <= Sql.coalesce (total_points s) 0)
    (gameweek_scores db) ->
  0 <= TeamPoints.calculate_fantasy_team_points db t gw
  /\ 0 <= TeamPoints.calculateTeamPointsManual db t gw.
Proof.
  intros Hs. split.
  - unfold TeamPoints.calculate_fantasy_team_points, TeamPoints.run_loop. cbv zeta.
    rewrite loop_total. simpl.
    pose proof (captain_bonus_nonneg db t gw
                  (TeamPoints.acc_captain
                     (fold_left (TeamPoints.loop_body db t gw) (TeamPoints.loop_rows db t gw)
                        {| TeamPoints.acc_total := 0; TeamPoints.acc_captain := 0 |}))).
    pose proof (sumZ_map_nonneg (Derived.starter_contribution db t gw)
                  (TeamPoints.loop_rows db t gw)
                  (starter_contribution_nonneg db t gw Hs)).
    lia.
  - unfold TeamPoints.calculateTeamPointsManual. cbv zeta.
    destruct (manual_fold_nonneg db gw Hs (TeamPoints.select_roster db t)
                (TeamPoints.select_roster db t)
                {| TeamPoints.acc_total := 0; TeamPoints.acc_captain := 0 |});
      simpl; lia.
Qed.

Lemma team_points_not_negative_witness :
  0 <= TeamPoints.calculate_fantasy_team_points Examples.played_db 1%N 1
  /\ 0 <= TeamPoints.calculateTeamPointsManual Examples.played_db 1%N 1.
Proof.
  apply (team_points_not_negative Examples.played_db 1%N 1).
  apply (bool_decide_unpack
           (map_Forall (fun (k : N * Z) s =>
                          k.2 = 1 -> 0 <= Sql.coalesce (total_points s) 0)
              (gameweek_scores Examples.played_db))).
  vm_compute. exact I.
Defined.

(** ** One more goal *)

Lemma points_one_more_goal (s : Scoring.PlayerStats) (pl : Scoring.Player) :
  0 <= Scoring.goals s ->
  Scoring.points_before_clamp (Goals.with_goals (Scoring.goals s + 1) s) pl
  = Scoring.points_before_clamp s pl + Goals.goal_award (Scoring.position pl).
Proof.
  intros Hg. unfold Scoring.points_before_clamp, Goals.goal_award. simpl.
  destruct (Scoring.position pl), (Scoring.clean_sheet s); simpl;
    destruct (0 <? Scoring.goals s) eqn:E1, (0 <? Scoring.goals s + 1) eqn:E2; lia.
Qed.

(** X17: a goal added to the stats of a listed player whose goals are not
    negative never lowers what [calculatePlayerPoints] gives for him; it
    raises it by 10, 6, 5 or 4 for a goalkeeper, defender, midfielder or
    forward when his sum was not below the floor of 0; and the points of
    every other player stay as they are. *)
Theorem goal_adds_position_award (playerStats : gmap N Scoring.PlayerStats)
    (homePlayers awayPlayers : list Scoring.Player) (playerId : uuid)
    (stats : Scoring.PlayerStats) (player : Scoring.Player) :
  playerStats !! playerId = Some stats ->
  List.find (fun p => N.eqb (Scoring.player_id p) playerId) (homePlayers ++ awayPlayers)
  = Some player ->
  0 <= Scoring.goals stats ->
  let updated := <[playerId := Goals.with_goals (Scoring.goals stats + 1) stats]> playerStats in
  Scoring.calculatePlayerPoints playerStats homePlayers awayPlayers playerId
  <= Scoring.calculatePlayerPoints updated homePlayers awayPlayers playerId
  /\ (0 <= Scoring.points_before_clamp stats player ->
      Scoring.calculatePlayerPoints updated homePlayers awayPlayers playerId
      = Scoring.calculatePlayerPoints playerStats homePlayers awayPlayers playerId
        + Goals.goal_award (Scoring.position player))
  /\ forall other, other <> playerId ->
       Scoring.calculatePlayerPoints updated homePlayers awayPlayers other
       = Scoring.calculatePlayerPoints playerStats homePlayers awayPlayers other.
Proof.
  intros Hs Hp Hg updated. unfold Scoring.calculatePlayerPoints, updated.
  rewrite lookup_insert_eq, Hs, Hp, (points_one_more_goal stats player Hg).
  assert (0 <= Goals.goal_award (Scoring.position player))
    by (unfold Goals.goal_award; destruct (Scoring.position player); lia).
  split; [lia|]. split; [lia|].
  intros other Hne. now rewrite lookup_insert_ne.
Qed.

Lemma goal_adds_position_award_witness :
  let playerStats : gmap N Scoring.PlayerStats := {[ 7%N := Examples.no_stats ]} in
  let updated := <[7%N := Goals.with_goals (Scoring.goals Examples.no_stats + 1)
                            Examples.no_stats]> playerStats in
  Scoring.calculatePlayerPoints playerStats [Examples.keeper] [] 7%N
  <= Scoring.calculatePlayerPoints updated [Examples.keeper] [] 7%N
  /\ (0 <= Scoring.points_before_clamp Examples.no_stats Examples.keeper ->
      Scoring.calculatePlayerPoints updated [Examples.keeper] [] 7%N
      = Scoring.calculatePlayerPoints playerStats [Examples.keeper] [] 7%N
        + Goals.goal_award (Scoring.position Examples.keeper))
  /\ forall other, other <> 7%N ->
       Scoring.calculatePlayerPoints updated [Examples.keeper] [] other
       = Scoring.calculatePlayerPoints playerStats [Examples.keeper] [] other.
Proof.
  apply (goal_adds_position_award {[ 7%N := Examples.no_stats ]} [Examples.keeper] [] 7%N
           Examples.no_stats Examples.keeper).
  - reflexivity.
  - reflexivity.
  - simpl. lia.
Defined.

(** ** League ranks follow gameweek points *)

Lemma more_gameweek_points_asym (a b : uuid * Z) :
  Ranking.more_gameweek_points a b = true -> Ranking.more_gameweek_points b a = false.
Proof. unfold Ranking.more_gameweek_points. lia. Qed.

Lemma more_gameweek_points_negtrans (a b c : uuid * Z) :
  Ranking.more_gameweek_points a c = true ->
  Ranking.more_gameweek_points a b = true \/ Ranking.more_gameweek_points b c = true.
Proof. unfold Ranking.more_gameweek_points. lia. Qed.

Lemma league_rows_entries (p : Z) (db : database) (lg : uuid) :
  Finalizer.league_rows p db lg
  = Sql.order_by Ranking.more_gameweek_points
      (omap (Ranking.league_entry p db lg) (fantasy_teams db)).
Proof. reflexivity. Qed.

Lemma league_entry_Some (p : Z) (db : database) (lg : uuid) (t : fantasy_team)
    (e : uuid * Z) :
  Ranking.league_entry p db lg t = Some e ->
  Ranking.league_member lg t = true
  /\ exists row, fantasy_team_gameweek_points db !! (team_id t, p) = Some row
                 /\ e = (team_id t, points row).
Proof.
  unfold Ranking.league_entry. destruct (Ranking.league_member lg t); [|discriminate].
  destruct (fantasy_team_gameweek_points db !! (team_id t, p)) as [row|]; [|discriminate].
  intros [= <-]. split; [reflexivity|]. now exists row.
Qed.

Lemma league_member_spec (lg : uuid) (t : fantasy_team) :
  Ranking.league_member lg t = true <-> league_id t = Some lg.
Proof.
  unfold Ranking.league_member, Sql.is_true, Sql.cmp3.
  destruct (league_id t) as [l|]; [|split; discriminate].
  destruct (N.eqb l lg) eqn:E.
  - apply N.eqb_eq in E. subst. split; reflexivity.
  - apply N.eqb_neq in E. split; [discriminate | congruence].
Qed.

Lemma league_entries_In (p : Z) (db : database) (lg : uuid) (ts : list fantasy_team)
    (e : uuid * Z) :
  In e (omap (Ranking.league_entry p db lg) ts) <->
  exists t, In t ts /\ Ranking.league_entry p db lg t = Some e.
Proof.
  induction ts as [|t ts IH]; simpl.
  - split; [intros [] | intros (t & [] & _)].
  - destruct (Ranking.league_entry p db lg t) as [e'|] eqn:E; simpl; rewrite IH.
    + split.
      * intros [<- | (t' & Ht' & He)]; [exists t; auto | exists t'; auto].
      * intros (t' & [<- | Ht'] & He); [left; congruence | right; exists t'; auto].
    + split.
      * intros (t' & Ht' & He). exists t'; auto.
      * intros (t' & [<- | Ht'] & He); [congruence | exists t'; auto].
Qed.

Lemma league_entries_NoDup (p : Z) (db : database) (lg : uuid) (ts : list fantasy_team) :
  NoDup (map team_id ts) ->
  NoDup (map fst (omap (Ranking.league_entry p db lg) ts)).
Proof.
  induction ts as [|t ts IH]; simpl; intros Hnd; [constructor|].
  apply NoDup_cons in Hnd as [Hnin Hnd].
  destruct (Ranking.league_entry p db lg t) as [e|] eqn:E; simpl; [|now apply IH].
  apply NoDup_cons. split; [|now apply IH].
  intros Hin. apply Hnin. apply list_elem_of_In. apply list_elem_of_In in Hin.
  apply in_map_iff in Hin as (e' & He' & Hin).
  apply league_entries_In in Hin as (t' & Ht' & Hent).
  apply league_entry_Some in E as (_ & row & _ & ->).
  apply league_entry_Some in Hent as (_ & row' & _ & ->).
  simpl in He'. rewrite <- He'. now apply in_map.
Qed.

Lemma NoDup_map_In_inj {A : Type} (f : A -> uuid) (l : list A) (x y : A) :
  NoDup (map f l) -> In x l -> In y l -> f x = f y -> x = y.
Proof.
  induction l as [|a l IH]; simpl; intros Hnd Hx Hy E; [destruct Hx|].
  apply NoDup_cons in Hnd as [Hnin Hnd].
  destruct Hx as [-> | Hx], Hy as [-> | Hy]; auto.
  - exfalso. apply Hnin. apply list_elem_of_In. rewrite E. now apply in_map.
  - exfalso. apply Hnin. apply list_elem_of_In. rewrite <- E. now apply in_map.
Qed.

(** A team is not among the rows of a league other than its own. *)
Lemma other_league_rows (p : Z) (db : database) (lg lg' : uuid) (a : fantasy_team) :
  NoDup (map team_id (fantasy_teams db)) ->
  In a (fantasy_teams db) -> league_id a = Some lg -> lg' <> lg ->
  ~ In (team_id a) (map fst (Finalizer.league_rows p db lg')).
Proof.
  intros Hnd Ha Hl Hne Hin. rewrite league_rows_entries in Hin.
  apply in_map_iff in Hin as (e & He & Hin).
  apply order_by_In, league_entries_In in Hin as (t & Ht & Hent).
  apply league_entry_Some in Hent as (Hm & row & _ & ->). simpl in He.
  apply league_member_spec in Hm.
  assert (t = a) by (apply (NoDup_map_In_inj team_id (fantasy_teams db)); assumption).
  subst t. congruence.
Qed.

(** The inner ranking loop, row by row of the ledger. *)
Lemma league_rank_loop (p : Z) (rows : list (uuid * Z))
    (m : gmap (N * Z) gameweek_points_row) (c : Z) (id : uuid) :
  NoDup (map fst rows) ->
  fst (fold_left
         (fun (st : gmap (N * Z) gameweek_points_row * Z) (row : uuid * Z) =>
            (alter (Finalizer.set_rank_in_league (snd st)) (fst row, p) (fst st),
             snd st + 1))
         rows (m, c)) !! (id, p)
  = match Ranking.assigned_rank (map fst rows) c id with
    | Some r => Finalizer.set_rank_in_league r <$> m !! (id, p)
    | None => m !! (id, p)
    end.
Proof.
  revert m c. induction rows as [|row rows IH]; intros m c Hnd; simpl; [reflexivity|].
  apply NoDup_cons in Hnd as [Hnin Hnd]. rewrite (IH _ _ Hnd). cbn [fst snd].
  rewrite lookup_alter. destruct (N.eqb id row.1) eqn:E.
  - apply N.eqb_eq in E. subst id.
    rewrite assigned_rank_None by (intros H; apply Hnin; now apply list_elem_of_In).
    now rewrite decide_True.
  - apply N.eqb_neq in E. rewrite decide_False by congruence. reflexivity.
Qed.

Lemma league_rows_ext (p : Z) (db db' : database) (lg : uuid) :
  fantasy_teams db' = fantasy_teams db ->
  (forall k, Derived.points_at (fantasy_team_gameweek_points db') k
             = Derived.points_at (fantasy_team_gameweek_points db) k) ->
  Finalizer.league_rows p db' lg = Finalizer.league_rows p db lg.
Proof.
  intros Ht Hp. rewrite !league_rows_entries, Ht.
  apply (f_equal (Sql.order_by Ranking.more_gameweek_points)). clear Ht.
  induction (fantasy_teams db) as [|t ts IH]; simpl; [reflexivity|].
  assert (Ranking.league_entry p db' lg t = Ranking.league_entry p db lg t) as ->.
  { unfold Ranking.league_entry. destruct (Ranking.league_member lg t); [|reflexivity].
    specialize (Hp (team_id t, p)). unfold Derived.points_at in Hp.
    destruct (fantasy_team_gameweek_points db' !! (team_id t, p)),
             (fantasy_team_gameweek_points db !! (team_id t, p)); congruence. }
  destruct (Ranking.league_entry p db lg t); [f_equal|]; exact IH.
Qed.

(** The loop over the leagues: the ledger row of a team is touched in the
    pass of its own league only. *)
Lemma league_loop_rank (p : Z) (lg : uuid) (a : fantasy_team) (lgs : list uuid)
    (db : database) :
  NoDup lgs ->
  NoDup (map team_id (fantasy_teams db)) ->
  In a (fantasy_teams db) -> league_id a = Some lg ->
  fantasy_team_gameweek_points (fold_left (Finalizer.rank_league p) lgs db)
    !! (team_id a, p)
  = if existsb (N.eqb lg) lgs then
      match Ranking.assigned_rank (map fst (Finalizer.league_rows p db lg)) 1 (team_id a) with
      | Some r => Finalizer.set_rank_in_league r
                    <$> fantasy_team_gameweek_points db !! (team_id a, p)
      | None => fantasy_team_gameweek_points db !! (team_id a, p)
      end
    else fantasy_team_gameweek_points db !! (team_id a, p).
Proof.
  revert db. induction lgs as [|lg0 lgs IH]; intros db Hlgs Hnd Ha Hl;
    cbn [fold_left existsb]; [reflexivity|].
  apply NoDup_cons in Hlgs as [Hnin Hlgs].
  destruct (rank_league_effect p db lg0) as (_ & _ & G3 & G4).
  rewrite IH; [|assumption|now rewrite G3|now rewrite G3|assumption].
  rewrite (league_rows_ext p db _ lg G3 G4).
  assert (Hrows : NoDup (map fst (Finalizer.league_rows p db lg0))).
  { rewrite league_rows_entries, order_by_perm. now apply league_entries_NoDup. }
  assert (Hhere : fantasy_team_gameweek_points (Finalizer.rank_league p db lg0)
                    !! (team_id a, p)
                  = match Ranking.assigned_rank (map fst (Finalizer.league_rows p db lg0)) 1
                            (team_id a) with
                    | Some r => Finalizer.set_rank_in_league r
                                  <$> fantasy_team_gameweek_points db !! (team_id a, p)
                    | None => fantasy_team_gameweek_points db !! (team_id a, p)
                    end).
  { unfold Finalizer.rank_league. cbv zeta. simpl. now apply league_rank_loop. }
  destruct (N.eqb lg lg0) eqn:E; cbn [orb].
  - apply N.eqb_eq in E. subst lg0.
    assert (existsb (N.eqb lg) lgs = false) as ->; [|exact Hhere].
    destruct (existsb (N.eqb lg) lgs) eqn:Ex; [|reflexivity].
    apply existsb_eqb_In in Ex. exfalso. apply Hnin. now apply list_elem_of_In.
  - apply N.eqb_neq in E.
    rewrite assigned_rank_None in Hhere
      by (apply other_league_rows with (lg := lg); auto).
    now rewrite Hhere.
Qed.

Lemma omap_length_filter {A B : Type} (f : A -> option B) (g : A -> bool) (l : list A) :
  (forall x y, f x = Some y -> g x = true) ->
  (length (omap f l) <= length (List.filter g l))%nat.
Proof.
  intros H. induction l as [|x l IH]; simpl; [lia|].
  destruct (f x) as [y|] eqn:E.
  - rewrite (H x y E). simpl. apply le_n_S. exact IH.
  - destruct (g x); simpl; [apply le_S|]; exact IH.
Qed.

(** X18: after a successful run of [finalize_gameweek] over teams with
    unique ids, two teams of one league both have a ledger row of the
    gameweek with a rank in the league; the team with more points of the
    gameweek has the smaller rank, and the rank lies between 1 and the
    number of teams of the league. *)
Theorem finalize_league_ranks_follow_points (p : Z) (db : database)
    (a b : fantasy_team) (lg : uuid) :
  NoDup (map team_id (fantasy_teams db)) ->
  existsb (Finalizer.unfinished_match p) (real_matches db) = false ->
  In a (fantasy_teams db) -> In b (fantasy_teams db) ->
  league_id a = Some lg -> league_id b = Some lg ->
  let db1 := fst (Finalizer.finalize_gameweek p db) in
  exists rowa rowb ra rb,
    fantasy_team_gameweek_points db1 !! (team_id a, p) = Some rowa
    /\ fantasy_team_gameweek_points db1 !! (team_id b, p) = Some rowb
    /\ rank_in_league rowa = Some ra /\ rank_in_league rowb = Some rb
    /\ (points rowb < points rowa -> ra < rb)
    /\ 1 <= ra <= Z.of_nat (Ranking.league_size db lg).
Proof.
  intros Hnd Hdone Ha Hb Hla Hlb. unfold Finalizer.finalize_gameweek. rewrite Hdone.
  cbv zeta. cbn [fst].
  destruct (team_loop p db (Finalizer.teams_by_id db) db (same_inputs_refl db))
    as (_ & _ & _ & A4 & A5).
  set (dbA := fold_left (Finalizer.finalize_team p) (Finalizer.teams_by_id db) db) in *.
  set (dbB := fold_left (Finalizer.rank_league p) (Finalizer.distinct_leagues dbA) dbA).
  change (fantasy_team_gameweek_points
            (Finalizer.mark_finalized p (Finalizer.rank_overall dbB)))
    with (fantasy_team_gameweek_points dbB).
  assert (Hids : NoDup (Finalizer.teams_by_id db)) by now rewrite teams_by_id_perm.
  rewrite (roll_over_teams p db _ _ Hids) in A4.
  set (roll := fun t : fantasy_team =>
                 if existsb (N.eqb (team_id t)) (Finalizer.teams_by_id db)
                 then Finalizer.roll_over p
                        (TeamPoints.calculate_fantasy_team_points db (team_id t) p) t
                 else t) in A4.
  assert (Hroll_id : forall t, team_id (roll t) = team_id t)
    by (intros t; unfold roll; cbv beta;
        destruct (existsb (N.eqb (team_id t)) (Finalizer.teams_by_id db)); reflexivity).
  assert (Hroll_lg : forall t, league_id (roll t) = league_id t)
    by (intros t; unfold roll; cbv beta;
        destruct (existsb (N.eqb (team_id t)) (Finalizer.teams_by_id db)); reflexivity).
  assert (HndA : NoDup (map team_id (fantasy_teams dbA))).
  { rewrite A4, map_map.
    now rewrite (map_ext (fun t => team_id (roll t)) team_id Hroll_id). }
  assert (Hrow : forall t, In t (fantasy_teams db) ->
            exists row, fantasy_team_gameweek_points dbA !! (team_id t, p) = Some row).
  { intros t Ht.
    assert (Hp : Derived.points_at (fantasy_team_gameweek_points dbA) (team_id t, p)
                 = Some (TeamPoints.calculate_fantasy_team_points db (team_id t) p)).
    { rewrite A5, ledger_fold. simpl. rewrite Z.eqb_refl. simpl.
      assert (existsb (N.eqb (team_id t)) (Finalizer.teams_by_id db) = true) as ->;
        [|reflexivity].
      rewrite (existsb_Permutation _ _ _ (teams_by_id_perm db)).
      apply existsb_eqb_In. now apply in_map. }
    unfold Derived.points_at in Hp.
    destruct (fantasy_team_gameweek_points dbA !! (team_id t, p)) as [row|];
      [now exists row | discriminate]. }
  destruct (Hrow a Ha) as (rowA & HrowA). destruct (Hrow b Hb) as (rowB & HrowB).
  assert (HaA : In (roll a) (fantasy_teams dbA)) by (rewrite A4; now apply in_map).
  assert (HbA : In (roll b) (fantasy_teams dbA)) by (rewrite A4; now apply in_map).
  assert (Hlgs : NoDup (Finalizer.distinct_leagues dbA)) by apply NoDup_remove_dups.
  assert (Hlg : existsb (N.eqb lg) (Finalizer.distinct_leagues dbA) = true).
  { apply existsb_eqb_In, list_elem_of_In, elem_of_remove_dups, list_elem_of_omap.
    exists (roll a). split; [now apply list_elem_of_In | now rewrite Hroll_lg]. }
  pose proof (league_loop_rank p lg (roll a) _ dbA Hlgs HndA HaA) as Ra.
  pose proof (league_loop_rank p lg (roll b) _ dbA Hlgs HndA HbA) as Rb.
  rewrite Hroll_lg, Hroll_id, Hlg in Ra, Rb.
  specialize (Ra Hla). specialize (Rb Hlb). fold dbB in Ra, Rb.
  assert (Hea : In (team_id a, points rowA)
                  (omap (Ranking.league_entry p dbA lg) (fantasy_teams dbA))).
  { apply league_entries_In. exists (roll a). split; [exact HaA|].
    unfold Ranking.league_entry.
    rewrite (proj2 (league_member_spec lg (roll a))) by now rewrite Hroll_lg.
    now rewrite Hroll_id, HrowA. }
  assert (Heb : In (team_id b, points rowB)
                  (omap (Ranking.league_entry p dbA lg) (fantasy_teams dbA))).
  { apply league_entries_In. exists (roll b). split; [exact HbA|].
    unfold Ranking.league_entry.
    rewrite (proj2 (league_member_spec lg (roll b))) by now rewrite Hroll_lg.
    now rewrite Hroll_id, HrowB. }
  destruct (assigned_rank_sorted Ranking.more_gameweek_points fst
              more_gameweek_points_asym more_gameweek_points_negtrans
              _ _ _ (league_entries_NoDup p dbA lg _ HndA) Hea Heb)
    as (ra & rb & Hra & Hrb & Hlt & Hbound).
  rewrite <- league_rows_entries in Hra, Hrb. simpl in Hra, Hrb.
  rewrite Hra, HrowA in Ra. rewrite Hrb, HrowB in Rb.
  exists (Finalizer.set_rank_in_league ra rowA), (Finalizer.set_rank_in_league rb rowB),
    ra, rb.
  split; [exact Ra|]. split; [exact Rb|]. split; [reflexivity|]. split; [reflexivity|].
  split.
  - simpl. intros H. apply Hlt. unfold Ranking.more_gameweek_points. simpl. lia.
  - split; [lia|]. destruct Hbound as [_ Hup].
    assert (Hsize : (length (omap (Ranking.league_entry p dbA lg) (fantasy_teams dbA))
                     <= Ranking.league_size db lg)%nat).
    { unfold Ranking.league_size.
      assert (length (List.filter (Ranking.league_member lg) (fantasy_teams db))
              = length (List.filter (Ranking.league_member lg) (fantasy_teams dbA))) as ->.
      { rewrite A4, filter_map_comm, length_map. f_equal. apply filter_ext.
        intros t. unfold Ranking.league_member. now rewrite Hroll_lg. }
      apply omap_length_filter. intros t e He.
      now apply league_entry_Some in He as [Hm _]. }
    lia.
Qed.

Lemma finalize_league_ranks_follow_points_witness :
  let db1 := fst (Finalizer.finalize_gameweek 1 Examples.played_db) in
  exists rowa rowb ra rb,
    fantasy_team_gameweek_points db1 !! (team_id Examples.team_a, 1) = Some rowa
    /\ fantasy_team_gameweek_points db1 !! (team_id Examples.team_b, 1) = Some rowb
    /\ rank_in_league rowa = Some ra /\ rank_in_league rowb = Some rb
    /\ (points rowb < points rowa -> ra < rb)
    /\ 1 <= ra <= Z.of_nat (Ranking.league_size Examples.played_db 1%N).
Proof.
  apply (finalize_league_ranks_follow_points 1 Examples.played_db
           Examples.team_a Examples.team_b 1%N).
  - apply (bool_decide_unpack (NoDup (map team_id (fantasy_teams Examples.played_db)))).
    vm_compute. exact I.
  - reflexivity.
  - left. reflexivity.
  - right. left. reflexivity.
  - reflexivity.
  - reflexivity.
Defined.

(** ** The vice-captain's armband *)

Lemma filter_unique {A : Type} (key : A -> N) (g : A -> bool) (l : list A) (x : A) :
  NoDup (map key l) -> In x l -> g x = true ->
  (forall y, In y l -> g y = true -> key y = key x) ->
  List.filter g l = [x].
Proof.
  induction l as [|a l IH]; simpl; intros Hnd Hx Hg Hkey; [destruct Hx|].
  apply NoDup_cons in Hnd as [Hnin Hnd].
  destruct Hx as [-> | Hx].
  - rewrite Hg. f_equal.
    destruct (List.filter g l) as [|y l'] eqn:E; [reflexivity|]. exfalso.
    assert (Hy : In y (List.filter g l)) by (rewrite E; now left).
    apply filter_In in Hy as [Hy Hgy]. apply Hnin.
    rewrite <- (Hkey y (or_intror Hy) Hgy). apply list_elem_of_In. now apply in_map.
  - destruct (g a) eqn:Ea.
    + exfalso. apply Hnin. rewrite (Hkey a (or_introl eq_refl) Ea).
      apply list_elem_of_In. now apply in_map.
    + apply IH; auto.
Qed.

(** X19: after [setViceCaptain] on a roster row of the team, with roster
    ids unique, the vice-captain that [calculate_fantasy_team_points] looks
    up for the team is the player of that row; captain flags and players of
    all rows stay as they were. *)
Theorem setViceCaptain_selected (t rid : uuid) (rs : list roster) (db : database)
    (row : roster) :
  NoDup (map roster_id rs) ->
  In row rs -> roster_id row = rid -> TeamPoints.of_team t row = true ->
  let db' := Transfers.with_rosters (Armband.setViceCaptain t rid rs) db in
  TeamPoints.select_vice_captain_id db' t = player_id row
  /\ map is_captain (rosters db') = map is_captain rs
  /\ map player_id (rosters db') = map player_id rs.
Proof.
  intros Hnd Hin Hrid Hteam. cbv zeta. unfold TeamPoints.select_vice_captain_id.
  cbn [rosters Transfers.with_rosters]. unfold Armband.setViceCaptain. cbv zeta.
  rewrite !map_map. split; [|split].
  - rewrite filter_map_comm.
    rewrite (filter_ext _ (fun r => TeamPoints.of_team t r && N.eqb (roster_id r) rid)).
    + rewrite (filter_unique roster_id _ rs row Hnd Hin).
      * simpl. rewrite Hteam. simpl. rewrite Hrid, N.eqb_refl. reflexivity.
      * now rewrite Hteam, Hrid, N.eqb_refl.
      * intros y _ Hy. apply andb_true_iff in Hy as [_ Hy].
        apply N.eqb_eq in Hy. congruence.
    + intros r. destruct (TeamPoints.of_team t r) eqn:Et; simpl.
      * destruct (N.eqb (roster_id r) rid); simpl; unfold TeamPoints.of_team in *;
          simpl; rewrite Et; reflexivity.
      * destruct (N.eqb (roster_id r) rid); simpl; unfold TeamPoints.of_team in *;
          simpl; rewrite Et; reflexivity.
  - apply map_ext. intros r.
    destruct (TeamPoints.of_team t r); simpl; now destruct (N.eqb _ rid).
  - apply map_ext. intros r.
    destruct (TeamPoints.of_team t r); simpl; now destruct (N.eqb _ rid).
Qed.

Lemma setViceCaptain_selected_witness :
  let db' := Transfers.with_rosters
               (Armband.setViceCaptain 1 1 (rosters Examples.simple_db))
               Examples.simple_db in
  TeamPoints.select_vice_captain_id db' 1
  = player_id (Examples.slot 1 1 10 true true false)
  /\ map is_captain (rosters db') = map is_captain (rosters Examples.simple_db)
  /\ map player_id (rosters db') = map player_id (rosters Examples.simple_db).
Proof.
  apply (setViceCaptain_selected 1 1 (rosters Examples.simple_db) Examples.simple_db
           (Examples.slot 1 1 10 true true false)).
  - apply (bool_decide_unpack (NoDup (map roster_id (rosters Examples.simple_db)))).
    vm_compute. exact I.
  - left. reflexivity.
  - reflexivity.
  - reflexivity.
Defined.
